(** * Room booking bot: conflict detection and command orchestration

    A shallow embedding of the booking core of the JANDI room booking bot
    (services/database.ts, services/commandParser.ts, the command handler
    module, the webhook and admin routes and the initialisation script),
    with the properties of its specification stated and settled against
    it, followed by further properties of the store, the parser and the
    routes.

    Modelling conventions.
    - SQLite TEXT values are [string]s; the comparisons of the SQL queries
      are the byte-wise lexicographic ones of the BINARY collation
      ([String.ltb], [String.leb], [String.eqb]).
    - The [bookings], [rooms] and [audit_logs] tables are lists of records
      in insertion order; rows are never deleted.
    - A dayjs value is [option Z]: the minutes elapsed since the local epoch,
      or [None] for an invalid date.  The deployment zone (Asia/Seoul) has no
      daylight saving, so local wall-clock arithmetic is linear.
    - Clock readings ([Date.now()], [dayjs()], [datetime('now')]) and the
      [Math.random()] digits are inputs, gathered in [Env].
    - Response texts are kept as structured templates ([Message]) carrying
      the interpolated values instead of the rendered strings; of the
      status time table only the test of a slot ([isSlotBooked]) is kept.
    - [trim], [toLowerCase], [toUpperCase] and SQLite's [LOWER] act on the
      ASCII range; the keywords and command words in Korean have no case.
    - The booking policy of config/index.ts is a parameter of the
      handlers; [defaultPolicy] holds its default values.  The webhook
      token of the configuration and the [ADMIN_API_KEY] of the environment
      are parameters of the routes.
    - The store does not fail, except for the UNIQUE constraints on
      [booking_id] and on the name and the email of a room, the foreign key
      from a booking to its room, and the fault a request may be told to
      meet at the handler's first query ([storeFault]) or at the audit
      insert ([auditFault]). *)

From Stdlib Require Import ZArith List String Ascii Bool Lia.
From Stdlib Require Import Sorted Permutation.
Import ListNotations.

Local Open Scope string_scope.
Local Open Scope Z_scope.
Local Open Scope list_scope.

(* ================================================================= *)
(** ** Characters and decimal text *)

Definition charCode (c : ascii) : Z := Z.of_N (N_of_ascii c).

Definition isDigit (c : ascii) : bool :=
  (48 <=? charCode c) && (charCode c <=? 57).

Definition digitVal (c : ascii) : Z := charCode c - 48.

Definition charBetween (lo hi c : ascii) : bool :=
  (charCode lo <=? charCode c) && (charCode c <=? charCode hi).

Definition digitChar (d : Z) : ascii := ascii_of_N (Z.to_N (48 + d)).

(** ASCII case folding: what SQLite's [LOWER] does, and what
    [toLowerCase]/[toUpperCase] do on the ASCII range. *)
Definition lowerChar (c : ascii) : ascii :=
  if charBetween "A" "Z" c then ascii_of_N (Z.to_N (charCode c + 32)) else c.

Definition upperChar (c : ascii) : ascii :=
  if charBetween "a" "z" c then ascii_of_N (Z.to_N (charCode c - 32)) else c.

Fixpoint mapString (f : ascii -> ascii) (s : string) : string :=
  match s with
  | EmptyString => EmptyString
  | String c r => String (f c) (mapString f r)
  end.

Definition toLowerCase : string -> string := mapString lowerChar.
Definition toUpperCase : string -> string := mapString upperChar.

(** Value of a run of decimal digits, most significant first. *)
Fixpoint digitsValue (acc : Z) (l : list ascii) : Z :=
  match l with
  | [] => acc
  | c :: r => digitsValue (acc * 10 + digitVal c) r
  end.

Fixpoint takeDigits (l : list ascii) : list ascii :=
  match l with
  | c :: r => if isDigit c then c :: takeDigits r else []
  | [] => []
  end.

(** ASCII white space: tab, line feed, vertical tab, form feed, carriage
    return and space. *)
Definition isSpace (c : ascii) : bool :=
  ((9 <=? charCode c) && (charCode c <=? 13)) || (charCode c =? 32).

Fixpoint dropSpaces (l : list ascii) : list ascii :=
  match l with
  | c :: r => if isSpace c then dropSpaces r else l
  | [] => []
  end.

(** [parseInt(s, 10)]: leading white space, an optional sign, then the
    longest run of digits; [None] stands for [NaN]. *)
Definition parseInt (s : string) : option Z :=
  let body (l : list ascii) : option Z :=
    match takeDigits l with
    | [] => None
    | ds => Some (digitsValue 0 ds)
    end in
  match dropSpaces (list_ascii_of_string s) with
  | "-"%char :: r => option_map Z.opp (body r)
  | "+"%char :: r => body r
  | l => body l
  end.

Definition twoDigits (n : Z) : string :=
  String (digitChar (n / 10)) (String (digitChar (n mod 10)) EmptyString).

(* ================================================================= *)
(** ** Clock texts and dayjs values *)

(** [/^([01]?[0-9]|2[0-3]):[0-5][0-9]$/], the pattern of [parseBookCommand]
    and [parseMoveCommand]. *)
Definition timeRegex_test (s : string) : bool :=
  match list_ascii_of_string s with
  | [h; colon; m1; m2] =>
      isDigit h && Ascii.eqb colon ":"
      && charBetween "0" "5" m1 && isDigit m2
  | [h1; h2; colon; m1; m2] =>
      ((charBetween "0" "1" h1 && isDigit h2)
       || (Ascii.eqb h1 "2" && charBetween "0" "3" h2))
      && Ascii.eqb colon ":"
      && charBetween "0" "5" m1 && isDigit m2
  | _ => false
  end.

(** [timeToMinutes]: [h * 60 + m] of an [H:mm] or [HH:mm] text.  It is also
    the minute of the day that dayjs reads from such a text under the
    ['HH:mm'] format (one or two hour digits, a separator, two minute
    digits).  Any other shape is an invalid time. *)
Definition timeToMinutes (time : string) : option Z :=
  match list_ascii_of_string time with
  | [h; _; m1; m2] =>
      if isDigit h && isDigit m1 && isDigit m2
      then Some (digitVal h * 60 + (digitVal m1 * 10 + digitVal m2))
      else None
  | [h1; h2; _; m1; m2] =>
      if isDigit h1 && isDigit h2 && isDigit m1 && isDigit m2
      then Some ((digitVal h1 * 10 + digitVal h2) * 60
                 + (digitVal m1 * 10 + digitVal m2))
      else None
  | _ => None
  end.

(** Days from the civil epoch 1970-01-01 to the given proleptic Gregorian
    date, the day count behind [new Date(y, m - 1, d)]. *)
Definition daysFromCivil (y m d : Z) : Z :=
  let y' := if m <=? 2 then y - 1 else y in
  let era := y' / 400 in
  let yoe := y' - era * 400 in
  let mp := (m + 9) mod 12 in
  let doy := (153 * mp + 2) / 5 + d - 1 in
  let doe := yoe * 365 + yoe / 4 - yoe / 100 + doy in
  era * 146097 + doe - 719468.

(** Day number of a canonical [YYYY-MM-DD] text, as [parseKoreanDate]
    emits them; any other text is an invalid date. *)
Definition dateToDays (date : string) : option Z :=
  match list_ascii_of_string date with
  | [y1; y2; y3; y4; _; m1; m2; _; d1; d2] =>
      if forallb isDigit [y1; y2; y3; y4; m1; m2; d1; d2] then
        let y := digitsValue 0 [y1; y2; y3; y4] in
        let m := digitsValue 0 [m1; m2] in
        let d := digitsValue 0 [d1; d2] in
        if (1 <=? m) && (m <=? 12) && (1 <=? d) && (d <=? 31)
        then Some (daysFromCivil y m d) else None
      else None
  | _ => None
  end.

(** A dayjs value: local minutes since the epoch, [None] when invalid. *)
Definition Dayjs : Type := option Z.

(** [dayjs(`${date} ${time}`, 'YYYY-MM-DD HH:mm')]. *)
Definition dayjsParse (date time : string) : Dayjs :=
  match dateToDays date, timeToMinutes time with
  | Some d, Some m => Some (d * 1440 + m)
  | _, _ => None
  end.

(** [t.add(n, 'minute')]. *)
Definition addMinutes (t : Dayjs) (n : Z) : Dayjs :=
  option_map (fun v => v + n) t.

(** [t.format('HH:mm')]. *)
Definition formatHHmm (t : Dayjs) : string :=
  match t with
  | Some v =>
      let m := v mod 1440 in
      (twoDigits (m / 60) ++ ":" ++ twoDigits (m mod 60))%string
  | None => "Invalid Date"
  end.

(** [t.hour()]; [None] stands for [NaN]. *)
Definition hour (t : Dayjs) : option Z :=
  option_map (fun v => (v mod 1440) / 60) t.

(** [t.isBefore(dayjs())] where the current instant is [nowMs]
    milliseconds of local time; an invalid date is before nothing. *)
Definition isBefore (t : Dayjs) (nowMs : Z) : bool :=
  match t with
  | Some v => v * 60000 <? nowMs
  | None => false
  end.

(** JavaScript [a < b] and [a > b] on numbers that may be [NaN]. *)
Definition jsLt (a b : option Z) : bool :=
  match a, b with
  | Some x, Some y => x <? y
  | _, _ => false
  end.

Definition jsGt (a b : option Z) : bool := jsLt b a.

(* ================================================================= *)
(** ** Data model (types/index.ts) *)

Inductive BookingStatus := active | cancelled | completed.

Definition BookingStatus_eqb (a b : BookingStatus) : bool :=
  match a, b with
  | active, active | cancelled, cancelled | completed, completed => true
  | _, _ => false
  end.

Record Room := {
  room_id : Z;
  room_name : string;
  room_displayName : string;
  room_email : string;
  room_calendarId : string;
  room_capacity : Z;
  room_location : string;
  room_autoAccept : bool
}.

Record Booking := {
  id : Z;
  bookingId : string;
  roomId : Z;
  calendarId : string;
  eventId : string;
  title : string;
  date : string;
  startTime : string;
  endTime : string;
  durationMinutes : Z;
  requestedBy : string;
  requestedByName : string;
  status : BookingStatus;
  createdAt : Z;
  updatedAt : Z
}.

Record BookingPolicy := {
  maxDurationMinutes : Z;
  minDurationMinutes : Z;
  bufferMinutes : Z;
  bookingHoursStart : string;
  bookingHoursEnd : string;
  allowedDaysAhead : Z;
  timezone : string
}.

Record JandiOutgoingWebhookPayload := {
  token : string;
  teamName : string;
  roomName : string;
  writerName : string;
  writerEmail : string;
  text : string;
  data : string;
  keyword : string;
  ip : string;
  payload_createdAt : string
}.

Inductive CommandType :=
  | CmdStatus | CmdBook | CmdCancel | CmdMove | CmdExtend | CmdMy | CmdHelp | CmdList.

Inductive ErrorCode :=
  | PARSE_ERROR | UNKNOWN_COMMAND | INTERNAL_ERROR | STATUS_ERROR
  | ROOM_NOT_FOUND | PAST_TIME | OUTSIDE_HOURS | CONFLICT | BOOKING_ERROR
  | BOOKING_NOT_FOUND | INVALID_STATUS | UNAUTHORIZED | CANCEL_ERROR
  | INVALID_LIST | MOVE_ERROR | MAX_DURATION | EXTEND_ERROR.

Inductive MyFilter := FilterToday | FilterWeek | FilterAll.

(** The failure texts of the parser, with their interpolated values. *)
Inductive ParseError :=
  | ErrUnknownCommand (input : string)
  | ErrStatusDate (arg : string)
  | ErrBookFormat
  | ErrBookDate (arg : string)
  | ErrBookTime (arg : string)
  | ErrBookDuration (arg : string)
  | ErrMinDuration (limit : Z)
  | ErrMaxDuration (limit : Z)
  | ErrCancelFormat
  | ErrMoveFormat
  | ErrMoveDate (arg : string)
  | ErrMoveTime (arg : string)
  | ErrExtendFormat
  | ErrExtendMinutes (arg : string)
  | ErrListDate (arg : string).

(** The response templates of the handlers, with their interpolated
    values in the order they appear in the text. *)
Inductive Message :=
  | MsgParseError (error : ParseError)
  | MsgHelp
  | MsgUnknownCommand
  | MsgInternalError (details : string)
  | MsgNoRooms
  | MsgStatus (day : string) (startHour endHour : option Z)
              (rooms : list Room) (bookings : list Booking)
  | MsgRoomNotFound (name : string) (roomList : list string)
  | MsgPastTime
  | MsgOutsideHours (hoursStart hoursEnd : string)
  | MsgBookConflict (displayName day from to : string)
  | MsgBooked (bid displayName day from to : string) (minutes : Z)
              (subject writer : string)
  | MsgBookingFailed (details : string)
  | MsgBookingNotFound (bid : string)
  | MsgAlreadyClosed (st : BookingStatus)
  | MsgCancelNotOwner
  | MsgCancelled (bid : string) (displayName : option string)
                 (day from to subject : string)
  | MsgMyEmpty (filter : MyFilter)
  | MsgMyList (writer : string) (filter : MyFilter) (bookings : list Booking)
  | MsgNoRoomsListed
  | MsgRoomList (rooms : list Room)
  | MsgDayEmpty (day : string)
  | MsgDayList (day : string) (bookings : list Booking)
  | MsgInvalidList
  | MsgMoveNotOwner
  | MsgRoomMissing
  | MsgMoveConflict
  | MsgMoved (bid displayName oldDay oldFrom oldTo newDay newFrom newTo : string)
  | MsgExtendNotOwner
  | MsgMaxDuration (limit : Z)
  | MsgExtendConflict
  | MsgExtended (bid displayName day from to : string) (added total : Z).

Record CommandError := {
  code : ErrorCode;
  details : option string
}.

Record CommandResult := {
  success : bool;
  message : Message;
  result_data : option string;   (* [data: { bookingId }] *)
  error : option CommandError
}.

Inductive AuditStatus := audit_success | audit_failure.

Record AuditLog := {
  log_userEmail : string;
  log_userName : string;
  log_command : string;
  log_commandType : CommandType;
  log_parameters : JandiOutgoingWebhookPayload;  (* [JSON.stringify(payload)] *)
  log_status : AuditStatus;
  log_response : Message;
  log_errorMessage : option string;
  log_ipAddress : string;
  log_roomName : string;
  log_timestamp : Z
}.

(** The three tables of the SQLite file. *)
Record Database := {
  rooms : list Room;
  bookings : list Booking;
  audit_logs : list AuditLog
}.

Definition withBookings (db : Database) (bs : list Booking) : Database :=
  {| rooms := rooms db; bookings := bs; audit_logs := audit_logs db |}.

(* ================================================================= *)
(** ** Store operations (services/database.ts) *)

Fixpoint insertRoom (r : Room) (l : list Room) : list Room :=
  match l with
  | [] => [r]
  | x :: t =>
      if String.leb (room_name r) (room_name x) then r :: l
      else x :: insertRoom r t
  end.

(** [SELECT ... FROM rooms ORDER BY name]. *)
Definition getAllRooms (db : Database) : list Room :=
  fold_right insertRoom [] (rooms db).

(** [WHERE LOWER(name) = LOWER(?)], first row. *)
Definition getRoomByName (db : Database) (name : string) : option Room :=
  find (fun r => String.eqb (toLowerCase (room_name r)) (toLowerCase name))
       (rooms db).

Definition getRoomById (db : Database) (rid : Z) : option Room :=
  find (fun r => room_id r =? rid) (rooms db).

Definition getBookingById (db : Database) (bid : string) : option Booking :=
  find (fun b => String.eqb (bookingId b) bid) (bookings db).

Definition isActive (b : Booking) : bool := BookingStatus_eqb (status b) active.

(** SQL comparisons on TEXT. *)
Definition textLt (a b : string) : bool := String.ltb a b.
Definition textGt (a b : string) : bool := String.ltb b a.
Definition textLe (a b : string) : bool := String.leb a b.
Definition textGe (a b : string) : bool := String.leb b a.

(** The parenthesised three-way disjunction of [checkRoomAvailability],
    with its six parameters bound as in the source:
    [endTime, startTime, endTime, endTime, startTime, endTime]. *)
Definition overlapClause (b : Booking) (start_ end_ : string) : bool :=
  (textLt (startTime b) end_ && textGt (endTime b) start_)
  || (textLt (startTime b) end_ && textGt (endTime b) end_)
  || (textGe (startTime b) start_ && textLe (endTime b) end_).

(** The optional [AND booking_id != ?]; it is appended only when
    [excludeBookingId] is truthy, so neither [undefined] nor the empty
    text excludes anything. *)
Definition notExcluded (excludeBookingId : option string) (b : Booking) : bool :=
  match excludeBookingId with
  | None => true
  | Some x => if String.eqb x "" then true else negb (String.eqb (bookingId b) x)
  end.

(** The [WHERE] clause of [checkRoomAvailability]. *)
Definition conflictRow (rid : Z) (day start_ end_ : string)
    (excludeBookingId : option string) (b : Booking) : bool :=
  (roomId b =? rid) && String.eqb (date b) day && isActive b
  && overlapClause b start_ end_
  && notExcluded excludeBookingId b.

Definition checkRoomAvailability (db : Database) (rid : Z)
    (day start_ end_ : string) (excludeBookingId : option string) : bool :=
  let count :=
    List.length (filter (conflictRow rid day start_ end_ excludeBookingId)
                        (bookings db)) in
  Nat.eqb count 0.

(** [getBookingsByDate]: active rows of a day (optionally of one room),
    ordered by start time. *)
Fixpoint insertByStart (b : Booking) (l : list Booking) : list Booking :=
  match l with
  | [] => [b]
  | x :: t =>
      if String.leb (startTime b) (startTime x) then b :: l
      else x :: insertByStart b t
  end.

Definition getBookingsByDate (db : Database) (day : string) (rid : option Z)
    : list Booking :=
  fold_right insertByStart []
    (filter (fun b => String.eqb (date b) day && isActive b
                      && match rid with Some r => roomId b =? r | None => true end)
            (bookings db)).

(** The row handed to [createBooking] ([Omit<Booking, 'id' | 'createdAt' |
    'updatedAt'>]) is a [Booking] whose three omitted fields are ignored. *)
Definition insertedRow (db : Database) (now : Z) (b : Booking) : Booking :=
  {| id := Z.of_nat (List.length (bookings db)) + 1;
     bookingId := bookingId b; roomId := roomId b;
     calendarId := calendarId b; eventId := eventId b; title := title b;
     date := date b; startTime := startTime b; endTime := endTime b;
     durationMinutes := durationMinutes b; requestedBy := requestedBy b;
     requestedByName := requestedByName b; status := status b;
     createdAt := now; updatedAt := now |}.

(** [createBooking]: the [INSERT] throws on a duplicate [booking_id]
    (the column is [UNIQUE]) and on a [room_id] that is the id of no room
    ([FOREIGN KEY (room_id) REFERENCES rooms(id)], which better-sqlite3
    enforces); the uniqueness is tested as the row is written, the foreign
    key when the statement ends.  [inr] carries the thrown message. *)
Definition createBooking (db : Database) (now : Z) (b : Booking)
    : Database + string :=
  if existsb (fun x => String.eqb (bookingId x) (bookingId b)) (bookings db)
  then inr "UNIQUE constraint failed: bookings.booking_id"
  else if negb (existsb (fun r => room_id r =? roomId b) (rooms db))
  then inr "FOREIGN KEY constraint failed"
  else inl (withBookings db (bookings db ++ [insertedRow db now b])).

Definition setStatus (st : BookingStatus) (now : Z) (b : Booking) : Booking :=
  {| id := id b; bookingId := bookingId b; roomId := roomId b;
     calendarId := calendarId b; eventId := eventId b; title := title b;
     date := date b; startTime := startTime b; endTime := endTime b;
     durationMinutes := durationMinutes b; requestedBy := requestedBy b;
     requestedByName := requestedByName b; status := st;
     createdAt := createdAt b; updatedAt := now |}.

Definition setTime (day start_ end_ : string) (now : Z) (b : Booking) : Booking :=
  {| id := id b; bookingId := bookingId b; roomId := roomId b;
     calendarId := calendarId b; eventId := eventId b; title := title b;
     date := day; startTime := start_; endTime := end_;
     durationMinutes := durationMinutes b; requestedBy := requestedBy b;
     requestedByName := requestedByName b; status := status b;
     createdAt := createdAt b; updatedAt := now |}.

Definition setEndTime (end_ : string) (minutes : Z) (now : Z) (b : Booking)
    : Booking :=
  {| id := id b; bookingId := bookingId b; roomId := roomId b;
     calendarId := calendarId b; eventId := eventId b; title := title b;
     date := date b; startTime := startTime b; endTime := end_;
     durationMinutes := minutes; requestedBy := requestedBy b;
     requestedByName := requestedByName b; status := status b;
     createdAt := createdAt b; updatedAt := now |}.

(** [UPDATE bookings SET ... WHERE booking_id = ?]. *)
Definition updateWhereId (bid : string) (f : Booking -> Booking)
    (db : Database) : Database :=
  withBookings db
    (map (fun b => if String.eqb (bookingId b) bid then f b else b)
         (bookings db)).

Definition updateBookingStatus (db : Database) (now : Z) (bid : string)
    (st : BookingStatus) : Database :=
  updateWhereId bid (setStatus st now) db.

Definition updateBookingTime (db : Database) (now : Z) (bid : string)
    (day start_ end_ : string) : Database :=
  updateWhereId bid (setTime day start_ end_ now) db.

Definition updateBookingEndTime (db : Database) (now : Z) (bid : string)
    (end_ : string) (minutes : Z) : Database :=
  updateWhereId bid (setEndTime end_ minutes now) db.

Definition createAuditLog (db : Database) (entry : AuditLog) : Database :=
  {| rooms := rooms db; bookings := bookings db;
     audit_logs := audit_logs db ++ [entry] |}.

(* ================================================================= *)
(** ** Command arguments and the environment of one request *)

Record BookCommandArgs := {
  book_roomName : string;
  book_date : string;
  book_startTime : string;
  book_duration : Z;
  book_title : string
}.

Record CancelCommandArgs := { cancel_bookingId : string }.

Record MoveCommandArgs := {
  move_bookingId : string;
  move_date : string;
  move_startTime : string
}.

Record ExtendCommandArgs := {
  extend_bookingId : string;
  extend_additionalMinutes : Z
}.

(** What one request reads from outside: the clock, in local
    milliseconds, and the three base-36 digits kept from [Math.random()]. *)
Record Env := {
  nowMs : Z;
  randomDigits : string
}.

Definition base36Char (d : Z) : ascii :=
  if d <? 10 then digitChar d else ascii_of_N (Z.to_N (87 + d)).

Fixpoint toBase36 (fuel : nat) (n : Z) (acc : string) : string :=
  match fuel with
  | O => acc
  | S f =>
      let acc' := String (base36Char (n mod 36)) acc in
      if n / 36 =? 0 then acc' else toBase36 f (n / 36) acc'
  end.

(** [n.toString(36)] for a non-negative integer below [36 ^ 64]. *)
Definition toString36 (n : Z) : string := toBase36 64 n "".

(** [generateBookingId]: [`R-${timestamp}${random}`.substring(0, 10)]. *)
Definition generateBookingId (env : Env) : string :=
  let timestamp := toUpperCase (toString36 (nowMs env)) in
  let random := toUpperCase (randomDigits env) in
  substring 0 10 ("R-" ++ timestamp ++ random)%string.

(** [s.split(':')[0]]. *)
Fixpoint beforeColon (s : string) : string :=
  match s with
  | EmptyString => EmptyString
  | String c r => if Ascii.eqb c ":" then EmptyString else String c (beforeColon r)
  end.

Definition ok (m : Message) (d : option string) : CommandResult :=
  {| success := true; message := m; result_data := d; error := None |}.

Definition failure (m : Message) (c : ErrorCode) : CommandResult :=
  {| success := false; message := m; result_data := None;
     error := Some {| code := c; details := None |} |}.

(* ================================================================= *)
(** ** The mutating command handlers *)

Section Handlers.

Variable bookingPolicy : BookingPolicy.

Definition policyStartHour : option Z :=
  parseInt (beforeColon (bookingHoursStart bookingPolicy)).

Definition policyEndHour : option Z :=
  parseInt (beforeColon (bookingHoursEnd bookingPolicy)).

Definition handleBookCommand (env : Env) (args : BookCommandArgs)
    (payload : JandiOutgoingWebhookPayload) (db : Database)
    : CommandResult * Database :=
  match getRoomByName db (book_roomName args) with
  | None =>
      (failure (MsgRoomNotFound (book_roomName args)
                  (map room_name (getAllRooms db))) ROOM_NOT_FOUND, db)
  | Some room =>
      let startDateTime := dayjsParse (book_date args) (book_startTime args) in
      let endDateTime := addMinutes startDateTime (book_duration args) in
      let endTime_ := formatHHmm endDateTime in
      if isBefore startDateTime (nowMs env) then
        (failure MsgPastTime PAST_TIME, db)
      else if jsLt (hour startDateTime) policyStartHour
              || jsGt (hour endDateTime) policyEndHour then
        (failure (MsgOutsideHours (bookingHoursStart bookingPolicy)
                    (bookingHoursEnd bookingPolicy)) OUTSIDE_HOURS, db)
      else if negb (checkRoomAvailability db (room_id room) (book_date args)
                      (book_startTime args) endTime_ None) then
        (failure (MsgBookConflict (room_displayName room) (book_date args)
                    (book_startTime args) endTime_) CONFLICT, db)
      else
        let bid := generateBookingId env in
        match createBooking db (nowMs env)
                {| id := 0; bookingId := bid; roomId := room_id room;
                   calendarId := room_calendarId room; eventId := bid;
                   title := book_title args; date := book_date args;
                   startTime := book_startTime args; endTime := endTime_;
                   durationMinutes := book_duration args;
                   requestedBy := writerEmail payload;
                   requestedByName := writerName payload;
                   status := active; createdAt := 0; updatedAt := 0 |} with
        | inr thrown => (failure (MsgBookingFailed thrown) BOOKING_ERROR, db)
        | inl db' =>
            (ok (MsgBooked bid (room_displayName room) (book_date args)
                   (book_startTime args) endTime_ (book_duration args)
                   (book_title args) (writerName payload)) (Some bid), db')
        end
  end.

Definition handleCancelCommand (env : Env) (args : CancelCommandArgs)
    (payload : JandiOutgoingWebhookPayload) (db : Database)
    : CommandResult * Database :=
  match getBookingById db (cancel_bookingId args) with
  | None =>
      (failure (MsgBookingNotFound (cancel_bookingId args)) BOOKING_NOT_FOUND, db)
  | Some booking =>
      if negb (isActive booking) then
        (failure (MsgAlreadyClosed (status booking)) INVALID_STATUS, db)
      else if negb (String.eqb (requestedBy booking) (writerEmail payload)) then
        (failure MsgCancelNotOwner UNAUTHORIZED, db)
      else
        let db' := updateBookingStatus db (nowMs env) (cancel_bookingId args)
                     cancelled in
        let room := getRoomById db' (roomId booking) in
        (ok (MsgCancelled (cancel_bookingId args)
               (option_map room_displayName room) (date booking)
               (startTime booking) (endTime booking) (title booking)) None,
         db')
  end.

Definition handleMoveCommand (env : Env) (args : MoveCommandArgs)
    (payload : JandiOutgoingWebhookPayload) (db : Database)
    : CommandResult * Database :=
  let bid := move_bookingId args in
  let newDate := move_date args in
  let newStartTime := move_startTime args in
  match getBookingById db bid with
  | None => (failure (MsgBookingNotFound bid) BOOKING_NOT_FOUND, db)
  | Some booking =>
      if negb (String.eqb (requestedBy booking) (writerEmail payload)) then
        (failure MsgMoveNotOwner UNAUTHORIZED, db)
      else
        match getRoomById db (roomId booking) with
        | None => (failure MsgRoomMissing ROOM_NOT_FOUND, db)
        | Some room =>
            let startDateTime := dayjsParse newDate newStartTime in
            let endDateTime := addMinutes startDateTime (durationMinutes booking) in
            let newEndTime := formatHHmm endDateTime in
            if negb (checkRoomAvailability db (room_id room) newDate
                       newStartTime newEndTime (Some bid)) then
              (failure MsgMoveConflict CONFLICT, db)
            else
              (ok (MsgMoved bid (room_displayName room) (date booking)
                     (startTime booking) (endTime booking)
                     newDate newStartTime newEndTime) None,
               updateBookingTime db (nowMs env) bid newDate newStartTime
                 newEndTime)
        end
  end.

Definition handleExtendCommand (env : Env) (args : ExtendCommandArgs)
    (payload : JandiOutgoingWebhookPayload) (db : Database)
    : CommandResult * Database :=
  let bid := extend_bookingId args in
  let additionalMinutes := extend_additionalMinutes args in
  match getBookingById db bid with
  | None => (failure (MsgBookingNotFound bid) BOOKING_NOT_FOUND, db)
  | Some booking =>
      if negb (String.eqb (requestedBy booking) (writerEmail payload)) then
        (failure MsgExtendNotOwner UNAUTHORIZED, db)
      else
        match getRoomById db (roomId booking) with
        | None => (failure MsgRoomMissing ROOM_NOT_FOUND, db)
        | Some room =>
            let currentEndDateTime := dayjsParse (date booking) (endTime booking) in
            let newEndDateTime := addMinutes currentEndDateTime additionalMinutes in
            let newEndTime := formatHHmm newEndDateTime in
            let newTotalMinutes := durationMinutes booking + additionalMinutes in
            if newTotalMinutes >? maxDurationMinutes bookingPolicy then
              (failure (MsgMaxDuration (maxDurationMinutes bookingPolicy))
                 MAX_DURATION, db)
            else if negb (checkRoomAvailability db (room_id room) (date booking)
                            (endTime booking) newEndTime (Some bid)) then
              (failure MsgExtendConflict CONFLICT, db)
            else
              (ok (MsgExtended bid (room_displayName room) (date booking)
                     (startTime booking) newEndTime additionalMinutes
                     newTotalMinutes) None,
               updateBookingEndTime db (nowMs env) bid newEndTime
                 newTotalMinutes)
        end
  end.

End Handlers.

(** The policy of config/index.ts when no environment variable overrides it. *)
Definition defaultPolicy : BookingPolicy :=
  {| maxDurationMinutes := 240; minDurationMinutes := 15; bufferMinutes := 10;
     bookingHoursStart := "08:00"; bookingHoursEnd := "22:00";
     allowedDaysAhead := 30; timezone := "Asia/Seoul" |}.

(* ================================================================= *)
(** ** The command parser (services/commandParser.ts) *)

(** The calendar date of a day number. *)
Definition civilFromDays (days : Z) : Z * Z * Z :=
  let z := days + 719468 in
  let era := z / 146097 in
  let doe := z - era * 146097 in
  let yoe := (doe - doe / 1460 + doe / 36524 - doe / 146096) / 365 in
  let y := yoe + era * 400 in
  let doy := doe - (365 * yoe + yoe / 4 - yoe / 100) in
  let mp := (5 * doy + 2) / 153 in
  let d := doy - (153 * mp + 2) / 5 + 1 in
  let m := if mp <? 10 then mp + 3 else mp - 9 in
  (if m <=? 2 then y + 1 else y, m, d).

(** [format('YYYY-MM-DD')] of a day number. *)
Definition formatDate (days : Z) : string :=
  let '(y, m, d) := civilFromDays days in
  (twoDigits (y / 100) ++ twoDigits (y mod 100) ++ "-" ++ twoDigits m
   ++ "-" ++ twoDigits d)%string.

(** [dayjs().format('YYYY-MM-DD')] at the clock [nowMs]. *)
Definition todayText (nowMs : Z) : string := formatDate (nowMs / 86400000).

(** [parseKoreanDate]: the two keywords in either language, or a text
    that dayjs parses strictly as [YYYY-MM-DD], that is, one that its own
    formatting gives back. *)
Definition parseKoreanDate (nowMs : Z) (arg : string) : option string :=
  let lower := toLowerCase arg in
  if String.eqb lower "today" || String.eqb lower "오늘" then
    Some (todayText nowMs)
  else if String.eqb lower "tomorrow" || String.eqb lower "내일" then
    Some (formatDate (nowMs / 86400000 + 1))
  else
    match dateToDays arg with
    | Some n => if String.eqb (formatDate n) arg then Some (formatDate n) else None
    | None => None
    end.

Definition doubleQuote : ascii := ascii_of_N 34.
Definition singleQuote : ascii := ascii_of_N 39.

Definition pushPart (current : list ascii) (parts : list string) : list string :=
  match current with
  | [] => parts
  | _ => parts ++ [string_of_list_ascii current]
  end.

(** The loop of [splitCommandParts]; [quoteChar] is [None] for the empty
    text it starts with. *)
Fixpoint splitLoop (input current : list ascii) (inQuotes : bool)
    (quoteChar : option ascii) (parts : list string) : list string :=
  match input with
  | [] => pushPart current parts
  | char :: rest =>
      if (Ascii.eqb char doubleQuote || Ascii.eqb char singleQuote)
         && negb inQuotes then
        splitLoop rest current true (Some char) parts
      else if match quoteChar with
              | Some q => Ascii.eqb char q
              | None => false
              end && inQuotes then
        splitLoop rest current false None parts
      else if Ascii.eqb char " " && negb inQuotes then
        splitLoop rest [] inQuotes quoteChar (pushPart current parts)
      else
        splitLoop rest (current ++ [char]) inQuotes quoteChar parts
  end.

Definition splitCommandParts (input : string) : list string :=
  splitLoop (list_ascii_of_string input) [] false None [].

(** [s.trim()] on ASCII white space. *)
Definition trim (s : string) : string :=
  string_of_list_ascii
    (rev (dropSpaces (rev (dropSpaces (list_ascii_of_string s))))).

Fixpoint containsChar (c : ascii) (s : string) : bool :=
  match s with
  | EmptyString => false
  | String x r => Ascii.eqb x c || containsChar c r
  end.

(** [commandMap]. *)
Definition commandMap : list (string * CommandType) :=
  [ ("현황", CmdStatus); ("조회", CmdStatus); ("예약", CmdBook);
    ("취소", CmdCancel); ("변경", CmdMove); ("연장", CmdExtend);
    ("내예약", CmdMy); ("내꺼", CmdMy); ("목록", CmdList);
    ("도움말", CmdHelp); ("도움", CmdHelp); ("?", CmdHelp);
    ("status", CmdStatus); ("book", CmdBook); ("cancel", CmdCancel);
    ("move", CmdMove); ("extend", CmdExtend); ("my", CmdMy);
    ("list", CmdList); ("help", CmdHelp) ].

Fixpoint lookupCommand (key : string) (m : list (string * CommandType))
    : option CommandType :=
  match m with
  | [] => None
  | (k, v) :: r => if String.eqb k key then Some v else lookupCommand key r
  end.

Record StatusCommandArgs := {
  status_date : option string;
  status_timeRange : option string
}.

Record MyCommandArgs := { my_filter : MyFilter }.

(** The [args] of a list command: [{ target: 'rooms' }] or
    [{ target: 'bookings', date }]. *)
Inductive ListCommandArgs :=
  | ListRooms
  | ListBookings (day : string).

(** A parsed command: its type together with the arguments that type
    carries. *)
Inductive Intent :=
  | IHelp
  | IStatus (args : StatusCommandArgs)
  | IBook (args : BookCommandArgs)
  | ICancel (args : CancelCommandArgs)
  | IMove (args : MoveCommandArgs)
  | IExtend (args : ExtendCommandArgs)
  | IMy (args : MyCommandArgs)
  | IList (args : ListCommandArgs).

Definition intentType (i : Intent) : CommandType :=
  match i with
  | IHelp => CmdHelp
  | IStatus _ => CmdStatus
  | IBook _ => CmdBook
  | ICancel _ => CmdCancel
  | IMove _ => CmdMove
  | IExtend _ => CmdExtend
  | IMy _ => CmdMy
  | IList _ => CmdList
  end.

Record ParsedCommand := {
  intent : Intent;
  raw : string
}.

Inductive ParseResult :=
  | ParseOk (command : ParsedCommand)
  | ParseFail (error : ParseError).

Section Parser.

Variable bookingPolicy : BookingPolicy.
Variable nowMs_ : Z.

Definition parseStatusCommand (args : list string) (raw_ : string) : ParseResult :=
  match args with
  | [] =>
      ParseOk {| intent := IStatus {| status_date := Some (todayText nowMs_);
                                      status_timeRange := None |};
                 raw := raw_ |}
  | firstArg :: more =>
      if String.eqb (toLowerCase firstArg) "today" || String.eqb firstArg "오늘"
      then
        ParseOk {| intent := IStatus {| status_date := Some (todayText nowMs_);
                                        status_timeRange := None |};
                   raw := raw_ |}
      else
        let second := match more with
                      | [] => None
                      | x :: _ => Some x
                      end in
        if containsChar "-" firstArg && containsChar ":" firstArg then
          ParseOk {| intent :=
                       IStatus {| status_date := Some (todayText nowMs_);
                                  status_timeRange :=
                                    match second with
                                    | Some x => Some x
                                    | None => Some firstArg
                                    end |};
                     raw := raw_ |}
        else
          match parseKoreanDate nowMs_ firstArg with
          | Some day =>
              ParseOk {| intent := IStatus {| status_date := Some day;
                                              status_timeRange := second |};
                         raw := raw_ |}
          | None => ParseFail (ErrStatusDate firstArg)
          end
  end.

Definition parseBookCommand (args : list string) (raw_ : string) : ParseResult :=
  match args with
  | roomName_ :: dateArg :: startTime_ :: durationStr :: titleFirst :: titleRest =>
      match parseKoreanDate nowMs_ dateArg with
      | None => ParseFail (ErrBookDate dateArg)
      | Some day =>
          if negb (timeRegex_test startTime_) then
            ParseFail (ErrBookTime startTime_)
          else
            match parseInt durationStr with
            | None => ParseFail (ErrBookDuration durationStr)
            | Some duration =>
                if duration <=? 0 then ParseFail (ErrBookDuration durationStr)
                else if duration <? minDurationMinutes bookingPolicy then
                  ParseFail (ErrMinDuration (minDurationMinutes bookingPolicy))
                else if duration >? maxDurationMinutes bookingPolicy then
                  ParseFail (ErrMaxDuration (maxDurationMinutes bookingPolicy))
                else
                  let joined := trim (String.concat " " (titleFirst :: titleRest)) in
                  let title_ := if String.eqb joined "" then "회의" else joined in
                  ParseOk {| intent :=
                               IBook {| book_roomName := roomName_;
                                        book_date := day;
                                        book_startTime := startTime_;
                                        book_duration := duration;
                                        book_title := title_ |};
                             raw := raw_ |}
            end
      end
  | _ => ParseFail ErrBookFormat
  end.

Definition parseCancelCommand (args : list string) (raw_ : string) : ParseResult :=
  match args with
  | [] => ParseFail ErrCancelFormat
  | bid :: _ =>
      ParseOk {| intent := ICancel {| cancel_bookingId := toUpperCase bid |};
                 raw := raw_ |}
  end.

Definition parseMoveCommand (args : list string) (raw_ : string) : ParseResult :=
  match args with
  | bid :: dateArg :: startTime_ :: _ =>
      match parseKoreanDate nowMs_ dateArg with
      | None => ParseFail (ErrMoveDate dateArg)
      | Some day =>
          if negb (timeRegex_test startTime_) then
            ParseFail (ErrMoveTime startTime_)
          else
            ParseOk {| intent := IMove {| move_bookingId := toUpperCase bid;
                                          move_date := day;
                                          move_startTime := startTime_ |};
                       raw := raw_ |}
      end
  | _ => ParseFail ErrMoveFormat
  end.

Definition parseExtendCommand (args : list string) (raw_ : string) : ParseResult :=
  match args with
  | bid :: additionalMinutesStr :: _ =>
      match parseInt additionalMinutesStr with
      | None => ParseFail (ErrExtendMinutes additionalMinutesStr)
      | Some additionalMinutes =>
          if additionalMinutes <=? 0 then
            ParseFail (ErrExtendMinutes additionalMinutesStr)
          else
            ParseOk {| intent :=
                         IExtend {| extend_bookingId := toUpperCase bid;
                                    extend_additionalMinutes := additionalMinutes |};
                       raw := raw_ |}
      end
  | _ => ParseFail ErrExtendFormat
  end.

Definition parseMyCommand (args : list string) (raw_ : string) : ParseResult :=
  let filter :=
    match args with
    | [] => FilterAll
    | a :: _ =>
        let filterArg := toLowerCase a in
        if String.eqb filterArg "today" || String.eqb filterArg "오늘" then
          FilterToday
        else if String.eqb filterArg "week" || String.eqb filterArg "이번주" then
          FilterWeek
        else FilterAll
    end in
  ParseOk {| intent := IMy {| my_filter := filter |}; raw := raw_ |}.

Definition parseListCommand (args : list string) (raw_ : string) : ParseResult :=
  match args with
  | [] => ParseOk {| intent := IList ListRooms; raw := raw_ |}
  | dateArg :: _ =>
      if String.eqb (toLowerCase dateArg) "rooms" || String.eqb dateArg "회의실"
      then ParseOk {| intent := IList ListRooms; raw := raw_ |}
      else
        match parseKoreanDate nowMs_ dateArg with
        | None => ParseFail (ErrListDate dateArg)
        | Some day => ParseOk {| intent := IList (ListBookings day); raw := raw_ |}
        end
  end.

Definition parseCommand (data_ : string) : ParseResult :=
  let trimmedData := trim data_ in
  if String.eqb trimmedData "" then
    ParseOk {| intent := IHelp; raw := "" |}
  else
    let parts := splitCommandParts trimmedData in
    let inputCommand := match parts with
                        | [] => "undefined"
                        | x :: _ => toLowerCase x
                        end in
    let args := tl parts in
    match match parts with
          | [] => None
          | _ => lookupCommand inputCommand commandMap
          end with
    | None => ParseFail (ErrUnknownCommand inputCommand)
    | Some CmdHelp => ParseOk {| intent := IHelp; raw := trimmedData |}
    | Some CmdStatus => parseStatusCommand args trimmedData
    | Some CmdBook => parseBookCommand args trimmedData
    | Some CmdCancel => parseCancelCommand args trimmedData
    | Some CmdMove => parseMoveCommand args trimmedData
    | Some CmdExtend => parseExtendCommand args trimmedData
    | Some CmdMy => parseMyCommand args trimmedData
    | Some CmdList => parseListCommand args trimmedData
    end.

End Parser.

(* ================================================================= *)
(** ** The read-only handlers and the entry point *)

(** [s.split(c)]. *)
Fixpoint splitOn (c : ascii) (s : string) : list string :=
  match s with
  | EmptyString => [EmptyString]
  | String x r =>
      if Ascii.eqb x c then EmptyString :: splitOn c r
      else match splitOn c r with
           | [] => [String x EmptyString]
           | h :: t => String x h :: t
           end
  end.

Definition truthy (s : string) : bool := negb (String.eqb s "").

Fixpoint insertByDateStart (b : Booking) (l : list Booking) : list Booking :=
  match l with
  | [] => [b]
  | x :: t =>
      if String.ltb (date b) (date x)
         || (String.eqb (date b) (date x)
             && String.leb (startTime b) (startTime x))
      then b :: l
      else x :: insertByDateStart b t
  end.

(** [getBookingsByUser]: the caller's active rows, of today, of the seven
    days from today, or all of them, ordered by date and start time.
    SQLite's [date('now')] is taken to be the date of the request clock. *)
Definition getBookingsByUser (db : Database) (nowMs : Z) (userEmail : string)
    (filter_ : MyFilter) : list Booking :=
  let today := todayText nowMs in
  let weekEnd := formatDate (nowMs / 86400000 + 7) in
  let dateCondition (b : Booking) : bool :=
    match filter_ with
    | FilterToday => String.eqb (date b) today
    | FilterWeek => String.leb today (date b) && String.leb (date b) weekEnd
    | FilterAll => true
    end in
  fold_right insertByDateStart []
    (filter (fun b => String.eqb (requestedBy b) userEmail && isActive b
                      && dateCondition b)
            (bookings db)).

Section EntryPoint.

Variable bookingPolicy : BookingPolicy.

(** [handleStatusCommand]; the rendering of the time table from these
    values is left out. *)
Definition handleStatusCommand (env : Env) (args : StatusCommandArgs)
    (db : Database) : CommandResult * Database :=
  let day := match status_date args with
             | Some d => if truthy d then d else todayText (nowMs env)
             | None => todayText (nowMs env)
             end in
  let rooms_ := getAllRooms db in
  match rooms_ with
  | [] => (ok MsgNoRooms None, db)
  | _ =>
      let fromRange :=
        match status_timeRange args with
        | Some range =>
            if truthy range then
              match splitOn "-" range with
              | start_ :: end_ :: _ =>
                  if truthy start_ && truthy end_
                  then Some (parseInt (beforeColon start_),
                             parseInt (beforeColon end_))
                  else None
              | _ => None
              end
            else None
        | None => None
        end in
      let '(startHour, endHour) :=
        match fromRange with
        | Some hours => hours
        | None => (policyStartHour bookingPolicy, policyEndHour bookingPolicy)
        end in
      (ok (MsgStatus day startHour endHour rooms_
             (flat_map (fun room => getBookingsByDate db day (Some (room_id room)))
                       rooms_)) None, db)
  end.

Definition handleMyCommand (env : Env) (args : MyCommandArgs)
    (payload : JandiOutgoingWebhookPayload) (db : Database)
    : CommandResult * Database :=
  let found := getBookingsByUser db (nowMs env) (writerEmail payload)
                 (my_filter args) in
  match found with
  | [] => (ok (MsgMyEmpty (my_filter args)) None, db)
  | _ => (ok (MsgMyList (writerName payload) (my_filter args) found) None, db)
  end.

Definition handleListCommand (args : ListCommandArgs) (db : Database)
    : CommandResult * Database :=
  match args with
  | ListRooms =>
      match getAllRooms db with
      | [] => (ok MsgNoRoomsListed None, db)
      | rooms_ => (ok (MsgRoomList rooms_) None, db)
      end
  | ListBookings day =>
      if truthy day then
        match getBookingsByDate db day None with
        | [] => (ok (MsgDayEmpty day) None, db)
        | found => (ok (MsgDayList day found) None, db)
        end
      else (failure MsgInvalidList INVALID_LIST, db)
  end.

(** What one call of [handleCommand] reads from outside: [Date.now()] on
    entry, the clock and random digits seen by the parser and the handler,
    [Date.now()] inside [logCommand], the message of the exception the
    store raises at the handler's first query, when it raises one, and the
    message of the exception it raises at the insert of the audit row, when
    it raises one there. *)
Record RequestClock := {
  startedMs : Z;
  handlerEnv : Env;
  finishedMs : Z;
  storeFault : option string;
  auditFault : option string
}.

(** Lines written to the process logger. *)
Inductive LogLine :=
  | LogReceived (user data_ room : string)
  | LogCommandFailed (error : string) (command : CommandType)
  | LogCompleted (user : string) (command : CommandType) (succeeded : bool)
                 (durationMs : Z).

Record JandiWebhookResponse := {
  body : Message;
  connectColor : string
}.

Definition formatResponse (result : CommandResult) : JandiWebhookResponse :=
  {| body := message result;
     connectColor := if success result then "#2ECC71" else "#E74C3C" |}.

(** [logCommand]: one audit row, then one process log line carrying the
    elapsed time.  The insert is not in a [try]: [inr] is the exception it
    raises, which leaves [logCommand] before the log line is written. *)
Definition logCommand (clock : RequestClock)
    (payload : JandiOutgoingWebhookPayload) (commandType : CommandType)
    (result : CommandResult) (db : Database)
    : (Database * LogLine) + string :=
  let duration := finishedMs clock - startedMs clock in
  match auditFault clock with
  | Some thrown => inr thrown
  | None =>
      inl (createAuditLog db
             {| log_userEmail := writerEmail payload;
                log_userName := writerName payload;
                log_command := text payload;
                log_commandType := commandType;
                log_parameters := payload;
                log_status :=
                  if success result then audit_success else audit_failure;
                log_response := message result;
                log_errorMessage :=
                  match error result with
                  | Some e => details e
                  | None => None
                  end;
                log_ipAddress := ip payload;
                log_roomName := roomName payload;
                log_timestamp := finishedMs clock |},
           LogCompleted (writerEmail payload) commandType (success result)
             duration)
  end.

(** The [switch] of [handleCommand] inside its [try]: [inr] is an
    exception reaching the [catch].  The writes of the handlers sit in
    their own [try] blocks, so only a query made before them can throw
    this far, and the store is then as it was. *)
Definition dispatch (clock : RequestClock) (command : ParsedCommand)
    (payload : JandiOutgoingWebhookPayload) (db : Database)
    : (CommandResult * Database) + string :=
  let env := handlerEnv clock in
  match intent command, storeFault clock with
  | IHelp, _ => inl (ok MsgHelp None, db)
  | _, Some thrown => inr thrown
  | IStatus args, None => inl (handleStatusCommand env args db)
  | IBook args, None => inl (handleBookCommand bookingPolicy env args payload db)
  | ICancel args, None => inl (handleCancelCommand env args payload db)
  | IMy args, None => inl (handleMyCommand env args payload db)
  | IList args, None => inl (handleListCommand args db)
  | IMove args, None => inl (handleMoveCommand env args payload db)
  | IExtend args, None =>
      inl (handleExtendCommand bookingPolicy env args payload db)
  end.

(** How one call of [handleCommand] ends: the response its promise
    resolves to ([inl]) or the exception it rejects with ([inr]), the store
    it leaves and the lines it wrote to the process log. *)
Record Handled := {
  response : JandiWebhookResponse + string;
  store : Database;
  processLog : list LogLine
}.

(** [logCommand] is called outside the [try] of [handleCommand]: an
    exception of the audit insert rejects the call, after the handler has
    done its writes. *)
Definition handleCommand (clock : RequestClock)
    (payload : JandiOutgoingWebhookPayload) (db : Database) : Handled :=
  let received :=
    LogReceived (writerEmail payload) (data payload) (roomName payload) in
  match parseCommand bookingPolicy (nowMs (handlerEnv clock)) (data payload) with
  | ParseFail parseError =>
      let result :=
        {| success := false; message := MsgParseError parseError;
           result_data := None;
           error := Some {| code := PARSE_ERROR; details := None |} |} in
      match logCommand clock payload CmdHelp result db with
      | inl (db', line) =>
          {| response := inl (formatResponse result); store := db';
             processLog := [received; line] |}
      | inr thrown =>
          {| response := inr thrown; store := db; processLog := [received] |}
      end
  | ParseOk command =>
      let '(result, db1, lines) :=
        match dispatch clock command payload db with
        | inl (result, db1) => (result, db1, [])
        | inr thrown =>
            ({| success := false; message := MsgInternalError thrown;
                result_data := None;
                error := Some {| code := INTERNAL_ERROR;
                                 details := Some thrown |} |},
             db,
             [LogCommandFailed thrown (intentType (intent command))])
        end in
      match logCommand clock payload (intentType (intent command)) result db1
      with
      | inl (db', line) =>
          {| response := inl (formatResponse result); store := db';
             processLog := received :: lines ++ [line] |}
      | inr thrown =>
          {| response := inr thrown; store := db1;
             processLog := received :: lines |}
      end
  end.

End EntryPoint.

(* ================================================================= *)
(** ** The time table of the status command (generateTimeTableTUI) *)

(** [isSlotBooked] of [generateTimeTableTUI]: the half-hour slot starting
    at [slotHour]:00 or [slotHour]:30 meets one of the bookings.  A row
    whose clock texts do not read as times gives [NaN] and meets nothing. *)
Definition isSlotBooked (bookings_ : list Booking) (slotHour : Z)
    (isHalf : bool) : bool :=
  let slotMinutes := slotHour * 60 + (if isHalf then 30 else 0) in
  let slotEndMinutes := slotMinutes + 30 in
  existsb (fun booking =>
             match timeToMinutes (startTime booking),
                   timeToMinutes (endTime booking) with
             | Some bookingStart, Some bookingEnd =>
                 (slotMinutes <? bookingEnd) && (slotEndMinutes >? bookingStart)
             | _, _ => false
             end)
          bookings_.

(* ================================================================= *)
(** ** The webhook route (POST /jandi/command) *)

(** What the route reads of a request: the JSON body, the
    [x-forwarded-for] header and [req.ip]. *)
Record WebhookRequest := {
  req_body : JandiOutgoingWebhookPayload;
  req_forwardedFor : option string;
  req_ip : option string
}.

(** The replies of the route: 401, 403, the response of the command
    handler with status 200, or the 500 of the route's own [catch], which
    is reached when [handleCommand] rejects, that is, when the audit insert
    throws. *)
Inductive WebhookReply :=
  | ReplyUnauthenticated
  | ReplyInvalidToken
  | ReplyHandled (response : JandiWebhookResponse)
  | ReplyServerError.

Definition replyStatus (r : WebhookReply) : Z :=
  match r with
  | ReplyUnauthenticated => 401
  | ReplyInvalidToken => 403
  | ReplyHandled _ => 200
  | ReplyServerError => 500
  end.

(** [validateToken]: [None] is [next()]. *)
Definition validateToken (outgoingToken : string)
    (payload : JandiOutgoingWebhookPayload) : option WebhookReply :=
  if negb (truthy (token payload)) then Some ReplyUnauthenticated
  else if negb (String.eqb (token payload) outgoingToken)
       then Some ReplyInvalidToken
  else None.

(** [a || b] where [a] may be [undefined]. *)
Definition orElse (a : option string) (b : string) : string :=
  match a with
  | Some x => if truthy x then x else b
  | None => b
  end.

(** [req.headers['x-forwarded-for']?.split(',')[0]?.trim() || req.ip ||
    payload.ip]. *)
Definition clientIp (req : WebhookRequest) : string :=
  let forwarded :=
    match req_forwardedFor req with
    | Some header =>
        match splitOn "," header with
        | first :: _ => Some (trim first)
        | [] => None
        end
    | None => None
    end in
  orElse forwarded (orElse (req_ip req) (ip (req_body req))).

Definition withIp (payload : JandiOutgoingWebhookPayload) (clientIp_ : string)
    : JandiOutgoingWebhookPayload :=
  {| token := token payload; teamName := teamName payload;
     roomName := roomName payload; writerName := writerName payload;
     writerEmail := writerEmail payload; text := text payload;
     data := data payload; keyword := keyword payload; ip := clientIp_;
     payload_createdAt := payload_createdAt payload |}.

(** The route: [validateToken], then [handleCommand] on the payload with
    the resolved client address; its [catch] answers 500. *)
Definition postCommand (outgoingToken : string) (policy : BookingPolicy)
    (clock : RequestClock) (req : WebhookRequest) (db : Database)
    : WebhookReply * Database :=
  match validateToken outgoingToken (req_body req) with
  | Some refusal => (refusal, db)
  | None =>
      let enrichedPayload := withIp (req_body req) (clientIp req) in
      let out := handleCommand policy clock enrichedPayload db in
      match response out with
      | inl answer => (ReplyHandled answer, store out)
      | inr _ => (ReplyServerError, store out)
      end
  end.

(* ================================================================= *)
(** ** The admin routes (routes/admin.ts) and createRoom *)

(** [requireAdminAuth]: [true] is [next()], [false] the 401 reply.
    [adminKey] is [process.env.ADMIN_API_KEY], [apiKey] the [x-api-key]
    header. *)
Definition requireAdminAuth (adminKey apiKey : option string) : bool :=
  match adminKey with
  | Some key =>
      truthy key
      && match apiKey with
         | Some given => String.eqb given key
         | None => false
         end
  | None => false
  end.

(** The row id an [AUTOINCREMENT] insert receives.  No room is ever
    deleted, so the counter is the largest id of the table. *)
Definition nextRoomId (db : Database) : Z :=
  fold_right Z.max 0 (map room_id (rooms db)) + 1.

Definition withRooms (db : Database) (rs : list Room) : Database :=
  {| rooms := rs; bookings := bookings db; audit_logs := audit_logs db |}.

(** The row [createRoom] inserts. *)
Definition storedRoom (db : Database) (room : Room) : Room :=
  {| room_id := nextRoomId db; room_name := room_name room;
     room_displayName := room_displayName room;
     room_email := room_email room;
     room_calendarId := room_calendarId room;
     room_capacity := room_capacity room;
     room_location := room_location room;
     room_autoAccept := room_autoAccept room |}.

(** [createRoom]: the [INSERT] throws when the name or the email is
    already in the table (both columns are [UNIQUE]); [None] is that
    exception.  Otherwise the row read back by its new id is returned. *)
Definition createRoom (db : Database) (room : Room)
    : option (option Room * Database) :=
  if existsb (fun r => String.eqb (room_name r) (room_name room)
                       || String.eqb (room_email r) (room_email room))
             (rooms db)
  then None
  else
    let lastInsertRowid := nextRoomId db in
    let db' := withRooms db (rooms db ++ [storedRoom db room]) in
    Some (getRoomById db' lastInsertRowid, db').

(** The body of POST /admin/rooms, read at the types of [Room]. *)
Record RoomBody := {
  body_name : option string;
  body_displayName : option string;
  body_email : option string;
  body_calendarId : option string;
  body_capacity : option Z;
  body_location : option string;
  body_autoAccept : option bool
}.

Definition present (field : option string) : bool :=
  match field with
  | Some s => truthy s
  | None => false
  end.

Definition orEmpty (field : option string) : string :=
  match field with
  | Some s => s
  | None => ""
  end.

(** POST /admin/rooms: the status of the reply, the room it carries, and
    the store. *)
Definition postRoom (adminKey apiKey : option string) (body : RoomBody)
    (db : Database) : Z * option Room * Database :=
  if negb (requireAdminAuth adminKey apiKey) then (401, None, db)
  else if negb (present (body_name body) && present (body_displayName body)
                && present (body_email body) && present (body_calendarId body))
  then (400, None, db)
  else
    match createRoom db
            {| room_id := 0;
               room_name := orEmpty (body_name body);
               room_displayName := orEmpty (body_displayName body);
               room_email := orEmpty (body_email body);
               room_calendarId := orEmpty (body_calendarId body);
               room_capacity := match body_capacity body with
                                | Some c => c
                                | None => 0
                                end;
               room_location := orEmpty (body_location body);
               room_autoAccept := match body_autoAccept body with
                                  | Some false => false
                                  | _ => true
                                  end |} with
    | Some (room, db') => (201, room, db')
    | None => (500, None, db)
    end.

(* ================================================================= *)
(** ** The initialisation script (npm run db:init) *)

(** [sampleRooms] of the initialisation script. *)
Definition sampleRooms : list Room :=
  [ {| room_id := 0; room_name := "대"; room_displayName := "대 회의실";
       room_email := "room-large@your-domain.com";
       room_calendarId := "room-large@your-domain.com";
       room_capacity := 12; room_location := "2층"; room_autoAccept := true |};
    {| room_id := 0; room_name := "소"; room_displayName := "소 회의실";
       room_email := "room-small@your-domain.com";
       room_calendarId := "room-small@your-domain.com";
       room_capacity := 4; room_location := "2층"; room_autoAccept := true |} ].

(** [main] of the initialisation script on the store: the sample rooms are
    inserted only into an empty rooms table, and a room whose insert throws
    is skipped. *)
Definition initSampleRooms (db : Database) : Database :=
  match getAllRooms db with
  | [] =>
      fold_left (fun current roomData =>
                   match createRoom current roomData with
                   | Some (_, next) => next
                   | None => current
                   end)
                sampleRooms db
  | _ => db
  end.

(* ================================================================= *)
(** ** Vocabulary of the specification *)

(** The single overlap condition of the conflict-check contract:
    [existing.start < end AND existing.end > start], in the text order
    of the store. *)
Definition strictOverlap (b : Booking) (start_ end_ : string) : bool :=
  textLt (startTime b) end_ && textGt (endTime b) start_.

(** An active booking of the room on the day, other than the one carrying
    the excluded identifier. *)
Definition competitor (rid : Z) (day : string) (excludeBookingId : option string)
    (b : Booking) : Prop :=
  roomId b = rid /\ date b = day /\ status b = active
  /\ match excludeBookingId with
     | Some x => bookingId b <> x
     | None => True
     end.

(** The minute intervals of two rows overlap: each starts before the
    other ends.  Rows whose clock texts do not read as times overlap
    nothing. *)
Definition minutesOverlap (a b : Booking) : bool :=
  match timeToMinutes (startTime a), timeToMinutes (endTime a),
        timeToMinutes (startTime b), timeToMinutes (endTime b) with
  | Some s1, Some e1, Some s2, Some e2 => (s1 <? e2) && (s2 <? e1)
  | _, _, _, _ => false
  end.

(** The core invariant: two distinct active rows of one room on one day
    never overlap. *)
Definition ActiveDisjoint (db : Database) : Prop :=
  forall i j a b,
    i <> j ->
    nth_error (bookings db) i = Some a ->
    nth_error (bookings db) j = Some b ->
    status a = active -> status b = active ->
    roomId a = roomId b -> date a = date b ->
    minutesOverlap a b = false.

(** One mutating request, with what it reads from outside. *)
Inductive Request :=
  | Book (env : Env) (args : BookCommandArgs)
         (payload : JandiOutgoingWebhookPayload)
  | Cancel (env : Env) (args : CancelCommandArgs)
           (payload : JandiOutgoingWebhookPayload)
  | Move (env : Env) (args : MoveCommandArgs)
         (payload : JandiOutgoingWebhookPayload)
  | Extend (env : Env) (args : ExtendCommandArgs)
           (payload : JandiOutgoingWebhookPayload).

Definition execute (policy : BookingPolicy) (db : Database) (q : Request)
    : Database :=
  match q with
  | Book env args payload => snd (handleBookCommand policy env args payload db)
  | Cancel env args payload => snd (handleCancelCommand env args payload db)
  | Move env args payload => snd (handleMoveCommand env args payload db)
  | Extend env args payload =>
      snd (handleExtendCommand policy env args payload db)
  end.

(** Sequential execution of a list of requests. *)
Definition run (policy : BookingPolicy) (db : Database) (qs : list Request)
    : Database :=
  fold_left (execute policy) qs db.

(** The same request clock with another reading of [Date.now()] on
    entry. *)
Definition startedAt (t : Z) (clock : RequestClock) : RequestClock :=
  {| startedMs := t; handlerEnv := handlerEnv clock;
     finishedMs := finishedMs clock; storeFault := storeFault clock;
     auditFault := auditFault clock |}.

(** The audit row a call has just written: the last of the table. *)
Definition writtenEntry (out : Handled) : option AuditLog :=
  match rev (audit_logs (store out)) with
  | [] => None
  | entry :: _ => Some entry
  end.

(* ================================================================= *)
(** ** The handlers, path by path

    Each mutating handler is a chain of guards.  The relations below list,
    for each handler, every path through the chain with the conditions
    under which it is taken, the answer and the store it returns; the
    lemmas [handle*Command_outcome] show that the handler always follows
    one of them. *)

Section Outcomes.

Variable bookingPolicy : BookingPolicy.

(** The end of the extension window, as [handleExtendCommand] computes it. *)
Definition extendedEnd (booking : Booking) (additionalMinutes : Z) : string :=
  formatHHmm (addMinutes (dayjsParse (date booking) (endTime booking))
                         additionalMinutes).

(** The outcome of [handleExtendCommand], path by path. *)
Inductive ExtendOutcome (env : Env) (args : ExtendCommandArgs)
    (payload : JandiOutgoingWebhookPayload) (db : Database)
    : CommandResult * Database -> Prop :=
  | ExtendNotFound :
      getBookingById db (extend_bookingId args) = None ->
      ExtendOutcome env args payload db
        (failure (MsgBookingNotFound (extend_bookingId args)) BOOKING_NOT_FOUND, db)
  | ExtendForeign booking :
      getBookingById db (extend_bookingId args) = Some booking ->
      requestedBy booking <> writerEmail payload ->
      ExtendOutcome env args payload db (failure MsgExtendNotOwner UNAUTHORIZED, db)
  | ExtendNoRoom booking :
      getBookingById db (extend_bookingId args) = Some booking ->
      requestedBy booking = writerEmail payload ->
      getRoomById db (roomId booking) = None ->
      ExtendOutcome env args payload db (failure MsgRoomMissing ROOM_NOT_FOUND, db)
  | ExtendTooLong booking room :
      getBookingById db (extend_bookingId args) = Some booking ->
      requestedBy booking = writerEmail payload ->
      getRoomById db (roomId booking) = Some room ->
      durationMinutes booking + extend_additionalMinutes args
        > maxDurationMinutes bookingPolicy ->
      ExtendOutcome env args payload db
        (failure (MsgMaxDuration (maxDurationMinutes bookingPolicy)) MAX_DURATION, db)
  | ExtendConflict booking room :
      getBookingById db (extend_bookingId args) = Some booking ->
      requestedBy booking = writerEmail payload ->
      getRoomById db (roomId booking) = Some room ->
      durationMinutes booking + extend_additionalMinutes args
        <= maxDurationMinutes bookingPolicy ->
      checkRoomAvailability db (room_id room) (date booking) (endTime booking)
        (extendedEnd booking (extend_additionalMinutes args))
        (Some (extend_bookingId args)) = false ->
      ExtendOutcome env args payload db (failure MsgExtendConflict CONFLICT, db)
  | ExtendDone booking room :
      getBookingById db (extend_bookingId args) = Some booking ->
      requestedBy booking = writerEmail payload ->
      getRoomById db (roomId booking) = Some room ->
      durationMinutes booking + extend_additionalMinutes args
        <= maxDurationMinutes bookingPolicy ->
      checkRoomAvailability db (room_id room) (date booking) (endTime booking)
        (extendedEnd booking (extend_additionalMinutes args))
        (Some (extend_bookingId args)) = true ->
      ExtendOutcome env args payload db
        (ok (MsgExtended (extend_bookingId args) (room_displayName room)
               (date booking) (startTime booking)
               (extendedEnd booking (extend_additionalMinutes args))
               (extend_additionalMinutes args)
               (durationMinutes booking + extend_additionalMinutes args)) None,
         updateBookingEndTime db (nowMs env) (extend_bookingId args)
           (extendedEnd booking (extend_additionalMinutes args))
           (durationMinutes booking + extend_additionalMinutes args)).

(** The end of the window a move proposes: the stored duration added to
    the new start. *)
Definition movedEnd (booking : Booking) (newDate newStartTime : string) : string :=
  formatHHmm (addMinutes (dayjsParse newDate newStartTime)
                         (durationMinutes booking)).

Inductive MoveOutcome (env : Env) (args : MoveCommandArgs)
    (payload : JandiOutgoingWebhookPayload) (db : Database)
    : CommandResult * Database -> Prop :=
  | MoveNotFound :
      getBookingById db (move_bookingId args) = None ->
      MoveOutcome env args payload db
        (failure (MsgBookingNotFound (move_bookingId args)) BOOKING_NOT_FOUND, db)
  | MoveForeign booking :
      getBookingById db (move_bookingId args) = Some booking ->
      requestedBy booking <> writerEmail payload ->
      MoveOutcome env args payload db (failure MsgMoveNotOwner UNAUTHORIZED, db)
  | MoveNoRoom booking :
      getBookingById db (move_bookingId args) = Some booking ->
      requestedBy booking = writerEmail payload ->
      getRoomById db (roomId booking) = None ->
      MoveOutcome env args payload db (failure MsgRoomMissing ROOM_NOT_FOUND, db)
  | MoveConflict booking room :
      getBookingById db (move_bookingId args) = Some booking ->
      requestedBy booking = writerEmail payload ->
      getRoomById db (roomId booking) = Some room ->
      checkRoomAvailability db (room_id room) (move_date args)
        (move_startTime args)
        (movedEnd booking (move_date args) (move_startTime args))
        (Some (move_bookingId args)) = false ->
      MoveOutcome env args payload db (failure MsgMoveConflict CONFLICT, db)
  | MoveDone booking room :
      getBookingById db (move_bookingId args) = Some booking ->
      requestedBy booking = writerEmail payload ->
      getRoomById db (roomId booking) = Some room ->
      checkRoomAvailability db (room_id room) (move_date args)
        (move_startTime args)
        (movedEnd booking (move_date args) (move_startTime args))
        (Some (move_bookingId args)) = true ->
      MoveOutcome env args payload db
        (ok (MsgMoved (move_bookingId args) (room_displayName room)
               (date booking) (startTime booking) (endTime booking)
               (move_date args) (move_startTime args)
               (movedEnd booking (move_date args) (move_startTime args))) None,
         updateBookingTime db (nowMs env) (move_bookingId args)
           (move_date args) (move_startTime args)
           (movedEnd booking (move_date args) (move_startTime args))).

Inductive CancelOutcome (env : Env) (args : CancelCommandArgs)
    (payload : JandiOutgoingWebhookPayload) (db : Database)
    : CommandResult * Database -> Prop :=
  | CancelNotFound :
      getBookingById db (cancel_bookingId args) = None ->
      CancelOutcome env args payload db
        (failure (MsgBookingNotFound (cancel_bookingId args)) BOOKING_NOT_FOUND, db)
  | CancelClosed booking :
      getBookingById db (cancel_bookingId args) = Some booking ->
      status booking <> active ->
      CancelOutcome env args payload db
        (failure (MsgAlreadyClosed (status booking)) INVALID_STATUS, db)
  | CancelForeign booking :
      getBookingById db (cancel_bookingId args) = Some booking ->
      status booking = active ->
      requestedBy booking <> writerEmail payload ->
      CancelOutcome env args payload db (failure MsgCancelNotOwner UNAUTHORIZED, db)
  | CancelDone booking :
      getBookingById db (cancel_bookingId args) = Some booking ->
      status booking = active ->
      requestedBy booking = writerEmail payload ->
      CancelOutcome env args payload db
        (ok (MsgCancelled (cancel_bookingId args)
               (option_map room_displayName (getRoomById db (roomId booking)))
               (date booking) (startTime booking) (endTime booking)
               (title booking)) None,
         updateBookingStatus db (nowMs env) (cancel_bookingId args) cancelled).

(** The window and the row of a book request. *)
Definition bookedEnd (args : BookCommandArgs) : string :=
  formatHHmm (addMinutes (dayjsParse (book_date args) (book_startTime args))
                         (book_duration args)).

Definition outsideHours (args : BookCommandArgs) : bool :=
  let startDateTime := dayjsParse (book_date args) (book_startTime args) in
  jsLt (hour startDateTime) (policyStartHour bookingPolicy)
  || jsGt (hour (addMinutes startDateTime (book_duration args)))
          (policyEndHour bookingPolicy).

Definition bookedRow (env : Env) (args : BookCommandArgs)
    (payload : JandiOutgoingWebhookPayload) (room : Room) : Booking :=
  {| id := 0; bookingId := generateBookingId env; roomId := room_id room;
     calendarId := room_calendarId room; eventId := generateBookingId env;
     title := book_title args; date := book_date args;
     startTime := book_startTime args; endTime := bookedEnd args;
     durationMinutes := book_duration args;
     requestedBy := writerEmail payload;
     requestedByName := writerName payload;
     status := active; createdAt := 0; updatedAt := 0 |}.

Inductive BookOutcome (env : Env) (args : BookCommandArgs)
    (payload : JandiOutgoingWebhookPayload) (db : Database)
    : CommandResult * Database -> Prop :=
  | BookNoRoom :
      getRoomByName db (book_roomName args) = None ->
      BookOutcome env args payload db
        (failure (MsgRoomNotFound (book_roomName args)
                    (map room_name (getAllRooms db))) ROOM_NOT_FOUND, db)
  | BookPast room :
      getRoomByName db (book_roomName args) = Some room ->
      isBefore (dayjsParse (book_date args) (book_startTime args)) (nowMs env)
        = true ->
      BookOutcome env args payload db (failure MsgPastTime PAST_TIME, db)
  | BookOutside room :
      getRoomByName db (book_roomName args) = Some room ->
      isBefore (dayjsParse (book_date args) (book_startTime args)) (nowMs env)
        = false ->
      outsideHours args = true ->
      BookOutcome env args payload db
        (failure (MsgOutsideHours (bookingHoursStart bookingPolicy)
                    (bookingHoursEnd bookingPolicy)) OUTSIDE_HOURS, db)
  | BookConflict room :
      getRoomByName db (book_roomName args) = Some room ->
      isBefore (dayjsParse (book_date args) (book_startTime args)) (nowMs env)
        = false ->
      outsideHours args = false ->
      checkRoomAvailability db (room_id room) (book_date args)
        (book_startTime args) (bookedEnd args) None = false ->
      BookOutcome env args payload db
        (failure (MsgBookConflict (room_displayName room) (book_date args)
                    (book_startTime args) (bookedEnd args)) CONFLICT, db)
  | BookDuplicate room thrown :
      getRoomByName db (book_roomName args) = Some room ->
      isBefore (dayjsParse (book_date args) (book_startTime args)) (nowMs env)
        = false ->
      outsideHours args = false ->
      checkRoomAvailability db (room_id room) (book_date args)
        (book_startTime args) (bookedEnd args) None = true ->
      createBooking db (nowMs env) (bookedRow env args payload room)
        = inr thrown ->
      BookOutcome env args payload db
        (failure (MsgBookingFailed thrown) BOOKING_ERROR, db)
  | BookDone room db' :
      getRoomByName db (book_roomName args) = Some room ->
      isBefore (dayjsParse (book_date args) (book_startTime args)) (nowMs env)
        = false ->
      outsideHours args = false ->
      checkRoomAvailability db (room_id room) (book_date args)
        (book_startTime args) (bookedEnd args) None = true ->
      createBooking db (nowMs env) (bookedRow env args payload room)
        = inl db' ->
      BookOutcome env args payload db
        (ok (MsgBooked (generateBookingId env) (room_displayName room)
               (book_date args) (book_startTime args) (bookedEnd args)
               (book_duration args) (book_title args) (writerName payload))
            (Some (generateBookingId env)), db').

End Outcomes.

(** The row with its status replaced and nothing else touched. *)
Definition withStatus (st : BookingStatus) (b : Booking) : Booking :=
  {| id := id b; bookingId := bookingId b; roomId := roomId b;
     calendarId := calendarId b; eventId := eventId b; title := title b;
     date := date b; startTime := startTime b; endTime := endTime b;
     durationMinutes := durationMinutes b; requestedBy := requestedBy b;
     requestedByName := requestedByName b; status := st;
     createdAt := createdAt b; updatedAt := updatedAt b |}.

(* ================================================================= *)
(** ** Stores and requests that stay within the day *)

(** The text of minute [m] of the day. *)
Definition clock (m : Z) : string := formatHHmm (Some m).

(** A start text is padded when the pattern accepts it and it has two
    hour digits. *)
Definition padded (s : string) : Prop :=
  timeRegex_test s = true /\ String.length s = 5%nat.

(** A row that lies within its day: a valid date, and clock texts of two
    minutes of that day, the start before the end. *)
Definition WithinDay (b : Booking) : Prop :=
  dateToDays (date b) <> None
  /\ exists s e, 0 <= s /\ s < e /\ e < 1440
                 /\ startTime b = clock s /\ endTime b = clock e.

(** The state in which the conflict check does its work: identifiers are
    non-empty and unique, active rows lie within their day, and no two
    active rows of a room and day overlap. *)
Record Sound (db : Database) : Prop := {
  sound_ids : NoDup (map bookingId (bookings db));
  sound_named : forall b, In b (bookings db) -> bookingId b <> "";
  sound_rows : forall b, In b (bookings db) -> status b = active -> WithinDay b;
  sound_disjoint : ActiveDisjoint db
}.

(** A request that proposes only padded start texts and windows that end
    before midnight of their day. *)
Definition staysWithinDay (db : Database) (q : Request) : Prop :=
  match q with
  | Book _ args _ =>
      dateToDays (book_date args) <> None
      /\ padded (book_startTime args)
      /\ 0 < book_duration args
      /\ forall m, timeToMinutes (book_startTime args) = Some m ->
                   m + book_duration args < 1440
  | Cancel _ _ _ => True
  | Move _ args _ =>
      dateToDays (move_date args) <> None
      /\ padded (move_startTime args)
      /\ forall b m, getBookingById db (move_bookingId args) = Some b ->
                     timeToMinutes (move_startTime args) = Some m ->
                     0 < durationMinutes b /\ m + durationMinutes b < 1440
  | Extend _ args _ =>
      0 < extend_additionalMinutes args
      /\ forall b m, getBookingById db (extend_bookingId args) = Some b ->
                     timeToMinutes (endTime b) = Some m ->
                     m + extend_additionalMinutes args < 1440
  end.

(** Every request of a sequential execution stays within the day, each
    judged on the store the earlier ones left. *)
Fixpoint allStayWithinDay (policy : BookingPolicy) (db : Database)
    (qs : list Request) : Prop :=
  match qs with
  | [] => True
  | q :: rest =>
      staysWithinDay db q /\ allStayWithinDay policy (execute policy db q) rest
  end.

(* ================================================================= *)
(** ** Vocabulary of the store, parser and route properties *)

(** The row with another room id. *)
Definition setRoom (rid : Z) (b : Booking) : Booking :=
  {| id := id b; bookingId := bookingId b; roomId := rid;
     calendarId := calendarId b; eventId := eventId b; title := title b;
     date := date b; startTime := startTime b; endTime := endTime b;
     durationMinutes := durationMinutes b; requestedBy := requestedBy b;
     requestedByName := requestedByName b; status := status b;
     createdAt := createdAt b; updatedAt := updatedAt b |}.

(** The request carries the configured admin key, and one is configured. *)
Definition keyAccepted (adminKey apiKey : option string) : Prop :=
  exists key, adminKey = Some key /\ key <> "" /\ apiKey = Some key.

(** A field of the body that is there and not empty. *)
Definition given (field : option string) : Prop :=
  exists s, field = Some s /\ s <> "".

Definition bodyComplete (body : RoomBody) : Prop :=
  given (body_name body) /\ given (body_displayName body)
  /\ given (body_email body) /\ given (body_calendarId body).

(** A room of the table already has the name or the email of the body. *)
Definition nameOrEmailTaken (db : Database) (body : RoomBody) : Prop :=
  exists r, In r (rooms db)
            /\ (body_name body = Some (room_name r)
                \/ body_email body = Some (room_email r)).

(** What never changes in a row once it is stored. *)
Definition rowIdentity (b : Booking)
    : Z * string * Z * string * string * string * string * Z :=
  (id b, bookingId b, roomId b, calendarId b, eventId b, title b,
   requestedBy b, createdAt b).

(** Ascending start texts, in the text order of the store. *)
Definition byStartTime (a b : Booking) : Prop :=
  String.leb (startTime a) (startTime b) = true.

Definition byRoomName (a b : Room) : Prop :=
  String.leb (room_name a) (room_name b) = true.

(** Ascending dates, and ascending start texts within a date. *)
Definition byDateThenStart (a b : Booking) : Prop :=
  String.ltb (date a) (date b) = true
  \/ (date a = date b /\ String.leb (startTime a) (startTime b) = true).

(** A canonical date text: it denotes a day and is the text of that day. *)
Definition canonicalDate (day : string) : Prop :=
  exists n, dateToDays day = Some n /\ formatDate n = day.

(** A character that neither separates tokens nor opens a quotation. *)
Definition plainChar (c : ascii) : bool :=
  negb (Ascii.eqb c " ") && negb (Ascii.eqb c doubleQuote)
  && negb (Ascii.eqb c singleQuote).

(** A non-empty word of plain characters. *)
Definition plainWord (w : string) : Prop :=
  w <> "" /\ forallb plainChar (list_ascii_of_string w) = true.

(** [s] wrapped in double quotes. *)
Definition quoted (s : string) : string :=
  String doubleQuote (s ++ String doubleQuote "")%string.

(** What the handlers may rely on in a parsed command. *)
Definition wellFormedIntent (policy : BookingPolicy) (i : Intent) : Prop :=
  let identifier (bid : string) := bid <> "" /\ toUpperCase bid = bid in
  match i with
  | IHelp => True
  | IStatus a => exists day, status_date a = Some day /\ canonicalDate day
  | IBook a =>
      book_roomName a <> ""
      /\ canonicalDate (book_date a)
      /\ timeRegex_test (book_startTime a) = true
      /\ 0 < book_duration a
      /\ minDurationMinutes policy <= book_duration a <= maxDurationMinutes policy
      /\ book_title a <> ""
  | ICancel a => identifier (cancel_bookingId a)
  | IMove a =>
      identifier (move_bookingId a)
      /\ canonicalDate (move_date a)
      /\ timeRegex_test (move_startTime a) = true
  | IExtend a =>
      identifier (extend_bookingId a) /\ 0 < extend_additionalMinutes a
  | IMy _ => True
  | IList ListRooms => True
  | IList (ListBookings day) => canonicalDate day
  end.

(** The stored duration of a row is the distance, in minutes, from its
    start text to its end text. *)
Definition durationMatches (b : Booking) : Prop :=
  exists s e,
    timeToMinutes (startTime b) = Some s /\ timeToMinutes (endTime b) = Some e
    /\ 0 < durationMinutes b /\ e - s = durationMinutes b.

Definition Measured (db : Database) : Prop :=
  forall b, In b (bookings db) -> status b = active -> durationMatches b.

(* ================================================================= *)
(** ** Sample data used by the examples *)

Module Samples.

Definition roomA : Room :=
  {| room_id := 1; room_name := "A"; room_displayName := "Room A";
     room_email := "room-a@example.com"; room_calendarId := "room-a@example.com";
     room_capacity := 8; room_location := "2F"; room_autoAccept := true |}.

Definition emptyStore : Database :=
  {| rooms := [roomA]; bookings := []; audit_logs := [] |}.

Definition payloadOf (name email : string) : JandiOutgoingWebhookPayload :=
  {| token := "tok"; teamName := "team"; roomName := "general";
     writerName := name; writerEmail := email; text := ""; data := "";
     keyword := "room"; ip := "10.0.0.7"; payload_createdAt := "" |}.

Definition alice := payloadOf "Alice" "alice@example.com".
Definition bob := payloadOf "Bob" "bob@example.com".

(** A stored row of room 1 on 2030-01-07. *)
Definition row (bid from to : string) (minutes : Z) (st : BookingStatus)
    : Booking :=
  {| id := 1; bookingId := bid; roomId := 1;
     calendarId := "room-a@example.com"; eventId := bid; title := "sync";
     date := "2030-01-07"; startTime := from; endTime := to;
     durationMinutes := minutes; requestedBy := "alice@example.com";
     requestedByName := "Alice"; status := st;
     createdAt := 1700000000000; updatedAt := 1700000000000 |}.

Definition storeOf (bs : list Booking) : Database :=
  {| rooms := [roomA]; bookings := bs; audit_logs := [] |}.

(** Three consecutive milliseconds of 2023-11-14. *)
Definition at0 : Env := {| nowMs := 1700000000000; randomDigits := "k3f" |}.
Definition at1 : Env := {| nowMs := 1700000000001; randomDigits := "9qz" |}.
Definition at2 : Env := {| nowMs := 1700000000002; randomDigits := "m0c" |}.

Definition saying (words : string) : JandiOutgoingWebhookPayload :=
  {| token := "tok"; teamName := "team"; roomName := "general";
     writerName := "Alice"; writerEmail := "alice@example.com";
     text := ("room " ++ words)%string; data := words;
     keyword := "room"; ip := "10.0.0.7"; payload_createdAt := "" |}.

(** A request entered at [t0] and logged 7 ms after 1700000000000. *)
Definition clockFrom (t0 : Z) : RequestClock :=
  {| startedMs := t0; handlerEnv := at0; finishedMs := 1700000000007;
     storeFault := None; auditFault := None |}.

(** The same request, with an audit insert that throws. *)
Definition clockFailing (t0 : Z) (thrown : string) : RequestClock :=
  {| startedMs := t0; handlerEnv := at0; finishedMs := 1700000000007;
     storeFault := None; auditFault := Some thrown |}.

End Samples.

(* ================================================================= *)
(** ** The text order of the store *)

Module TextOrder.

Lemma compare_refl (s : string) : String.compare s s = Eq.
Proof.
  induction s as [|c s IH]; simpl; [reflexivity|].
  unfold Ascii.compare. now rewrite N.compare_refl.
Qed.

Lemma lt_le_trans (a b c : string) :
  String.compare a b = Lt -> String.compare b c <> Gt -> String.compare a c = Lt.
Proof.
  revert b c. induction a as [|x a IH]; intros [|y b] [|z c]; simpl;
    try congruence.
  unfold Ascii.compare.
  destruct (N.compare_spec (N_of_ascii x) (N_of_ascii y));
    destruct (N.compare_spec (N_of_ascii y) (N_of_ascii z));
    destruct (N.compare_spec (N_of_ascii x) (N_of_ascii z));
    intros Hab Hbc; try congruence; try lia; eauto.
Qed.

Lemma le_lt_trans (a b c : string) :
  String.compare a b <> Gt -> String.compare b c = Lt -> String.compare a c = Lt.
Proof.
  revert b c. induction a as [|x a IH]; intros [|y b] [|z c]; simpl;
    try congruence.
  unfold Ascii.compare.
  destruct (N.compare_spec (N_of_ascii x) (N_of_ascii y));
    destruct (N.compare_spec (N_of_ascii y) (N_of_ascii z));
    destruct (N.compare_spec (N_of_ascii x) (N_of_ascii z));
    intros Hab Hbc; try congruence; try lia; eauto.
Qed.

Lemma ltb_lt (a b : string) : String.ltb a b = true <-> String.compare a b = Lt.
Proof. unfold String.ltb. destruct (String.compare a b); intuition congruence. Qed.

Lemma leb_le (a b : string) : String.leb a b = true <-> String.compare a b <> Gt.
Proof. unfold String.leb. destruct (String.compare a b); intuition congruence. Qed.

Lemma ltb_irrefl (a : string) : String.ltb a a = false.
Proof. unfold String.ltb. now rewrite compare_refl. Qed.

Lemma ltb_leb_trans (a b c : string) :
  String.ltb a b = true -> String.leb b c = true -> String.ltb a c = true.
Proof. rewrite !ltb_lt, leb_le. apply lt_le_trans. Qed.

Lemma leb_ltb_trans (a b c : string) :
  String.leb a b = true -> String.ltb b c = true -> String.ltb a c = true.
Proof. rewrite !ltb_lt, leb_le. apply le_lt_trans. Qed.

Lemma ltb_leb (a b : string) : String.ltb a b = true -> String.leb a b = true.
Proof. rewrite ltb_lt, leb_le. congruence. Qed.

Lemma ltb_trans (a b c : string) :
  String.ltb a b = true -> String.ltb b c = true -> String.ltb a c = true.
Proof. intros H1 H2. eapply ltb_leb_trans; eauto using ltb_leb. Qed.

End TextOrder.

(* ================================================================= *)
(** ** Clock texts: the text order is the order of the minutes *)

Module ClockText.

Lemma charCode_digitChar d : 0 <= d <= 9 -> charCode (digitChar d) = 48 + d.
Proof.
  intros Hd. unfold charCode, digitChar.
  rewrite N_ascii_embedding by lia. lia.
Qed.

Lemma digitChar_digitVal c : digitChar (digitVal c) = c.
Proof.
  unfold digitChar, digitVal, charCode.
  replace (48 + (Z.of_N (N_of_ascii c) - 48)) with (Z.of_N (N_of_ascii c)) by lia.
  now rewrite N2Z.id, ascii_N_embedding.
Qed.

Lemma isDigit_bounds c : isDigit c = true -> 0 <= digitVal c <= 9.
Proof. unfold isDigit, digitVal. lia. Qed.

Lemma charBetween_digit (hi c : ascii) :
  charBetween "0" hi c = true -> 0 <= digitVal c <= charCode hi - 48.
Proof. unfold charBetween, digitVal. change (charCode "0") with 48. lia. Qed.

Lemma isDigit_digitChar d : 0 <= d <= 9 -> isDigit (digitChar d) = true.
Proof. intros Hd. unfold isDigit. rewrite charCode_digitChar by assumption. lia. Qed.

Lemma digitVal_digitChar d : 0 <= d <= 9 -> digitVal (digitChar d) = d.
Proof. intros Hd. unfold digitVal. rewrite charCode_digitChar by assumption. lia. Qed.

Lemma compare_digitChar x y :
  0 <= x <= 9 -> 0 <= y <= 9 ->
  Ascii.compare (digitChar x) (digitChar y) = (x ?= y).
Proof.
  intros Hx Hy. unfold Ascii.compare, digitChar.
  rewrite !N_ascii_embedding by lia.
  destruct (N.compare_spec (Z.to_N (48 + x)) (Z.to_N (48 + y))),
    (Z.compare_spec x y); try reflexivity; lia.
Qed.

(** The four digits of a clock text. *)
Lemma clock_digits m :
  0 <= m < 1440 ->
  exists h1 h2 m1 m2,
    0 <= h1 <= 2 /\ 0 <= h2 <= 9 /\ 0 <= m1 <= 5 /\ 0 <= m2 <= 9
    /\ h1 * 10 + h2 <= 23
    /\ m = (h1 * 10 + h2) * 60 + (m1 * 10 + m2)
    /\ clock m = String (digitChar h1) (String (digitChar h2) (String ":"
                   (String (digitChar m1) (String (digitChar m2) EmptyString)))).
Proof.
  intros Hm. exists (m / 60 / 10), (m / 60 mod 10), (m mod 60 / 10), (m mod 60 mod 10).
  unfold clock, formatHHmm, twoDigits. rewrite (Z.mod_small m 1440) by lia.
  pose proof (Z.div_mod m 60 ltac:(lia)).
  pose proof (Z.mod_pos_bound m 60 ltac:(lia)).
  pose proof (Z.div_mod (m / 60) 10 ltac:(lia)).
  pose proof (Z.mod_pos_bound (m / 60) 10 ltac:(lia)).
  pose proof (Z.div_mod (m mod 60) 10 ltac:(lia)).
  pose proof (Z.mod_pos_bound (m mod 60) 10 ltac:(lia)).
  assert (0 <= m / 60 < 24)
    by (split; [apply Z.div_pos; lia|apply Z.div_lt_upper_bound; lia]).
  assert (0 <= m / 60 / 10 < 3)
    by (split; [apply Z.div_pos; lia|apply Z.div_lt_upper_bound; lia]).
  assert (0 <= m mod 60 / 10 < 6)
    by (split; [apply Z.div_pos; lia|apply Z.div_lt_upper_bound; lia]).
  repeat split; try lia. 
Qed.

Lemma timeToMinutes_clock m : 0 <= m < 1440 -> timeToMinutes (clock m) = Some m.
Proof.
  intros Hm. destruct (clock_digits m Hm)
    as (h1 & h2 & m1 & m2 & H1 & H2 & H3 & H4 & _ & -> & ->).
  unfold timeToMinutes. cbn [list_ascii_of_string].
  rewrite !isDigit_digitChar by lia. cbn [andb].
  rewrite !digitVal_digitChar by lia. reflexivity.
Qed.

Lemma compare_clock a b :
  0 <= a < 1440 -> 0 <= b < 1440 ->
  String.compare (clock a) (clock b) = (a ?= b).
Proof.
  intros Ha Hb.
  destruct (clock_digits a Ha) as (a1 & a2 & a3 & a4 & ? & ? & ? & ? & _ & Ea & ->).
  destruct (clock_digits b Hb) as (b1 & b2 & b3 & b4 & ? & ? & ? & ? & _ & Eb & ->).
  simpl String.compare.
  rewrite !compare_digitChar by lia.
  change (Ascii.compare ":" ":") with Eq.
  destruct (Z.compare_spec a1 b1), (Z.compare_spec a2 b2),
    (Z.compare_spec a3 b3), (Z.compare_spec a4 b4);
    symmetry;
    first [ apply Z.compare_eq_iff | apply Z.compare_lt_iff | apply Z.compare_gt_iff ];
    lia.
Qed.

Lemma ltb_clock a b :
  0 <= a < 1440 -> 0 <= b < 1440 -> String.ltb (clock a) (clock b) = (a <? b).
Proof.
  intros Ha Hb. unfold String.ltb. rewrite compare_clock by assumption.
  unfold Z.ltb. now destruct (a ?= b).
Qed.

Lemma leb_clock a b :
  0 <= a < 1440 -> 0 <= b < 1440 -> String.leb (clock a) (clock b) = (a <=? b).
Proof.
  intros Ha Hb. unfold String.leb. rewrite compare_clock by assumption.
  unfold Z.leb. now destruct (a ?= b).
Qed.

Lemma padded_clock s :
  padded s -> exists m, 0 <= m < 1440 /\ s = clock m.
Proof.
  intros [Hre Hlen]. unfold timeRegex_test in Hre.
  destruct s as [|c1 [|c2 [|c3 [|c4 [|c5 [|c6 s]]]]]]; try discriminate.
  cbn [list_ascii_of_string] in Hre.
  apply andb_true_iff in Hre as [Hre H5].
  apply andb_true_iff in Hre as [Hre H4].
  apply andb_true_iff in Hre as [Hh H3].
  apply isDigit_bounds in H5. apply charBetween_digit in H4.
  change (charCode "5" - 48) with 5 in H4.
  assert (Hhour : 0 <= digitVal c1 <= 2 /\ 0 <= digitVal c2 <= 9
                  /\ digitVal c1 * 10 + digitVal c2 <= 23).
  { apply orb_true_iff in Hh as [Hh|Hh]; apply andb_true_iff in Hh as [Ha Hb].
    - apply charBetween_digit in Ha. apply isDigit_bounds in Hb.
      change (charCode "1" - 48) with 1 in Ha. lia.
    - apply Ascii.eqb_eq in Ha. subst c1. apply charBetween_digit in Hb.
      change (charCode "3" - 48) with 3 in Hb.
      change (digitVal "2") with 2. lia. }
  exists ((digitVal c1 * 10 + digitVal c2) * 60 + (digitVal c4 * 10 + digitVal c5)).
  split; [lia|].
  unfold clock, formatHHmm, twoDigits.
  rewrite Z.mod_small by lia.
  replace (((digitVal c1 * 10 + digitVal c2) * 60 + (digitVal c4 * 10 + digitVal c5)) / 60)
    with (digitVal c1 * 10 + digitVal c2)
    by (apply Z.div_unique with (r := digitVal c4 * 10 + digitVal c5); lia).
  replace (((digitVal c1 * 10 + digitVal c2) * 60 + (digitVal c4 * 10 + digitVal c5)) mod 60)
    with (digitVal c4 * 10 + digitVal c5)
    by (apply Z.mod_unique with (q := digitVal c1 * 10 + digitVal c2); lia).
  replace ((digitVal c1 * 10 + digitVal c2) / 10) with (digitVal c1)
    by (apply Z.div_unique with (r := digitVal c2); lia).
  replace ((digitVal c1 * 10 + digitVal c2) mod 10) with (digitVal c2)
    by (apply Z.mod_unique with (q := digitVal c1); lia).
  replace ((digitVal c4 * 10 + digitVal c5) / 10) with (digitVal c4)
    by (apply Z.div_unique with (r := digitVal c5); lia).
  replace ((digitVal c4 * 10 + digitVal c5) mod 10) with (digitVal c5)
    by (apply Z.mod_unique with (q := digitVal c4); lia).
  apply Ascii.eqb_eq in H3. subst c3.
  cbn [String.append]. now rewrite !digitChar_digitVal.
Qed.

End ClockText.

(* ================================================================= *)
(** ** The conflict check *)

Section ConflictCheck.

Lemma checkRoomAvailability_true_iff db rid day s e ex :
  checkRoomAvailability db rid day s e ex = true <->
  forall b, In b (bookings db) -> conflictRow rid day s e ex b = false.
Proof.
  unfold checkRoomAvailability.
  induction (bookings db) as [|x l IH]; simpl.
  - split; [intros _ b []|reflexivity].
  - destruct (conflictRow rid day s e ex x) eqn:Hx; simpl.
    + split; [discriminate|]. intros H.
      specialize (H x (or_introl eq_refl)). congruence.
    + rewrite IH. split.
      * intros H b [<-|Hb]; auto.
      * intros H b Hb. apply H. now right.
Qed.

Lemma isActive_iff b : isActive b = true <-> status b = active.
Proof. unfold isActive. destruct (status b); simpl; intuition congruence. Qed.

Lemma notExcluded_iff ex b :
  ex <> Some "" ->
  notExcluded ex b = true <->
  match ex with Some x => bookingId b <> x | None => True end.
Proof.
  intros Hex. destruct ex as [x|]; simpl; [|tauto].
  destruct (String.eqb_spec x ""); [congruence|].
  destruct (String.eqb_spec (bookingId b) x); simpl; intuition congruence.
Qed.

(** A row counts as a conflict exactly when it is a competitor that
    passes the three-way overlap test. *)
Lemma conflictRow_true_iff rid day s e ex b :
  ex <> Some "" ->
  conflictRow rid day s e ex b = true <->
  competitor rid day ex b /\ overlapClause b s e = true.
Proof.
  intros Hex. unfold conflictRow, competitor.
  rewrite !andb_true_iff, Z.eqb_eq, String.eqb_eq, isActive_iff,
    (notExcluded_iff ex b Hex).
  tauto.
Qed.

(** On a well-formed row and a well-formed candidate window the second
    and third disjuncts of the SQL test are subsumed by the first. *)
Lemma overlapClause_strictOverlap b s e :
  String.leb s e = true ->
  String.ltb (startTime b) (endTime b) = true ->
  overlapClause b s e = strictOverlap b s e.
Proof.
  intros Hse Hb. unfold overlapClause, strictOverlap, textLt, textGt, textGe, textLe.
  destruct (String.ltb (startTime b) e) eqn:H1; simpl.
  - destruct (String.ltb s (endTime b)) eqn:H2; simpl; [reflexivity|].
    destruct (String.ltb e (endTime b)) eqn:H3; simpl.
    + rewrite (TextOrder.leb_ltb_trans _ _ _ Hse H3) in H2. discriminate.
    + destruct (String.leb s (startTime b)) eqn:H4; simpl; [|reflexivity].
      rewrite (TextOrder.leb_ltb_trans _ _ _ H4 Hb) in H2. discriminate.
  - destruct (String.leb s (startTime b)) eqn:H4; simpl; [|reflexivity].
    destruct (String.leb (endTime b) e) eqn:H5; simpl; [|reflexivity].
    rewrite (TextOrder.ltb_leb_trans _ _ _ Hb H5) in H1. discriminate.
Qed.

End ConflictCheck.

(** C2 (as amended).  For a candidate window whose start does not come
    after its end in the text order of the store, an exclusion identifier
    that is absent or non-empty, and a store whose competing rows all have
    start before end: [checkRoomAvailability] answers [true] exactly when
    no competing row satisfies [existing.start < end AND existing.end >
    start]; a competing row that only touches the window at an endpoint is
    not a conflict; and on every row with start before end the three-way
    SQL test equals that single condition. *)
Theorem checkRoomAvailability_strict_overlap db rid day s e ex :
  String.leb s e = true ->
  ex <> Some "" ->
  (forall b, In b (bookings db) -> competitor rid day ex b ->
             String.ltb (startTime b) (endTime b) = true) ->
  (checkRoomAvailability db rid day s e ex = true <->
   forall b, In b (bookings db) -> competitor rid day ex b ->
             strictOverlap b s e = false)
  /\ (forall b, In b (bookings db) -> competitor rid day ex b ->
                endTime b = s \/ startTime b = e ->
                conflictRow rid day s e ex b = false)
  /\ (forall b, String.ltb (startTime b) (endTime b) = true ->
                overlapClause b s e = strictOverlap b s e).
Proof.
  intros Hse Hex Hwf.
  assert (Hrow : forall b, In b (bookings db) ->
            (conflictRow rid day s e ex b = false <->
             (competitor rid day ex b -> strictOverlap b s e = false))).
  { intros b Hb. split.
    - intros Hc Hcomp.
      rewrite <- (overlapClause_strictOverlap b s e Hse (Hwf b Hb Hcomp)).
      destruct (overlapClause b s e) eqn:Ho; [|reflexivity].
      assert (conflictRow rid day s e ex b = true)
        by (apply conflictRow_true_iff; auto).
      congruence.
    - intros H. destruct (conflictRow rid day s e ex b) eqn:Hc; [|reflexivity].
      apply conflictRow_true_iff in Hc; [|assumption].
      destruct Hc as [Hcomp Ho].
      rewrite (overlapClause_strictOverlap b s e Hse (Hwf b Hb Hcomp)) in Ho.
      rewrite (H Hcomp) in Ho. discriminate. }
  split; [|split].
  - rewrite checkRoomAvailability_true_iff. split.
    + intros H b Hb. apply Hrow; auto.
    + intros H b Hb. apply Hrow; auto.
  - intros b Hb Hcomp Htouch. apply Hrow; [assumption|]. intros _.
    unfold strictOverlap, textLt, textGt.
    destruct Htouch as [<-|<-]; rewrite TextOrder.ltb_irrefl;
      [apply andb_false_r|reflexivity].
  - intros b Hb. now apply overlapClause_strictOverlap.
Qed.

(** The two boundary examples of the specification, a non-empty store
    with well-formed rows, run through the theorem. *)
Lemma checkRoomAvailability_strict_overlap_witness :
  checkRoomAvailability
    (Samples.storeOf [Samples.row "R-1" "10:00" "11:00" 60 active])
    1 "2030-01-07" "09:00" "10:00" None = true.
Proof.
  apply (checkRoomAvailability_strict_overlap
           (Samples.storeOf [Samples.row "R-1" "10:00" "11:00" 60 active])
           1 "2030-01-07" "09:00" "10:00" None).
  - reflexivity.
  - discriminate.
  - intros b [<-|[]] _. reflexivity.
  - intros b [<-|[]] _. reflexivity.
Defined.

Example touching_is_free :
  checkRoomAvailability
    (Samples.storeOf [Samples.row "R-1" "10:00" "11:00" 60 active])
    1 "2030-01-07" "09:00" "10:00" None = true.
Proof. reflexivity. Qed.

Example one_minute_overlap_conflicts :
  checkRoomAvailability
    (Samples.storeOf [Samples.row "R-1" "10:00" "11:00" 60 active])
    1 "2030-01-07" "09:00" "10:01" None = false.
Proof. reflexivity. Qed.

(** C2 (counterexample).  Three inputs on which the contract as worded
    fails: (i) a stored row that wraps past midnight ("23:30" to "00:30")
    blocks the window 09:00-10:00 although it does not satisfy the single
    overlap condition; (ii) for the window "9:30" to "10:30", whose start
    is above its end in the text order, the three-way test accepts the
    well-formed row 09:00-10:45 and the single condition rejects it;
    (iii) an empty exclusion identifier excludes nothing. *)
Lemma checkRoomAvailability_contract_counterexample :
  (let db := Samples.storeOf [Samples.row "R-1" "23:30" "00:30" 60 active] in
   checkRoomAvailability db 1 "2030-01-07" "09:00" "10:00" None = false
   /\ forall b, In b (bookings db) -> strictOverlap b "09:00" "10:00" = false)
  /\ (let b := Samples.row "R-1" "09:00" "10:45" 105 active in
      String.ltb (startTime b) (endTime b) = true
      /\ overlapClause b "9:30" "10:30" = true
      /\ strictOverlap b "9:30" "10:30" = false)
  /\ (let db := Samples.storeOf [Samples.row "" "09:00" "10:00" 60 active] in
      checkRoomAvailability db 1 "2030-01-07" "09:00" "10:00" (Some "") = false
      /\ forall b, In b (bookings db) ->
                   competitor 1 "2030-01-07" (Some "") b -> False).
Proof.
  repeat split; try reflexivity.
  - intros b [<-|[]]. reflexivity.
  - intros b [<-|[]] (_ & _ & _ & H). now apply H.
Qed.

(* ================================================================= *)
(** ** Effects of the UPDATE statements *)

Section Updates.

Variable bid : string.
Variable f : Booking -> Booking.
Hypothesis f_keeps_id : forall b, bookingId (f b) = bookingId b.

Lemma updateWhereId_rooms db : rooms (updateWhereId bid f db) = rooms db.
Proof. reflexivity. Qed.

Lemma updateWhereId_audit db :
  audit_logs (updateWhereId bid f db) = audit_logs db.
Proof. reflexivity. Qed.

(** The row found under an identifier after the update is the updated
    image of the row found before. *)
Lemma getBookingById_updateWhereId db x :
  getBookingById (updateWhereId bid f db) x =
  option_map (fun b => if String.eqb (bookingId b) bid then f b else b)
             (getBookingById db x).
Proof.
  unfold getBookingById, updateWhereId; simpl.
  induction (bookings db) as [|b l IH]; simpl; [reflexivity|].
  destruct (String.eqb (bookingId b) bid) eqn:Hb.
  - rewrite f_keeps_id. destruct (String.eqb (bookingId b) x); simpl.
    + now rewrite Hb.
    + apply IH.
  - destruct (String.eqb (bookingId b) x); simpl.
    + now rewrite Hb.
    + apply IH.
Qed.


End Updates.

Lemma getBookingById_id db x b :
  getBookingById db x = Some b -> bookingId b = x.
Proof.
  unfold getBookingById. intros H. apply find_some in H.
  now apply String.eqb_eq.
Qed.

(* ================================================================= *)
(** ** The handlers follow their paths *)

Lemma handleExtendCommand_outcome policy env args payload db :
  ExtendOutcome policy env args payload db
    (handleExtendCommand policy env args payload db).
Proof.
  unfold handleExtendCommand.
  destruct (getBookingById db (extend_bookingId args)) as [booking|] eqn:Hb;
    [|now constructor].
  destruct (String.eqb_spec (requestedBy booking) (writerEmail payload)) as [Ho|Ho];
    simpl; [|now econstructor; eauto].
  destruct (getRoomById db (roomId booking)) as [room|] eqn:Hr;
    [|now econstructor; eauto].
  destruct (Z.gtb_spec (durationMinutes booking + extend_additionalMinutes args)
              (maxDurationMinutes policy)) as [Hm|Hm].
  - eapply ExtendTooLong; eauto. lia.
  - fold (extendedEnd booking (extend_additionalMinutes args)).
    destruct (checkRoomAvailability db (room_id room) (date booking)
                (endTime booking) _ (Some (extend_bookingId args))) eqn:Hc; simpl.
    + eapply ExtendDone; eauto.
    + eapply ExtendConflict; eauto.
Qed.

Lemma handleMoveCommand_outcome env args payload db :
  MoveOutcome env args payload db
    (handleMoveCommand env args payload db).
Proof.
  unfold handleMoveCommand.
  destruct (getBookingById db (move_bookingId args)) as [booking|] eqn:Hb;
    [|now constructor].
  destruct (String.eqb_spec (requestedBy booking) (writerEmail payload)) as [Ho|Ho];
    simpl; [|now econstructor; eauto].
  destruct (getRoomById db (roomId booking)) as [room|] eqn:Hr;
    [|now econstructor; eauto].
  fold (movedEnd booking (move_date args) (move_startTime args)).
  destruct (checkRoomAvailability db (room_id room) (move_date args)
              (move_startTime args) _ (Some (move_bookingId args))) eqn:Hc; simpl.
  - eapply MoveDone; eauto.
  - eapply MoveConflict; eauto.
Qed.

Lemma handleCancelCommand_outcome env args payload db :
  CancelOutcome env args payload db
    (handleCancelCommand env args payload db).
Proof.
  unfold handleCancelCommand.
  destruct (getBookingById db (cancel_bookingId args)) as [booking|] eqn:Hb;
    [|now constructor].
  destruct (isActive booking) eqn:Ha; simpl.
  - apply isActive_iff in Ha.
    destruct (String.eqb_spec (requestedBy booking) (writerEmail payload)) as [Ho|Ho];
      simpl; [|now econstructor; eauto].
    exact (CancelDone env args payload db booking Hb Ha Ho).
  - apply CancelClosed; [assumption|].
    intros H. apply isActive_iff in H. congruence.
Qed.

Lemma handleBookCommand_outcome policy env args payload db :
  BookOutcome policy env args payload db
    (handleBookCommand policy env args payload db).
Proof.
  unfold handleBookCommand.
  destruct (getRoomByName db (book_roomName args)) as [room|] eqn:Hr;
    [|now constructor].
  destruct (isBefore _ (nowMs env)) eqn:Hp; [now eapply BookPast; eauto|].
  fold (policyStartHour policy) (policyEndHour policy).
  fold (bookedEnd args).
  change (jsLt _ _ || jsGt _ _) with (outsideHours policy args).
  destruct (outsideHours policy args) eqn:Hh; [now eapply BookOutside; eauto|].
  destruct (checkRoomAvailability db (room_id room) (book_date args)
              (book_startTime args) (bookedEnd args) None) eqn:Hc; simpl;
    [|now eapply BookConflict; eauto].
  fold (bookedRow env args payload room).
  destruct (createBooking db (nowMs env) (bookedRow env args payload room))
    as [db'|thrown] eqn:Hi.
  - eapply BookDone; eauto.
  - eapply BookDuplicate; eauto.
Qed.


Lemma setTime_keeps_id d s e now b : bookingId (setTime d s e now b) = bookingId b.
Proof. reflexivity. Qed.

Lemma setStatus_keeps_id st now b : bookingId (setStatus st now b) = bookingId b.
Proof. reflexivity. Qed.



(** The check is over the delta only.  In a store where another active
    row (09:30-09:45) already lies inside Alice's 09:00-10:00 booking, her
    extend by 30 minutes succeeds, because 10:00-10:30 is free, although
    the whole new interval 09:00-10:30 is not, even with her own booking
    excluded. *)
Example extend_looks_at_the_delta_only :
  let bobs :=
    {| id := 2; bookingId := "R-2"; roomId := 1;
       calendarId := "room-a@example.com"; eventId := "R-2"; title := "review";
       date := "2030-01-07"; startTime := "09:30"; endTime := "09:45";
       durationMinutes := 15; requestedBy := "bob@example.com";
       requestedByName := "Bob"; status := active;
       createdAt := 1700000000000; updatedAt := 1700000000000 |} in
  let db := Samples.storeOf [Samples.row "R-1" "09:00" "10:00" 60 active; bobs] in
  success (fst (handleExtendCommand defaultPolicy Samples.at1
                  {| extend_bookingId := "R-1"; extend_additionalMinutes := 30 |}
                  Samples.alice db)) = true
  /\ checkRoomAvailability db 1 "2030-01-07" "10:00" "10:30" (Some "R-1") = true
  /\ checkRoomAvailability db 1 "2030-01-07" "09:00" "10:30" (Some "R-1") = false.
Proof. repeat split. Qed.

(** C6.  A move or an extend that does not succeed returns the store it
    was given; in particular an extend whose new total duration exceeds
    [maxDurationMinutes] answers MAX_DURATION, and a move or extend whose
    requested window is taken answers CONFLICT, each with the store, and so
    every field of the booking, untouched. *)
Theorem failed_move_or_extend_keeps_store policy env payload db :
  (forall args r db',
      handleMoveCommand env args payload db = (r, db') ->
      success r = false -> db' = db)
  /\ (forall args r db',
      handleExtendCommand policy env args payload db = (r, db') ->
      success r = false -> db' = db)
  /\ (forall args booking room,
      getBookingById db (extend_bookingId args) = Some booking ->
      requestedBy booking = writerEmail payload ->
      getRoomById db (roomId booking) = Some room ->
      durationMinutes booking + extend_additionalMinutes args
        > maxDurationMinutes policy ->
      handleExtendCommand policy env args payload db
      = (failure (MsgMaxDuration (maxDurationMinutes policy)) MAX_DURATION, db))
  /\ (forall args booking room,
      getBookingById db (extend_bookingId args) = Some booking ->
      requestedBy booking = writerEmail payload ->
      getRoomById db (roomId booking) = Some room ->
      durationMinutes booking + extend_additionalMinutes args
        <= maxDurationMinutes policy ->
      checkRoomAvailability db (room_id room) (date booking) (endTime booking)
        (extendedEnd booking (extend_additionalMinutes args))
        (Some (extend_bookingId args)) = false ->
      handleExtendCommand policy env args payload db
      = (failure MsgExtendConflict CONFLICT, db))
  /\ (forall args booking room,
      getBookingById db (move_bookingId args) = Some booking ->
      requestedBy booking = writerEmail payload ->
      getRoomById db (roomId booking) = Some room ->
      checkRoomAvailability db (room_id room) (move_date args)
        (move_startTime args)
        (movedEnd booking (move_date args) (move_startTime args))
        (Some (move_bookingId args)) = false ->
      handleMoveCommand env args payload db
      = (failure MsgMoveConflict CONFLICT, db)).
Proof.
  repeat split.
  - intros args r db' Hrun Hs.
    pose proof (handleMoveCommand_outcome env args payload db) as Hout.
    rewrite Hrun in Hout. inversion Hout; subst; try reflexivity.
    discriminate.
  - intros args r db' Hrun Hs.
    pose proof (handleExtendCommand_outcome policy env args payload db) as Hout.
    rewrite Hrun in Hout. inversion Hout; subst; try reflexivity.
    discriminate.
  - intros args booking room Hb Ho Hr Hm. unfold handleExtendCommand.
    rewrite Hb, Ho, String.eqb_refl, Hr. simpl.
    destruct (Z.gtb_spec (durationMinutes booking + extend_additionalMinutes args)
                (maxDurationMinutes policy)); [reflexivity|lia].
  - intros args booking room Hb Ho Hr Hm Hc. unfold handleExtendCommand.
    rewrite Hb, Ho, String.eqb_refl, Hr. simpl.
    destruct (Z.gtb_spec (durationMinutes booking + extend_additionalMinutes args)
                (maxDurationMinutes policy)); [lia|].
    unfold extendedEnd in Hc. now rewrite Hc.
  - intros args booking room Hb Ho Hr Hc. unfold handleMoveCommand.
    rewrite Hb, Ho, String.eqb_refl, Hr. simpl.
    unfold movedEnd in Hc. now rewrite Hc.
Qed.

(** Alice's 09:00-10:00 booking next to Bob's 10:00-11:00 one: extending
    by 200 minutes breaks the limit, extending by 30 or moving to 10:30
    runs into Bob's booking; the store is the same after each. *)
Lemma failed_move_or_extend_keeps_store_witness :
  let bobs :=
    {| id := 2; bookingId := "R-2"; roomId := 1;
       calendarId := "room-a@example.com"; eventId := "R-2"; title := "review";
       date := "2030-01-07"; startTime := "10:00"; endTime := "11:00";
       durationMinutes := 60; requestedBy := "bob@example.com";
       requestedByName := "Bob"; status := active;
       createdAt := 1700000000000; updatedAt := 1700000000000 |} in
  let db := Samples.storeOf [Samples.row "R-1" "09:00" "10:00" 60 active; bobs] in
  handleExtendCommand defaultPolicy Samples.at1
    {| extend_bookingId := "R-1"; extend_additionalMinutes := 200 |}
    Samples.alice db
  = (failure (MsgMaxDuration 240) MAX_DURATION, db)
  /\ handleExtendCommand defaultPolicy Samples.at1
       {| extend_bookingId := "R-1"; extend_additionalMinutes := 30 |}
       Samples.alice db
     = (failure MsgExtendConflict CONFLICT, db)
  /\ handleMoveCommand Samples.at1
       {| move_bookingId := "R-1"; move_date := "2030-01-07";
          move_startTime := "10:30" |}
       Samples.alice db
     = (failure MsgMoveConflict CONFLICT, db)
  /\ snd (handleMoveCommand Samples.at1
            {| move_bookingId := "R-1"; move_date := "2030-01-07";
               move_startTime := "10:30" |}
            Samples.alice db) = db.
Proof.
  intros bobs db.
  destruct (failed_move_or_extend_keeps_store defaultPolicy Samples.at1
              Samples.alice db) as (Hmove & _ & Hmax & Hext & Hmv).
  split; [|split; [|split]].
  - apply (Hmax _ (Samples.row "R-1" "09:00" "10:00" 60 active) Samples.roomA);
      try reflexivity.
  - apply (Hext _ (Samples.row "R-1" "09:00" "10:00" 60 active) Samples.roomA);
      try reflexivity. discriminate.
  - apply (Hmv _ (Samples.row "R-1" "09:00" "10:00" 60 active) Samples.roomA);
      reflexivity.
  - eapply Hmove; [apply surjective_pairing|reflexivity].
Defined.




(* ================================================================= *)
(** ** move and extend do not read the status *)

Lemma count_filter_map {A : Type} (p : A -> bool) (g : A -> A) (l : list A) :
  (forall x, p (g x) = p x) ->
  List.length (filter p (map g l)) = List.length (filter p l).
Proof.
  intros Hp. induction l as [|x l IH]; simpl; [reflexivity|].
  rewrite Hp. destruct (p x); simpl; now rewrite IH.
Qed.

Section StatusBlind.

Variable bid : string.
Variable st : BookingStatus.
Hypothesis bid_nonempty : bid <> "".

Let restamp (db : Database) : Database := updateWhereId bid (withStatus st) db.

Lemma getBookingById_restamp db :
  getBookingById (restamp db) bid = option_map (withStatus st) (getBookingById db bid).
Proof.
  unfold restamp. rewrite getBookingById_updateWhereId by reflexivity.
  destruct (getBookingById db bid) as [b|] eqn:Hb; [|reflexivity]. simpl.
  apply getBookingById_id in Hb. now rewrite Hb, String.eqb_refl.
Qed.

(** The availability check with [bid] excluded does not see the status of
    the rows carrying [bid]. *)
Lemma checkRoomAvailability_restamp db rid day s e :
  checkRoomAvailability (restamp db) rid day s e (Some bid)
  = checkRoomAvailability db rid day s e (Some bid).
Proof.
  unfold checkRoomAvailability, restamp, updateWhereId; simpl.
  f_equal. apply count_filter_map. intros b.
  destruct (String.eqb (bookingId b) bid) eqn:Hb; [|reflexivity].
  unfold conflictRow, notExcluded; simpl.
  destruct (String.eqb_spec bid ""); [contradiction|].
  rewrite Hb; simpl. now rewrite !andb_false_r.
Qed.

Lemma updateWhereId_commute (g : Booking -> Booking) db :
  (forall b, bookingId (g b) = bookingId b) ->
  (forall b, g (withStatus st b) = withStatus st (g b)) ->
  updateWhereId bid g (restamp db) = restamp (updateWhereId bid g db).
Proof.
  intros Hid Hcomm. unfold restamp, updateWhereId, withBookings; simpl.
  f_equal. rewrite !map_map. apply map_ext. intros b.
  destruct (String.eqb (bookingId b) bid) eqn:Hb; simpl.
  - now rewrite Hid, Hb, Hcomm.
  - now rewrite Hb.
Qed.

Lemma handleMoveCommand_restamp env args payload db :
  move_bookingId args = bid ->
  handleMoveCommand env args payload (restamp db)
  = (fst (handleMoveCommand env args payload db),
     restamp (snd (handleMoveCommand env args payload db))).
Proof.
  intros Hid. unfold handleMoveCommand. rewrite Hid, getBookingById_restamp.
  destruct (getBookingById db bid) as [b|] eqn:Hb; simpl; [|reflexivity].
  destruct (String.eqb (requestedBy b) (writerEmail payload)); simpl;
    [|reflexivity].
  change (getRoomById (restamp db) (roomId b)) with (getRoomById db (roomId b)).
  destruct (getRoomById db (roomId b)) as [room|]; simpl; [|reflexivity].
  rewrite checkRoomAvailability_restamp.
  destruct (checkRoomAvailability db (room_id room) (move_date args)
              (move_startTime args) _ (Some bid)); simpl; [|reflexivity].
  f_equal. unfold updateBookingTime.
  now apply updateWhereId_commute.
Qed.

Lemma handleExtendCommand_restamp policy env args payload db :
  extend_bookingId args = bid ->
  handleExtendCommand policy env args payload (restamp db)
  = (fst (handleExtendCommand policy env args payload db),
     restamp (snd (handleExtendCommand policy env args payload db))).
Proof.
  intros Hid. unfold handleExtendCommand. rewrite Hid, getBookingById_restamp.
  destruct (getBookingById db bid) as [b|] eqn:Hb; simpl; [|reflexivity].
  destruct (String.eqb (requestedBy b) (writerEmail payload)); simpl;
    [|reflexivity].
  change (getRoomById (restamp db) (roomId b)) with (getRoomById db (roomId b)).
  destruct (getRoomById db (roomId b)) as [room|]; simpl; [|reflexivity].
  destruct (durationMinutes b + extend_additionalMinutes args
            >? maxDurationMinutes policy); [reflexivity|].
  rewrite checkRoomAvailability_restamp.
  destruct (checkRoomAvailability db (room_id room) (date b) (endTime b) _
              (Some bid)); simpl; [|reflexivity].
  f_equal. unfold updateBookingEndTime.
  now apply updateWhereId_commute.
Qed.

End StatusBlind.

(** C10.  Move and extend never read the status of the booking they act
    on: replacing the status of the named booking by any other commutes
    with both handlers (same answer, same store up to that replacement;
    the identifier is a non-empty text, as the parser and
    [generateBookingId] only produce).
    So a cancelled or completed booking requested by its owner goes through
    the same availability and duration checks as an active one and, when
    they pass, gets its time fields rewritten (a move writes the new date,
    the new start and the end computed from the stored duration; an extend
    writes the new end and the duration old + additional) while its status
    stays as it was.  Cancel is the handler that rejects a booking that is
    not active. *)
Theorem move_and_extend_ignore_status policy env payload db bid st :
  (forall args, move_bookingId args = bid -> bid <> "" ->
      handleMoveCommand env args payload (updateWhereId bid (withStatus st) db)
      = (fst (handleMoveCommand env args payload db),
         updateWhereId bid (withStatus st)
           (snd (handleMoveCommand env args payload db))))
  /\ (forall args, extend_bookingId args = bid -> bid <> "" ->
      handleExtendCommand policy env args payload
        (updateWhereId bid (withStatus st) db)
      = (fst (handleExtendCommand policy env args payload db),
         updateWhereId bid (withStatus st)
           (snd (handleExtendCommand policy env args payload db))))
  /\ (forall args booking room,
      move_bookingId args = bid ->
      getBookingById db bid = Some booking ->
      requestedBy booking = writerEmail payload ->
      getRoomById db (roomId booking) = Some room ->
      checkRoomAvailability db (room_id room) (move_date args)
        (move_startTime args)
        (movedEnd booking (move_date args) (move_startTime args))
        (Some bid) = true ->
      let after := handleMoveCommand env args payload db in
      let moved := setTime (move_date args) (move_startTime args)
                     (movedEnd booking (move_date args) (move_startTime args))
                     (nowMs env) booking in
      success (fst after) = true
      /\ getBookingById (snd after) bid = Some moved
      /\ (date moved, startTime moved, endTime moved)
         = (move_date args, move_startTime args,
            formatHHmm (addMinutes (dayjsParse (move_date args)
                                               (move_startTime args))
                                   (durationMinutes booking)))
      /\ durationMinutes moved = durationMinutes booking
      /\ status moved = status booking)
  /\ (forall args booking room,
      extend_bookingId args = bid ->
      getBookingById db bid = Some booking ->
      requestedBy booking = writerEmail payload ->
      getRoomById db (roomId booking) = Some room ->
      durationMinutes booking + extend_additionalMinutes args
        <= maxDurationMinutes policy ->
      checkRoomAvailability db (room_id room) (date booking) (endTime booking)
        (extendedEnd booking (extend_additionalMinutes args))
        (Some bid) = true ->
      let after := handleExtendCommand policy env args payload db in
      let extended := setEndTime
                        (extendedEnd booking (extend_additionalMinutes args))
                        (durationMinutes booking + extend_additionalMinutes args)
                        (nowMs env) booking in
      success (fst after) = true
      /\ getBookingById (snd after) bid = Some extended
      /\ (date extended, startTime extended, endTime extended)
         = (date booking, startTime booking,
            formatHHmm (addMinutes (dayjsParse (date booking)
                                               (endTime booking))
                                   (extend_additionalMinutes args)))
      /\ durationMinutes extended
         = durationMinutes booking + extend_additionalMinutes args
      /\ status extended = status booking)
  /\ (forall args booking,
      cancel_bookingId args = bid ->
      getBookingById db bid = Some booking ->
      status booking <> active ->
      handleCancelCommand env args payload db
      = (failure (MsgAlreadyClosed (status booking)) INVALID_STATUS, db)).
Proof.
  split; [|split; [|split; [|split]]].
  - intros args Hid Hbid. now apply handleMoveCommand_restamp.
  - intros args Hid Hbid. now apply handleExtendCommand_restamp.
  - intros args booking room Hid Hb Ho Hr Hc after moved.
    subst after. unfold handleMoveCommand.
    rewrite Hid, Hb, Ho, String.eqb_refl, Hr. simpl.
    unfold movedEnd in Hc. rewrite Hc. simpl.
    split; [reflexivity|]. split; [|repeat split].
    unfold updateBookingTime.
    rewrite getBookingById_updateWhereId by reflexivity.
    rewrite Hb. simpl. apply getBookingById_id in Hb.
    now rewrite Hb, String.eqb_refl.
  - intros args booking room Hid Hb Ho Hr Hm Hc after extended.
    subst after. unfold handleExtendCommand.
    rewrite Hid, Hb, Ho, String.eqb_refl, Hr. simpl.
    destruct (Z.gtb_spec (durationMinutes booking + extend_additionalMinutes args)
                (maxDurationMinutes policy)); [lia|].
    unfold extendedEnd in Hc. rewrite Hc. simpl.
    split; [reflexivity|]. split; [|repeat split].
    unfold updateBookingEndTime.
    rewrite getBookingById_updateWhereId by reflexivity.
    rewrite Hb. simpl. apply getBookingById_id in Hb.
    now rewrite Hb, String.eqb_refl.
  - intros args booking Hid Hb Ha. unfold handleCancelCommand.
    rewrite Hid, Hb.
    destruct (isActive booking) eqn:E; [|reflexivity].
    apply isActive_iff in E. contradiction.
Qed.

(** Alice moves the booking she cancelled earlier to 14:00 of the next
    day, and extends that cancelled booking by 30 minutes: both handlers
    succeed; after the move the row reads 14:00-15:00, after the extend
    09:00-10:30 with a duration of 90, and it is still cancelled. *)
Lemma move_and_extend_ignore_status_witness :
  let db := Samples.storeOf [Samples.row "R-1" "09:00" "10:00" 60 cancelled] in
  let moving := {| move_bookingId := "R-1"; move_date := "2030-01-08";
                   move_startTime := "14:00" |} in
  let extending := {| extend_bookingId := "R-1";
                      extend_additionalMinutes := 30 |} in
  let moved := handleMoveCommand Samples.at1 moving Samples.alice db in
  let extended :=
    handleExtendCommand defaultPolicy Samples.at1 extending Samples.alice db in
  (success (fst moved) = true
   /\ option_map (fun b => (date b, startTime b, endTime b, durationMinutes b,
                            status b))
        (getBookingById (snd moved) "R-1")
      = Some ("2030-01-08", "14:00", "15:00", 60, cancelled))
  /\ (success (fst extended) = true
      /\ option_map (fun b => (date b, startTime b, endTime b,
                               durationMinutes b, status b))
           (getBookingById (snd extended) "R-1")
         = Some ("2030-01-07", "09:00", "10:30", 90, cancelled)).
Proof.
  intros db moving extending moved extended.
  destruct (move_and_extend_ignore_status defaultPolicy Samples.at1
              Samples.alice db "R-1" active) as (_ & _ & Hmove & Hextend & _).
  split.
  - destruct (Hmove moving (Samples.row "R-1" "09:00" "10:00" 60 cancelled)
                Samples.roomA eq_refl eq_refl eq_refl eq_refl eq_refl)
      as (Hok & Hrow & Htimes & Hdur & Hstatus).
    split; [exact Hok|]. subst moved. rewrite Hrow. reflexivity.
  - destruct (Hextend extending (Samples.row "R-1" "09:00" "10:00" 60 cancelled)
                Samples.roomA eq_refl eq_refl eq_refl eq_refl
                ltac:(simpl; lia) eq_refl)
      as (Hok & Hrow & Htimes & Hdur & Hstatus).
    split; [exact Hok|]. subst extended. rewrite Hrow. reflexivity.
Defined.

(* ================================================================= *)
(** ** book, cancel, book again *)

Section Rebook.

Lemma createBooking_inl db now b db' :
  createBooking db now b = inl db' ->
  existsb (fun x => String.eqb (bookingId x) (bookingId b)) (bookings db) = false
  /\ db' = withBookings db (bookings db ++ [insertedRow db now b]).
Proof.
  unfold createBooking.
  destruct (existsb _ (bookings db)); [discriminate|].
  destruct (existsb _ (rooms db)); [|discriminate].
  intros H. injection H as <-. auto.
Qed.

(** An insert that succeeds names an existing room. *)
Lemma createBooking_inl_room db now b db' :
  createBooking db now b = inl db' ->
  existsb (fun r => room_id r =? roomId b) (rooms db) = true.
Proof.
  unfold createBooking.
  destruct (existsb _ (bookings db)); [discriminate|].
  destruct (existsb _ (rooms db)); [reflexivity|discriminate].
Qed.

(** A room that a query returned is a row of the rooms table. *)
Lemma found_room_exists (p : Room -> bool) db room :
  find p (rooms db) = Some room ->
  existsb (fun r => room_id r =? room_id room) (rooms db) = true.
Proof.
  intros H. apply find_some in H as [Hin _].
  apply existsb_exists. exists room. split; [assumption|apply Z.eqb_refl].
Qed.

Lemma map_update_absent bid (f : Booking -> Booking) l :
  existsb (fun x => String.eqb (bookingId x) bid) l = false ->
  map (fun b => if String.eqb (bookingId b) bid then f b else b) l = l.
Proof.
  induction l as [|x l IH]; simpl; [reflexivity|].
  intros H. apply orb_false_iff in H as [Hx Hl].
  now rewrite Hx, IH.
Qed.

Lemma getBookingById_None_existsb db bid :
  getBookingById db bid = None ->
  existsb (fun x => String.eqb (bookingId x) bid) (bookings db) = false.
Proof.
  unfold getBookingById. induction (bookings db) as [|x l IH]; simpl;
    [reflexivity|].
  destruct (String.eqb (bookingId x) bid); [discriminate|]. exact IH.
Qed.

(** Creating a row and then cancelling it leaves the availability of every
    window as it was before the row existed. *)
Lemma checkRoomAvailability_create_cancel db now1 now2 b db1 rid day s e ex :
  createBooking db now1 b = inl db1 ->
  checkRoomAvailability
    (updateBookingStatus db1 now2 (bookingId b) cancelled) rid day s e ex
  = checkRoomAvailability db rid day s e ex.
Proof.
  intros Hc. apply createBooking_inl in Hc as [Hfresh ->].
  unfold checkRoomAvailability, updateBookingStatus, updateWhereId; simpl.
  rewrite map_app, (map_update_absent _ _ _ Hfresh). simpl.
  rewrite String.eqb_refl, filter_app, length_app. simpl.
  unfold conflictRow at 2. simpl.
  rewrite !andb_false_r. simpl. now rewrite Nat.add_0_r.
Qed.

End Rebook.

(** C7 (as amended).  When a book succeeds and the booking it returned is
    then cancelled, a further book of the same room, date, start time and
    duration on the resulting store succeeds, provided its start is still
    not before the clock at that moment and the identifier generated for
    it is not already in the store. *)
Theorem rebook_after_cancel_succeeds
    policy env1 env2 env3 args p1 p2 p3 db r1 db1 bid r2 db2 :
  handleBookCommand policy env1 args p1 db = (r1, db1) ->
  success r1 = true ->
  result_data r1 = Some bid ->
  handleCancelCommand env2 {| cancel_bookingId := bid |} p2 db1 = (r2, db2) ->
  success r2 = true ->
  isBefore (dayjsParse (book_date args) (book_startTime args)) (nowMs env3)
    = false ->
  getBookingById db2 (generateBookingId env3) = None ->
  success (fst (handleBookCommand policy env3 args p3 db2)) = true.
Proof.
  intros Hbook Hs1 Hbid Hcancel Hs2 Hnow Hfresh.
  pose proof (handleBookCommand_outcome policy env1 args p1 db) as Hout1.
  rewrite Hbook in Hout1.
  inversion Hout1; subst; simpl in Hs1; try discriminate.
  simpl in Hbid. injection Hbid as <-.
  pose proof (handleCancelCommand_outcome env2
                {| cancel_bookingId := generateBookingId env1 |} p2 db1) as Hout2.
  rewrite Hcancel in Hout2.
  inversion Hout2; subst; simpl in Hs2; try discriminate.
  match goal with H : createBooking db _ _ = inl db1 |- _ =>
    pose proof (checkRoomAvailability_create_cancel db _ (nowMs env2) _ db1
                  (room_id room) (book_date args) (book_startTime args)
                  (bookedEnd args) None H) as Hfree;
    apply createBooking_inl in H as [_ Hdb1] end.
  cbn [bookingId bookedRow] in Hfree.
  remember (updateBookingStatus db1 (nowMs env2) (generateBookingId env1)
              cancelled) as db2 eqn:Hdb2.
  assert (Hrooms : rooms db2 = rooms db) by (subst db2 db1; reflexivity).
  apply getBookingById_None_existsb in Hfresh.
  unfold handleBookCommand, getRoomByName. rewrite Hrooms.
  match goal with H : getRoomByName db _ = Some room |- _ =>
    unfold getRoomByName in H; rewrite H end.
  rewrite Hnow.
  match goal with H : outsideHours policy args = false |- _ =>
    unfold outsideHours in H; rewrite H end.
  match goal with H : checkRoomAvailability db _ _ _ _ None = true |- _ =>
    rewrite H in Hfree end.
  unfold bookedEnd in Hfree. rewrite Hfree.
  unfold createBooking. cbn [bookingId roomId negb]. rewrite Hfresh, Hrooms.
  match goal with H : find _ (rooms db) = Some room |- _ =>
    rewrite (found_room_exists _ db room H) end.
  reflexivity.
Qed.

(** Alice books 09:00-10:00, cancels, and Bob books the same window a
    millisecond later. *)
Lemma rebook_after_cancel_succeeds_witness :
  let args := {| book_roomName := "A"; book_date := "2030-01-07";
                 book_startTime := "09:00"; book_duration := 60;
                 book_title := "sync" |} in
  let first := handleBookCommand defaultPolicy Samples.at0 args Samples.alice
                 Samples.emptyStore in
  let cancel := handleCancelCommand Samples.at1
                  {| cancel_bookingId := "R-LOYW3V28" |} Samples.alice
                  (snd first) in
  success (fst (handleBookCommand defaultPolicy Samples.at2 args Samples.bob
                  (snd cancel))) = true.
Proof.
  intros args first cancel.
  apply (rebook_after_cancel_succeeds defaultPolicy Samples.at0 Samples.at1
           Samples.at2 args Samples.alice Samples.alice Samples.bob
           Samples.emptyStore (fst first) (snd first) "R-LOYW3V28"
           (fst cancel) (snd cancel)); reflexivity.
Defined.

(** C7 (counterexample).  Alice books 09:00-10:00 on 2030-01-07 and
    cancels.  (i) The same request issued after that start has passed
    (the clock reads 2030-01-07 09:00:00.001) is refused as PAST_TIME.
    (ii) The same request issued within the millisecond of the first one
    generates the identifier of the cancelled row, which is still in the
    table, and is refused as BOOKING_ERROR.  (iii) The same request issued
    after Bob has booked 09:30-10:30 in the meantime is refused as
    CONFLICT. *)
Lemma rebook_after_cancel_counterexample :
  let args := {| book_roomName := "A"; book_date := "2030-01-07";
                 book_startTime := "09:00"; book_duration := 60;
                 book_title := "sync" |} in
  let first := handleBookCommand defaultPolicy Samples.at0 args Samples.alice
                 Samples.emptyStore in
  let cancel := handleCancelCommand Samples.at0
                  {| cancel_bookingId := "R-LOYW3V28" |} Samples.alice
                  (snd first) in
  let late := {| nowMs := 1894006800001; randomDigits := "t7w" |} in
  success (fst first) = true
  /\ result_data (fst first) = Some "R-LOYW3V28"
  /\ success (fst cancel) = true
  /\ fst (handleBookCommand defaultPolicy late args Samples.alice (snd cancel))
     = failure MsgPastTime PAST_TIME
  /\ fst (handleBookCommand defaultPolicy Samples.at0 args Samples.alice
            (snd cancel))
     = failure (MsgBookingFailed "UNIQUE constraint failed: bookings.booking_id")
         BOOKING_ERROR
  /\ (let between :=
        handleBookCommand defaultPolicy Samples.at1
          {| book_roomName := "A"; book_date := "2030-01-07";
             book_startTime := "09:30"; book_duration := 60;
             book_title := "review" |} Samples.bob (snd cancel) in
      success (fst between) = true
      /\ fst (handleBookCommand defaultPolicy Samples.at2 args Samples.alice
                (snd between))
         = failure (MsgBookConflict "Room A" "2030-01-07" "09:00" "10:00")
             CONFLICT).
Proof. repeat split. Qed.

(* ================================================================= *)
(** ** Where the handlers let a bad row in *)

(** C1 (failing run).  From a store without bookings, Alice books room A
    on 2030-01-07 at "09:00" for 60 minutes and Bob books the same room
    and day at "9:30" for 60 minutes.  Both requests succeed: the start
    text "9:30" is stored as typed and compares above "10:00" in the
    store, so the conflict check does not see the first booking.  The two
    active rows cover 09:00-10:00 and 09:30-10:30. *)
Theorem unpadded_start_breaks_disjointness :
  let first := {| book_roomName := "A"; book_date := "2030-01-07";
                  book_startTime := "09:00"; book_duration := 60;
                  book_title := "sync" |} in
  let second := {| book_roomName := "A"; book_date := "2030-01-07";
                   book_startTime := "9:30"; book_duration := 60;
                   book_title := "review" |} in
  let db1 := run defaultPolicy Samples.emptyStore
               [Book Samples.at0 first Samples.alice] in
  let db2 := run defaultPolicy Samples.emptyStore
               [Book Samples.at0 first Samples.alice;
                Book Samples.at1 second Samples.bob] in
  timeRegex_test "9:30" = true
  /\ ActiveDisjoint Samples.emptyStore
  /\ success (fst (handleBookCommand defaultPolicy Samples.at1 second
                     Samples.bob db1)) = true
  /\ map (fun b => (roomId b, date b, startTime b, endTime b, status b))
         (bookings db2)
     = [(1, "2030-01-07", "09:00", "10:00", active);
        (1, "2030-01-07", "9:30", "10:30", active)]
  /\ ~ ActiveDisjoint db2.
Proof.
  intros first second db1 db2. repeat split.
  - intros [|i] [|j] a b _ Ha; simpl in Ha; discriminate.
  - intros Hinv.
    specialize (Hinv 0%nat 1%nat _ _ (O_S 0) eq_refl eq_refl
                  eq_refl eq_refl eq_refl eq_refl).
    vm_compute in Hinv. discriminate.
Qed.

(** C3 (failing input).  Under the default policy a book of room A on
    2030-01-07 at 23:30 for 60 minutes succeeds: the start hour 23 is not
    below the opening hour and the end hour 0 is not above the closing
    hour.  The stored row keeps date 2030-01-07 with start "23:30" and end
    "00:30": its end is before its start and belongs to the next day. *)
Theorem book_across_midnight_is_stored :
  let args := {| book_roomName := "A"; book_date := "2030-01-07";
                 book_startTime := "23:30"; book_duration := 60;
                 book_title := "late" |} in
  let after := handleBookCommand defaultPolicy Samples.at0 args Samples.alice
                 Samples.emptyStore in
  timeRegex_test (book_startTime args) = true
  /\ minDurationMinutes defaultPolicy <= book_duration args
     <= maxDurationMinutes defaultPolicy
  /\ success (fst after) = true
  /\ map (fun b => (date b, startTime b, endTime b, durationMinutes b))
         (bookings (snd after))
     = [("2030-01-07", "23:30", "00:30", 60)]
  /\ textLt "00:30" "23:30" = true
  /\ timeToMinutes "00:30" = Some 30
  /\ timeToMinutes "23:30" = Some 1410
  /\ addMinutes (dayjsParse "2030-01-07" "23:30") 60
     = dayjsParse "2030-01-08" "00:30".
Proof. repeat split; try reflexivity; discriminate. Qed.

(** The past-time rule of book: once the room is found, a start before
    the clock is refused and the store is returned as it was. *)
Lemma book_in_the_past_is_refused policy env args payload db room :
  getRoomByName db (book_roomName args) = Some room ->
  isBefore (dayjsParse (book_date args) (book_startTime args)) (nowMs env)
    = true ->
  handleBookCommand policy env args payload db
  = (failure MsgPastTime PAST_TIME, db).
Proof.
  intros Hr Hp. unfold handleBookCommand. now rewrite Hr, Hp.
Qed.

(** C4 (failing input).  Alice owns the active booking R-1 on 2030-01-07,
    09:00-10:00.  Asked at a clock of 2023-11-14 to move it to 2020-01-01
    09:00, a start before that clock, [handleMoveCommand] succeeds and
    rewrites the row; it has no past-time check.  The same start proposed
    through book is refused as PAST_TIME. *)
Theorem move_into_the_past_is_accepted :
  let db := Samples.storeOf [Samples.row "R-1" "09:00" "10:00" 60 active] in
  let args := {| move_bookingId := "R-1"; move_date := "2020-01-01";
                 move_startTime := "09:00" |} in
  let after := handleMoveCommand Samples.at1 args Samples.alice db in
  isBefore (dayjsParse (move_date args) (move_startTime args))
           (nowMs Samples.at1) = true
  /\ success (fst after) = true
  /\ map (fun b => (bookingId b, date b, startTime b, endTime b, status b))
         (bookings (snd after))
     = [("R-1", "2020-01-01", "09:00", "10:00", active)]
  /\ handleBookCommand defaultPolicy Samples.at1
       {| book_roomName := "A"; book_date := "2020-01-01";
          book_startTime := "09:00"; book_duration := 60;
          book_title := "sync" |} Samples.alice db
     = (failure MsgPastTime PAST_TIME, db).
Proof. repeat split. Qed.

(* ================================================================= *)
(** ** The audit trail of handleCommand *)

(** The handlers do not write to the audit table. *)
Lemma dispatch_keeps_audit policy clock command payload db result db1 :
  dispatch policy clock command payload db = inl (result, db1) ->
  audit_logs db1 = audit_logs db.
Proof.
  intros Hd.
  apply (f_equal (fun x => match x with
                           | inl p => audit_logs (snd p)
                           | inr _ => audit_logs db
                           end)) in Hd.
  simpl in Hd. rewrite <- Hd. clear Hd. unfold dispatch.
  destruct (intent command) as [|a|a|a|a|a|a|a], (storeFault clock);
    try reflexivity.
  - unfold handleStatusCommand.
    repeat match goal with
    | |- context [match ?x with _ => _ end] => destruct x
    end; reflexivity.
  - pose proof (handleBookCommand_outcome policy (handlerEnv clock) a payload db) as H.
    inversion H; try reflexivity.
    match goal with H : createBooking _ _ _ = inl _ |- _ =>
      apply createBooking_inl in H as [_ ->] end. reflexivity.
  - pose proof (handleCancelCommand_outcome (handlerEnv clock) a payload db) as H.
    inversion H; reflexivity.
  - pose proof (handleMoveCommand_outcome (handlerEnv clock) a payload db) as H.
    inversion H; reflexivity.
  - pose proof (handleExtendCommand_outcome policy (handlerEnv clock) a payload db) as H.
    inversion H; reflexivity.
  - unfold handleMyCommand. now destruct (getBookingsByUser _ _ _ _).
  - unfold handleListCommand. destruct a.
    + now destruct (getAllRooms db).
    + destruct (truthy day); [|reflexivity].
      now destruct (getBookingsByDate db day None).
Qed.

Lemma handleStatusCommand_ok policy env args db :
  exists m, fst (handleStatusCommand policy env args db) = ok m None.
Proof.
  unfold handleStatusCommand.
  repeat match goal with
  | |- context [match ?x with _ => _ end] => destruct x
  end; eexists; reflexivity.
Qed.

(** A result that comes back from a handler carries no error detail:
    only the [catch] of [handleCommand] sets one. *)
Lemma dispatch_no_details policy clock command payload db result db1 :
  dispatch policy clock command payload db = inl (result, db1) ->
  match error result with
  | Some e => details e
  | None => None
  end = None.
Proof.
  intros Hd.
  apply (f_equal (fun x => match x with
                           | inl p =>
                               match error (fst p) with
                               | Some e => details e
                               | None => None
                               end
                           | inr _ => None
                           end)) in Hd.
  simpl in Hd. rewrite <- Hd. clear Hd. unfold dispatch.
  destruct (intent command) as [|a|a|a|a|a|a|a], (storeFault clock);
    try reflexivity.
  - destruct (handleStatusCommand_ok policy (handlerEnv clock) a db) as [m ->].
    reflexivity.
  - pose proof (handleBookCommand_outcome policy (handlerEnv clock) a payload db) as H.
    inversion H; reflexivity.
  - pose proof (handleCancelCommand_outcome (handlerEnv clock) a payload db) as H.
    inversion H; reflexivity.
  - pose proof (handleMoveCommand_outcome (handlerEnv clock) a payload db) as H.
    inversion H; reflexivity.
  - pose proof (handleExtendCommand_outcome policy (handlerEnv clock) a payload db) as H.
    inversion H; reflexivity.
  - unfold handleMyCommand. now destruct (getBookingsByUser _ _ _ _).
  - unfold handleListCommand. destruct a.
    + now destruct (getAllRooms db).
    + destruct (truthy day); [|reflexivity].
      now destruct (getBookingsByDate db day None).
Qed.

(** The entry time of the request reaches the process log only. *)
Lemma handleCommand_startedAt policy clock payload db t0 :
  audit_logs (store (handleCommand policy (startedAt t0 clock) payload db))
  = audit_logs (store (handleCommand policy clock payload db)).
Proof.
  unfold handleCommand, logCommand.
  change (handlerEnv (startedAt t0 clock)) with (handlerEnv clock).
  change (auditFault (startedAt t0 clock)) with (auditFault clock).
  destruct (parseCommand policy (nowMs (handlerEnv clock)) (data payload))
    as [command|parseError]; [|now destruct (auditFault clock)].
  change (dispatch policy (startedAt t0 clock) command payload db)
    with (dispatch policy clock command payload db).
  destruct (dispatch policy clock command payload db) as [[result db1]|thrown];
    now destruct (auditFault clock).
Qed.

(** The row [logCommand] writes, field by field, when the insert goes
    through; and what is left when the insert throws. *)
Lemma handleCommand_audit_row policy clock payload db :
  let out := handleCommand policy clock payload db in
  let parsed := parseCommand policy (nowMs (handlerEnv clock)) (data payload) in
  match auditFault clock with
  | None =>
      exists entry answer,
        response out = inl answer
        /\ audit_logs (store out) = audit_logs db ++ [entry]
        /\ log_userEmail entry = writerEmail payload
        /\ log_userName entry = writerName payload
        /\ log_command entry = text payload
        /\ log_commandType entry
           = match parsed with
             | ParseOk command => intentType (intent command)
             | ParseFail _ => CmdHelp
             end
        /\ log_parameters entry = payload
        /\ log_response entry = body answer
        /\ (log_status entry = audit_success
            <-> connectColor answer = "#2ECC71")
        /\ log_errorMessage entry
           = match parsed with
             | ParseOk command =>
                 match dispatch policy clock command payload db with
                 | inl _ => None
                 | inr thrown => Some thrown
                 end
             | ParseFail _ => None
             end
        /\ log_ipAddress entry = ip payload
        /\ log_roomName entry = roomName payload
        /\ In (LogCompleted (writerEmail payload) (log_commandType entry)
                 (match log_status entry with
                  | audit_success => true
                  | audit_failure => false
                  end)
                 (finishedMs clock - startedMs clock))
              (processLog out)
  | Some thrown =>
      response out = inr thrown
      /\ audit_logs (store out) = audit_logs db
      /\ forall user type succeeded ms,
           ~ In (LogCompleted user type succeeded ms) (processLog out)
  end.
Proof.
  intros out parsed. subst out parsed. unfold handleCommand, logCommand.
  destruct (auditFault clock) as [failed|].
  - destruct (parseCommand policy (nowMs (handlerEnv clock)) (data payload))
      as [command|parseError].
    + destruct (dispatch policy clock command payload db)
        as [[result db1]|thrown] eqn:Hd; cbn.
      * apply dispatch_keeps_audit in Hd.
        split; [reflexivity|]. split; [assumption|].
        intros user type succeeded ms [H|[]]. discriminate.
      * split; [reflexivity|]. split; [reflexivity|].
        intros user type succeeded ms [H|[H|[]]]; discriminate.
    + cbn. split; [reflexivity|]. split; [reflexivity|].
      intros user type succeeded ms [H|[]]. discriminate.
  - destruct (parseCommand policy (nowMs (handlerEnv clock)) (data payload))
      as [command|parseError].
    + destruct (dispatch policy clock command payload db)
        as [[result db1]|thrown] eqn:Hd.
      * pose proof (dispatch_no_details _ _ _ _ _ _ _ Hd) as Hnone.
        apply dispatch_keeps_audit in Hd.
        eexists. eexists. cbn. rewrite Hd, Hnone.
        repeat split; try reflexivity;
          cbn; destruct (success result); cbn;
          try reflexivity; try discriminate; auto.
      * eexists. eexists. cbn. repeat split; try reflexivity; try discriminate.
        right. right. left. reflexivity.
    + eexists. eexists. cbn. repeat split; try reflexivity; try discriminate.
      right. left. reflexivity.
Qed.

(** C9 (as amended).  Every call of [handleCommand] in which the insert of
    the audit row goes through, whatever the text, the requester and the
    outcome (parse failure, success, business failure, or an exception
    caught at the request boundary), resolves to a response and appends
    exactly one row to the audit table.  That row records the requester
    (email and name), the command text, the command type (help for a text
    that does not parse), the payload, success or failure, the response
    that is returned, the error detail (the message of the caught
    exception, and nothing for every other outcome), the source address
    and the topic.  The elapsed processing time is not part of the row: it
    goes to the completion line of the process log, and the row is the same
    whatever the entry time of the request was.  When the insert throws,
    nothing catches it: the call rejects with that exception, no audit row
    and no completion line is written. *)
Theorem handleCommand_appends_one_audit_row policy clock payload db :
  let out := handleCommand policy clock payload db in
  let parsed := parseCommand policy (nowMs (handlerEnv clock)) (data payload) in
  match auditFault clock with
  | None =>
      exists entry answer,
        response out = inl answer
        /\ audit_logs (store out) = audit_logs db ++ [entry]
        /\ log_userEmail entry = writerEmail payload
        /\ log_userName entry = writerName payload
        /\ log_command entry = text payload
        /\ log_commandType entry
           = match parsed with
             | ParseOk command => intentType (intent command)
             | ParseFail _ => CmdHelp
             end
        /\ log_parameters entry = payload
        /\ log_response entry = body answer
        /\ (log_status entry = audit_success
            <-> connectColor answer = "#2ECC71")
        /\ log_errorMessage entry
           = match parsed with
             | ParseOk command =>
                 match dispatch policy clock command payload db with
                 | inl _ => None
                 | inr thrown => Some thrown
                 end
             | ParseFail _ => None
             end
        /\ log_ipAddress entry = ip payload
        /\ log_roomName entry = roomName payload
        /\ In (LogCompleted (writerEmail payload) (log_commandType entry)
                 (match log_status entry with
                  | audit_success => true
                  | audit_failure => false
                  end)
                 (finishedMs clock - startedMs clock))
              (processLog out)
        /\ forall t0,
             audit_logs
               (store (handleCommand policy (startedAt t0 clock) payload db))
             = audit_logs (store out)
  | Some thrown =>
      response out = inr thrown
      /\ audit_logs (store out) = audit_logs db
      /\ forall user type succeeded ms,
           ~ In (LogCompleted user type succeeded ms) (processLog out)
  end.
Proof.
  intros out parsed.
  pose proof (handleCommand_audit_row policy clock payload db) as H.
  cbv zeta in H. fold out parsed in H.
  destruct (auditFault clock) as [thrown|]; [exact H|].
  destruct H as (entry & answer & H1 & H2 & H3 & H4 & H5 & H6 & H7 & H8 & H9
                 & H10 & H11 & H12 & H13).
  exists entry, answer.
  do 13 (split; [assumption|]).
  intros t0. apply handleCommand_startedAt.
Qed.

(** C9 (counterexample).  No reading of the audit row gives back the
    elapsed processing time: the same status request entered 7 ms and
    1007 ms before it is logged leaves the same row. *)
Lemma audit_row_omits_elapsed_time_counterexample :
  ~ exists elapsedOf : AuditLog -> Z,
      forall clock payload db entry,
        writtenEntry (handleCommand defaultPolicy clock payload db) = Some entry ->
        elapsedOf entry = finishedMs clock - startedMs clock.
Proof.
  intros [elapsedOf H].
  pose proof (H (Samples.clockFrom 1700000000000) (Samples.saying "status")
                Samples.emptyStore _ eq_refl) as Hfast.
  pose proof (H (Samples.clockFrom 1699999999000) (Samples.saying "status")
                Samples.emptyStore _ eq_refl) as Hslow.
  vm_compute in Hfast, Hslow. congruence.
Qed.

(** When the insert of the audit row throws, a book request that was
    accepted leaves its row in the store, no audit row is written, the call
    rejects, and the route answers 500. *)
Example audit_fault_rejects_the_call :
  let clock := Samples.clockFailing 1700000000000 "disk I/O error" in
  let payload := Samples.saying "book A 2030-01-07 09:00 60 sync" in
  let out := handleCommand defaultPolicy clock payload Samples.emptyStore in
  response out = inr "disk I/O error"
  /\ map (fun b => (startTime b, endTime b, status b)) (bookings (store out))
     = [("09:00", "10:00", active)]
  /\ audit_logs (store out) = []
  /\ replyStatus
       (fst (postCommand "tok" defaultPolicy clock
               {| req_body := payload; req_forwardedFor := None;
                  req_ip := None |}
               Samples.emptyStore)) = 500.
Proof. vm_compute. repeat split. Qed.

(* ================================================================= *)
(** ** The invariant under requests that stay within the day *)

Import ClockText.

Section Invariant.

Lemma minutesOverlap_clock a b s e s' e' :
  0 <= s < 1440 -> 0 <= e < 1440 -> 0 <= s' < 1440 -> 0 <= e' < 1440 ->
  startTime a = clock s -> endTime a = clock e ->
  startTime b = clock s' -> endTime b = clock e' ->
  minutesOverlap a b = (s <? e') && (s' <? e).
Proof.
  intros Hs He Hs' He' E1 E2 E3 E4. unfold minutesOverlap.
  now rewrite E1, E2, E3, E4, !timeToMinutes_clock.
Qed.

Lemma minutesOverlap_sym a b : minutesOverlap a b = minutesOverlap b a.
Proof.
  unfold minutesOverlap.
  destruct (timeToMinutes (startTime a)), (timeToMinutes (endTime a)),
    (timeToMinutes (startTime b)), (timeToMinutes (endTime b)); try reflexivity.
  apply andb_comm.
Qed.

(** What a passed availability check says in minutes: no competing row
    that lies within its day overlaps the window. *)
Lemma free_window db rid day s e ex b :
  0 <= s -> s < e -> e < 1440 ->
  ex <> Some "" ->
  checkRoomAvailability db rid day (clock s) (clock e) ex = true ->
  In b (bookings db) -> competitor rid day ex b -> WithinDay b ->
  forall s' e', startTime b = clock s' -> endTime b = clock e' ->
                0 <= s' -> s' < e' -> e' < 1440 ->
                (s' <? e) && (s <? e') = false.
Proof.
  intros Hs Hse He Hex Hfree Hin Hcomp _ s' e' Es Ee Hs' Hse' He'.
  rewrite checkRoomAvailability_true_iff in Hfree.
  specialize (Hfree b Hin).
  destruct (overlapClause b (clock s) (clock e)) eqn:Ho.
  - assert (conflictRow rid day (clock s) (clock e) ex b = true)
      by (apply conflictRow_true_iff; auto).
    congruence.
  - rewrite overlapClause_strictOverlap in Ho.
    + unfold strictOverlap, textLt, textGt in Ho.
      rewrite Es, Ee, !ltb_clock in Ho by lia. exact Ho.
    + rewrite leb_clock by lia. lia.
    + rewrite Es, Ee, ltb_clock by lia. lia.
Qed.

Lemma nth_error_map_update {A} (g : A -> A) (l : list A) i a' :
  nth_error (map g l) i = Some a' ->
  exists a, nth_error l i = Some a /\ a' = g a.
Proof.
  rewrite nth_error_map. destruct (nth_error l i) as [a|]; [|discriminate].
  intros H. injection H as <-. eauto.
Qed.

Lemma NoDup_ids_same_index (l : list Booking) i j a b :
  NoDup (map bookingId l) ->
  nth_error l i = Some a -> nth_error l j = Some b ->
  bookingId a = bookingId b -> i = j.
Proof.
  intros Hnd Ha Hb Hid.
  apply (proj1 (NoDup_nth_error (map bookingId l)) Hnd).
  - rewrite length_map. apply nth_error_Some. congruence.
  - rewrite !nth_error_map, Ha, Hb. simpl. congruence.
Qed.

Lemma getBookingById_In db bid b :
  getBookingById db bid = Some b -> In b (bookings db).
Proof. unfold getBookingById. intros H. now apply find_some in H. Qed.

Lemma getBookingById_unique db bid b i a :
  NoDup (map bookingId (bookings db)) ->
  getBookingById db bid = Some b ->
  nth_error (bookings db) i = Some a -> bookingId a = bid -> a = b.
Proof.
  intros Hnd Hb Ha Hid.
  pose proof (getBookingById_id _ _ _ Hb) as Hbid.
  apply getBookingById_In in Hb. apply In_nth_error in Hb as [j Hj].
  assert (i = j) by (eapply NoDup_ids_same_index; eauto; congruence).
  subst j. congruence.
Qed.

Lemma getRoomById_id db rid room :
  getRoomById db rid = Some room -> room_id room = rid.
Proof.
  unfold getRoomById. intros H. apply find_some in H. now apply Z.eqb_eq.
Qed.


Lemma formatHHmm_shift d x :
  0 <= x < 1440 -> formatHHmm (Some (d * 1440 + x)) = clock x.
Proof.
  intros Hx. unfold clock, formatHHmm.
  replace ((d * 1440 + x) mod 1440) with x
    by (apply Z.mod_unique with (q := d); lia).
  now rewrite (Z.mod_small x 1440) by lia.
Qed.

(** The end text of a window that starts at a padded text of a valid day
    and ends before midnight. *)
Lemma window_end day start m len :
  dateToDays day <> None -> start = clock m -> 0 <= m < 1440 ->
  0 <= m + len < 1440 ->
  formatHHmm (addMinutes (dayjsParse day start) len) = clock (m + len).
Proof.
  intros Hday -> Hm Hlen. unfold dayjsParse.
  destruct (dateToDays day) as [d|]; [|congruence].
  rewrite timeToMinutes_clock by assumption. simpl.
  rewrite <- Z.add_assoc. now apply formatHHmm_shift.
Qed.

Lemma generateBookingId_named env : generateBookingId env <> "".
Proof. unfold generateBookingId. simpl. discriminate. Qed.

(** Rewriting the rows of one identifier keeps the store sound when the
    rewritten row, if active, lies within its day and clears every other
    active row of its room and day. *)
Lemma updateWhereId_sound db bid g :
  Sound db ->
  (forall b, bookingId (g b) = bookingId b) ->
  (forall b, In b (bookings db) -> bookingId b = bid ->
             status (g b) = active ->
             WithinDay (g b)
             /\ forall o, In o (bookings db) -> bookingId o <> bid ->
                          status o = active ->
                          roomId o = roomId (g b) -> date o = date (g b) ->
                          minutesOverlap (g b) o = false) ->
  Sound (updateWhereId bid g db).
Proof.
  intros [Hids Hnamed Hrows Hdisj] Hg Hnew.
  set (g' := fun b => if String.eqb (bookingId b) bid then g b else b).
  assert (Hg' : forall b, bookingId (g' b) = bookingId b).
  { intros b. unfold g'. destruct (String.eqb (bookingId b) bid); auto. }
  assert (Hmap : map bookingId (map g' (bookings db)) = map bookingId (bookings db)).
  { rewrite map_map. apply map_ext. exact Hg'. }
  constructor; unfold updateWhereId; simpl; fold g'.
  - now rewrite Hmap.
  - intros b' Hb'. apply in_map_iff in Hb' as (b & <- & Hb).
    rewrite Hg'. auto.
  - intros b' Hb' Hact. apply in_map_iff in Hb' as (b & <- & Hb).
    unfold g' in *. destruct (String.eqb_spec (bookingId b) bid).
    + now apply Hnew.
    + now apply Hrows.
  - intros i j a' b' Hij Ha' Hb' Hsa Hsb Hroom Hdate.
    apply nth_error_map_update in Ha' as (a & Ha & ->).
    apply nth_error_map_update in Hb' as (b & Hb & ->).
    pose proof (nth_error_In _ _ Ha) as Hina.
    pose proof (nth_error_In _ _ Hb) as Hinb.
    unfold g' in *.
    destruct (String.eqb_spec (bookingId a) bid) as [Ea|Ea],
             (String.eqb_spec (bookingId b) bid) as [Eb|Eb].
    + exfalso. apply Hij. eapply NoDup_ids_same_index; eauto. congruence.
    + destruct (Hnew a Hina Ea Hsa) as [_ Hclear]. now apply Hclear.
    + destruct (Hnew b Hinb Eb Hsb) as [_ Hclear].
      rewrite minutesOverlap_sym. apply Hclear; auto.
    + eapply Hdisj; eauto.
Qed.

Lemma cancel_sound db env args payload :
  Sound db -> Sound (snd (handleCancelCommand env args payload db)).
Proof.
  intros Hs.
  pose proof (handleCancelCommand_outcome env args payload db) as Hout.
  inversion Hout; simpl; try assumption.
  apply updateWhereId_sound; [assumption|reflexivity|].
  intros b _ _ Hact. discriminate.
Qed.

Lemma move_sound db env args payload :
  Sound db -> staysWithinDay db (Move env args payload) ->
  Sound (snd (handleMoveCommand env args payload db)).
Proof.
  intros Hs (Hday & Hpad & Hlen).
  pose proof (handleMoveCommand_outcome env args payload db) as Hout.
  inversion Hout as [| | | |booking room Hfound Hown Hroom Hfree Heq];
    simpl; try assumption.
  destruct (padded_clock _ Hpad) as (m & Hm & Estart).
  destruct (Hlen booking m Hfound) as [Hpos Hfit].
  { rewrite Estart. now apply timeToMinutes_clock. }
  assert (Eend : movedEnd booking (move_date args) (move_startTime args)
                 = clock (m + durationMinutes booking)).
  { unfold movedEnd. apply window_end; auto; lia. }
  rewrite Eend in *. rewrite Estart in *.
  apply updateWhereId_sound; [assumption|reflexivity|].
  intros b Hin Hid Hact. simpl in Hact. split.
  - split; [exact Hday|]. exists m, (m + durationMinutes booking).
    simpl. repeat split; try lia.
  - intros o Hino Hoid Hoact Horoom Hodate. simpl in Horoom, Hodate.
    destruct (In_nth_error _ _ Hin) as [i Hi].
    assert (b = booking) by (eapply getBookingById_unique; eauto using sound_ids).
    subst b.
    destruct (sound_rows db Hs o Hino Hoact) as [Hoday (s' & e' & ? & ? & ? & Es' & Ee')].
    rewrite (minutesOverlap_clock _ o m (m + durationMinutes booking) s' e');
      try lia; try assumption; try reflexivity.
    rewrite andb_comm.
    apply (free_window db (room_id room) (move_date args) m
             (m + durationMinutes booking) (Some (move_bookingId args)) o);
      try lia; try assumption.
    + intros E. injection E as E. apply (sound_named db Hs booking).
      * eapply getBookingById_In; eauto.
      * rewrite (getBookingById_id _ _ _ Hfound). assumption.
    + repeat split; try assumption.
      rewrite (getRoomById_id _ _ _ Hroom). assumption.
    + split; [assumption|]. exists s', e'. auto.
Qed.


Lemma extend_sound policy db env args payload :
  Sound db -> staysWithinDay db (Extend env args payload) ->
  Sound (snd (handleExtendCommand policy env args payload db)).
Proof.
  intros Hs (Hpos & Hlen).
  pose proof (handleExtendCommand_outcome policy env args payload db) as Hout.
  inversion Hout as [| | | | |booking room Hfound Hown Hroom Hmax Hfree Heq];
    simpl; try assumption.
  apply updateWhereId_sound; [assumption|reflexivity|].
  intros b Hin Hid Hact. simpl in Hact.
  destruct (In_nth_error _ _ Hin) as [i Hi].
  assert (b = booking) by (eapply getBookingById_unique; eauto using sound_ids).
  subst b.
  destruct (sound_rows db Hs booking Hin Hact)
    as [Hday (s & e & Hs0 & Hse & He & Es & Ee)].
  assert (Hfit : e + extend_additionalMinutes args < 1440).
  { apply (Hlen booking e Hfound). rewrite Ee. apply timeToMinutes_clock. lia. }
  assert (Eend : extendedEnd booking (extend_additionalMinutes args)
                 = clock (e + extend_additionalMinutes args)).
  { unfold extendedEnd. apply window_end; auto; lia. }
  rewrite Eend in *. split.
  - split; [exact Hday|]. exists s, (e + extend_additionalMinutes args).
    simpl. repeat split; try lia; assumption.
  - intros o Hino Hoid Hoact Horoom Hodate. simpl in Horoom, Hodate.
    destruct (sound_rows db Hs o Hino Hoact)
      as [Hoday (s' & e' & ? & ? & ? & Es' & Ee')].
    destruct (In_nth_error _ _ Hino) as [j Hj].
    assert (Hij : i <> j) by (intros ->; congruence).
    pose proof (sound_disjoint db Hs i j booking o Hij Hi Hj Hact Hoact
                  (eq_sym Horoom) (eq_sym Hodate)) as Hold.
    rewrite (minutesOverlap_clock booking o s e s' e') in Hold
      by (try lia; assumption).
    rewrite (minutesOverlap_clock _ o s (e + extend_additionalMinutes args) s' e');
      try lia; try assumption; try reflexivity.
    assert (Hdelta : (s' <? e + extend_additionalMinutes args) && (e <? e') = false).
    { rewrite Ee in Hfree.
      apply (free_window db (room_id room) (date booking) e
               (e + extend_additionalMinutes args)
               (Some (extend_bookingId args)) o); try lia; try assumption.
      - intros E. injection E as E. apply (sound_named db Hs booking Hin).
        rewrite (getBookingById_id _ _ _ Hfound). assumption.
      - repeat split; try assumption.
        rewrite (getRoomById_id _ _ _ Hroom). assumption.
      - split; [assumption|]. exists s', e'. auto. }
    lia.
Qed.

Lemma existsb_id_false l k :
  existsb (fun x => String.eqb (bookingId x) k) l = false ->
  ~ In k (map bookingId l).
Proof.
  induction l as [|x l IH]; simpl; [tauto|].
  intros H. apply orb_false_iff in H as [Hx Hl].
  apply String.eqb_neq in Hx. intros [E|Hin]; [congruence|]. now apply IH.
Qed.

Lemma nth_error_snoc {A} (l : list A) (r : A) i a :
  nth_error (l ++ [r]) i = Some a ->
  nth_error l i = Some a \/ (i = List.length l /\ a = r).
Proof.
  intros H. destruct (Nat.lt_ge_cases i (List.length l)) as [Hlt|Hge].
  - left. now rewrite nth_error_app1 in H.
  - right. rewrite nth_error_app2 in H by assumption.
    destruct (i - List.length l)%nat as [|k] eqn:Ek; simpl in H.
    + split; [lia|congruence].
    + destruct k; discriminate.
Qed.

Lemma book_sound policy db env args payload :
  Sound db -> staysWithinDay db (Book env args payload) ->
  Sound (snd (handleBookCommand policy env args payload db)).
Proof.
  intros Hs (Hday & Hpad & Hpos & Hlen).
  pose proof (handleBookCommand_outcome policy env args payload db) as Hout.
  inversion Hout as [| | | | |room db' Hroom Hnow Hhours Hfree Hins Heq];
    simpl; try assumption.
  apply createBooking_inl in Hins as [Hfresh ->].
  destruct (padded_clock _ Hpad) as (m & Hm & Estart).
  assert (Hfit : m + book_duration args < 1440).
  { apply Hlen. rewrite Estart. now apply timeToMinutes_clock. }
  assert (Eend : bookedEnd args = clock (m + book_duration args)).
  { unfold bookedEnd. apply window_end; auto; lia. }
  set (r := insertedRow db (nowMs env) (bookedRow env args payload room)).
  assert (Hr : WithinDay r).
  { split; [exact Hday|]. exists m, (m + book_duration args).
    simpl. repeat split; try lia; assumption. }
  destruct Hs as [Hids Hnamed Hrows Hdisj].
  constructor; simpl; fold r.
  - rewrite map_app. simpl. apply NoDup_app.
    + assumption.
    + constructor; [tauto|constructor].
    + intros k Hk [<-|[]]. now apply (existsb_id_false _ _ Hfresh).
  - intros b Hb. apply in_app_iff in Hb as [Hb|[<-|[]]]; [auto|].
    apply generateBookingId_named.
  - intros b Hb Hact. apply in_app_iff in Hb as [Hb|[<-|[]]]; auto.
  - assert (Hclear : forall o, In o (bookings db) -> status o = active ->
                       roomId o = roomId r -> date o = date r ->
                       minutesOverlap o r = false).
    { intros o Hino Hoact Horoom Hodate. simpl in Horoom, Hodate.
      destruct (Hrows o Hino Hoact) as [Hoday (s' & e' & ? & ? & ? & Es' & Ee')].
      rewrite (minutesOverlap_clock o r s' e' m (m + book_duration args));
        try lia; try assumption.
      rewrite Estart, Eend in Hfree.
      apply (free_window db (room_id room) (book_date args) m
               (m + book_duration args) None o); try lia; try assumption.
      - discriminate.
      - repeat split; assumption.
      - split; [assumption|]. exists s', e'. auto. }
    intros i j a b Hij Ha Hb Hsa Hsb Hroomab Hdateab.
    apply nth_error_snoc in Ha as [Ha|[Ei ->]];
      apply nth_error_snoc in Hb as [Hb|[Ej ->]].
    + eapply Hdisj; eauto.
    + apply Hclear; eauto using nth_error_In.
    + rewrite minutesOverlap_sym. apply Hclear; eauto using nth_error_In.
    + congruence.
Qed.

(** One request that stays within its day keeps the store sound. *)
Lemma execute_sound policy db q :
  Sound db -> staysWithinDay db q -> Sound (execute policy db q).
Proof.
  intros Hs Hq. destruct q; simpl.
  - now apply book_sound.
  - now apply cancel_sound.
  - now apply move_sound.
  - now apply extend_sound.
Qed.

Lemma run_sound policy qs : forall db,
  Sound db -> allStayWithinDay policy db qs -> Sound (run policy db qs).
Proof.
  induction qs as [|q qs IH]; intros db Hs Hqs; simpl; [assumption|].
  destruct Hqs as [Hq Hrest]. apply IH; [|assumption].
  now apply execute_sound.
Qed.

Lemma no_bookings_sound db : bookings db = [] -> Sound db.
Proof.
  intros E. constructor; unfold ActiveDisjoint; rewrite E; simpl.
  - constructor.
  - tauto.
  - tauto.
  - intros [|i] j a b _ Ha; simpl in Ha; discriminate.
Qed.

(** From a store without bookings, every sequential execution of book,
    cancel, move and extend requests whose windows are padded and end
    before midnight leaves the active rows of each room and day pairwise
    disjoint. *)
Theorem disjoint_when_windows_stay_within_day policy db qs :
  bookings db = [] ->
  allStayWithinDay policy db qs ->
  ActiveDisjoint (run policy db qs).
Proof.
  intros Hempty Hqs. apply sound_disjoint.
  apply run_sound; [|assumption]. now apply no_bookings_sound.
Qed.

End Invariant.

Ltac within_day :=
  repeat match goal with
  | |- _ /\ _ => split
  | |- True => exact I
  | |- _ <> None => discriminate
  | |- padded _ => split; reflexivity
  | |- _ < _ => reflexivity
  | |- forall _, _ => intro
  | H : _ = Some _ |- _ => vm_compute in H; first [discriminate H | injection H as <-]
  end.

(** Alice books 09:00-10:00, Bob books 10:00-10:30 next to it, Alice
    tries to extend by 30 minutes (refused, Bob is there), moves to
    11:00 instead and extends there, and Bob cancels. *)
Lemma disjoint_when_windows_stay_within_day_witness :
  ActiveDisjoint
    (run defaultPolicy Samples.emptyStore
       [ Book Samples.at0
           {| book_roomName := "A"; book_date := "2030-01-07";
              book_startTime := "09:00"; book_duration := 60;
              book_title := "sync" |} Samples.alice;
         Book Samples.at1
           {| book_roomName := "A"; book_date := "2030-01-07";
              book_startTime := "10:00"; book_duration := 30;
              book_title := "review" |} Samples.bob;
         Extend Samples.at2
           {| extend_bookingId := "R-LOYW3V28"; extend_additionalMinutes := 30 |}
           Samples.alice;
         Move Samples.at2
           {| move_bookingId := "R-LOYW3V28"; move_date := "2030-01-07";
              move_startTime := "11:00" |} Samples.alice;
         Extend Samples.at2
           {| extend_bookingId := "R-LOYW3V28"; extend_additionalMinutes := 30 |}
           Samples.alice;
         Cancel Samples.at2 {| cancel_bookingId := "R-LOYW3V29" |} Samples.bob ]).
Proof.
  apply disjoint_when_windows_stay_within_day; [reflexivity|].
  cbn [allStayWithinDay staysWithinDay
       book_date book_startTime book_duration move_date move_startTime
       move_bookingId extend_bookingId extend_additionalMinutes].
  within_day.
  all: simpl; try lia.
Defined.

(** A book whose start is before the clock, on a known room. *)
Lemma book_in_the_past_is_refused_witness :
  handleBookCommand defaultPolicy Samples.at1
    {| book_roomName := "a"; book_date := "2020-01-01";
       book_startTime := "09:00"; book_duration := 60; book_title := "sync" |}
    Samples.alice Samples.emptyStore
  = (failure MsgPastTime PAST_TIME, Samples.emptyStore).
Proof.
  apply (book_in_the_past_is_refused defaultPolicy Samples.at1 _ Samples.alice
           Samples.emptyStore Samples.roomA); reflexivity.
Defined.

(* ================================================================= *)
(** ** The parser on the examples of the specification *)

(** [book A 2026-01-07 14:00 60 "Weekly Sync"] is a book of room A on
    2026-01-07 at 14:00 for 60 minutes titled Weekly Sync. *)
Example parse_book_weekly_sync :
  let quoted := String doubleQuote ("Weekly Sync" ++ String doubleQuote "") in
  option_map intent
    (match parseCommand defaultPolicy 1700000000000
             ("book A 2026-01-07 14:00 60 " ++ quoted) with
     | ParseOk command => Some command
     | ParseFail _ => None
     end)
  = Some (IBook {| book_roomName := "A"; book_date := "2026-01-07";
                   book_startTime := "14:00"; book_duration := 60;
                   book_title := "Weekly Sync" |}).
Proof. reflexivity. Qed.

(** An unknown first word is a parse failure naming the word. *)
Example parse_unknown_word :
  parseCommand defaultPolicy 1700000000000 "frobnicate A"
  = ParseFail (ErrUnknownCommand "frobnicate").
Proof. reflexivity. Qed.

(* ================================================================= *)
(** ** The bookings table: inserts, closed bookings, and what requests leave alone *)

Section StoreFacts.

Lemma find_app_none {A} (p : A -> bool) l r :
  find p l = None -> find p (l ++ r) = find p r.
Proof.
  induction l as [|x l IH]; simpl; [reflexivity|].
  destruct (p x); [discriminate|exact IH].
Qed.

Lemma find_app_some {A} (p : A -> bool) l r x :
  find p l = Some x -> find p (l ++ r) = Some x.
Proof.
  induction l as [|y l IH]; simpl; [discriminate|].
  destruct (p y); [auto|exact IH].
Qed.

Lemma existsb_false_find db bid :
  existsb (fun x => String.eqb (bookingId x) bid) (bookings db) = false ->
  getBookingById db bid = None.
Proof.
  unfold getBookingById. induction (bookings db) as [|x l IH]; simpl;
    [reflexivity|].
  destruct (String.eqb (bookingId x) bid); [discriminate|exact IH].
Qed.

(** Looking up in a table with one row appended. *)
Lemma getBookingById_snoc db r x :
  getBookingById (withBookings db (bookings db ++ [r])) x
  = match getBookingById db x with
    | Some b => Some b
    | None => if String.eqb (bookingId r) x then Some r else None
    end.
Proof.
  unfold getBookingById. simpl.
  destruct (find (fun b => String.eqb (bookingId b) x) (bookings db))
    as [y|] eqn:E.
  - now apply find_app_some.
  - rewrite find_app_none by assumption. reflexivity.
Qed.

End StoreFacts.

(** The foreign key of [createBooking], as a lookup. *)
Lemma getRoomById_existsb db rid :
  existsb (fun r => room_id r =? rid) (rooms db) = true
  <-> getRoomById db rid <> None.
Proof.
  unfold getRoomById. induction (rooms db) as [|x l IH]; simpl.
  - split; [discriminate|congruence].
  - destruct (room_id x =? rid); simpl; [|exact IH].
    split; [discriminate|reflexivity].
Qed.

(** [createBooking] and [getBookingById]: the insert succeeds exactly when
    the identifier is not yet in the table and the room of the booking is a
    row of the rooms table; an identifier already in the table is refused
    with the UNIQUE failure, and a new identifier with an unknown room with
    the FOREIGN KEY failure.  After an insert that succeeded the new
    identifier finds the inserted row, every other identifier finds what it
    found before, and rooms and audit rows are untouched. *)
Theorem createBooking_then_getBookingById db now b :
  ((getBookingById db (bookingId b) = None
    /\ getRoomById db (roomId b) <> None) <->
   exists db', createBooking db now b = inl db')
  /\ (getBookingById db (bookingId b) <> None ->
      createBooking db now b
      = inr "UNIQUE constraint failed: bookings.booking_id")
  /\ (getBookingById db (bookingId b) = None ->
      getRoomById db (roomId b) = None ->
      createBooking db now b = inr "FOREIGN KEY constraint failed")
  /\ (forall db', createBooking db now b = inl db' ->
        getBookingById db' (bookingId b) = Some (insertedRow db now b)
        /\ bookings db' = bookings db ++ [insertedRow db now b]
        /\ rooms db' = rooms db /\ audit_logs db' = audit_logs db
        /\ forall x, x <> bookingId b ->
                     getBookingById db' x = getBookingById db x).
Proof.
  split; [|split; [|split]].
  - split.
    + intros [Hnone Hroom]. apply getBookingById_None_existsb in Hnone.
      apply getRoomById_existsb in Hroom.
      unfold createBooking. rewrite Hnone, Hroom. simpl. eauto.
    + intros [db' Hc]. split.
      * apply createBooking_inl in Hc as [Hfresh _].
        now apply existsb_false_find.
      * apply getRoomById_existsb. eapply createBooking_inl_room; eauto.
  - intros Hsome. unfold createBooking.
    destruct (existsb _ (bookings db)) eqn:E; [reflexivity|].
    apply existsb_false_find in E. contradiction.
  - intros Hnone Hroom. apply getBookingById_None_existsb in Hnone.
    unfold createBooking. rewrite Hnone.
    destruct (existsb _ (rooms db)) eqn:E; [|reflexivity].
    apply getRoomById_existsb in E. contradiction.
  - intros db' Hc. apply createBooking_inl in Hc as [Hfresh ->].
    apply existsb_false_find in Hfresh.
    split; [|split; [reflexivity|split; [reflexivity|split; [reflexivity|]]]].
    + rewrite getBookingById_snoc, Hfresh. simpl.
      now rewrite String.eqb_refl.
    + intros x Hx. rewrite getBookingById_snoc.
      destruct (getBookingById db x); [reflexivity|]. simpl.
      destruct (String.eqb_spec (bookingId b) x); [congruence|reflexivity].
Qed.

(** A row of room 1 is inserted into the store that holds room 1; the same
    row with room 9, which is no room, is refused. *)
Lemma createBooking_then_getBookingById_witness :
  getBookingById
    (withBookings Samples.emptyStore
       ([] ++ [insertedRow Samples.emptyStore 7
                 (Samples.row "R-1" "09:00" "10:00" 60 active)]))
    "R-1"
  = Some (insertedRow Samples.emptyStore 7
            (Samples.row "R-1" "09:00" "10:00" 60 active))
  /\ createBooking Samples.emptyStore 7
       (setRoom 9 (Samples.row "R-1" "09:00" "10:00" 60 active))
     = inr "FOREIGN KEY constraint failed".
Proof.
  split.
  - apply (proj2 (proj2 (proj2
             (createBooking_then_getBookingById Samples.emptyStore 7
                (Samples.row "R-1" "09:00" "10:00" 60 active))))).
    reflexivity.
  - apply (proj1 (proj2 (proj2
             (createBooking_then_getBookingById Samples.emptyStore 7
                (setRoom 9 (Samples.row "R-1" "09:00" "10:00" 60 active))))));
      reflexivity.
Defined.

(** Closing a booking (cancelled or completed) never takes a free window
    away: a window that was available stays available. *)
Theorem closing_keeps_windows_free db now bid st rid day s e ex :
  st <> active ->
  checkRoomAvailability db rid day s e ex = true ->
  checkRoomAvailability (updateBookingStatus db now bid st) rid day s e ex = true.
Proof.
  intros Hst. rewrite !checkRoomAvailability_true_iff.
  intros Hfree b' Hb'. unfold updateBookingStatus, updateWhereId in Hb'.
  simpl in Hb'. apply in_map_iff in Hb' as (b & <- & Hb).
  destruct (String.eqb (bookingId b) bid); [|auto].
  unfold conflictRow, isActive. simpl.
  destruct st; [congruence| |]; simpl; now rewrite !andb_false_r.
Qed.

Lemma closing_keeps_windows_free_witness :
  checkRoomAvailability
    (updateBookingStatus
       (Samples.storeOf [Samples.row "R-1" "09:00" "10:00" 60 active])
       7 "R-1" cancelled)
    1 "2030-01-07" "10:00" "11:00" None = true.
Proof.
  apply closing_keeps_windows_free; [discriminate|reflexivity].
Defined.

Section Frame.

Lemma map_identity_update bid (f : Booking -> Booking) l :
  (forall b, rowIdentity (f b) = rowIdentity b) ->
  map rowIdentity
      (map (fun b => if String.eqb (bookingId b) bid then f b else b) l)
  = map rowIdentity l.
Proof.
  intros Hf. rewrite map_map. apply map_ext. intros b.
  destruct (String.eqb (bookingId b) bid); auto.
Qed.

End Frame.

Ltac unchanged :=
  split; [reflexivity|];
  split; [reflexivity|];
  split; [|intros _; reflexivity];
  eexists; exists []; rewrite List.app_nil_r;
  split; [reflexivity|]; split; [reflexivity|];
  split; [simpl; lia|intros ? []].

Ltac rewritten :=
  split; [reflexivity|]; split; [reflexivity|]; split; [|discriminate];
  eexists; exists []; rewrite List.app_nil_r;
  split; [reflexivity|]; split; [|split; [simpl; lia|intros ? []]].

(** What a mutating request leaves alone: rooms, audit rows and the
    identity of every stored row; a book adds one row at most, after the
    rows that were there; a request answered with a failure returns the
    store as it was. *)
Lemma execute_frame policy db q :
  rooms (execute policy db q) = rooms db
  /\ audit_logs (execute policy db q) = audit_logs db
  /\ (exists kept added,
        bookings (execute policy db q) = kept ++ added
        /\ map rowIdentity kept = map rowIdentity (bookings db)
        /\ (List.length added <= 1)%nat
        /\ forall b, In b added ->
             match q with
             | Book env args payload =>
                 status b = active
                 /\ requestedBy b = writerEmail payload
                 /\ bookingId b = generateBookingId env
             | _ => False
             end)
  /\ (match q with
      | Book env args payload =>
          success (fst (handleBookCommand policy env args payload db))
      | Cancel env args payload =>
          success (fst (handleCancelCommand env args payload db))
      | Move env args payload =>
          success (fst (handleMoveCommand env args payload db))
      | Extend env args payload =>
          success (fst (handleExtendCommand policy env args payload db))
      end = false -> execute policy db q = db).
Proof.
  destruct q as [env args payload|env args payload|env args payload
                |env args payload]; cbn [execute].
  - pose proof (handleBookCommand_outcome policy env args payload db) as H.
    inversion H as [| | | | |room db' Hroom Hnow Hhours Hfree Hins Heq];
      cbn [fst snd];
      try (now unchanged).
    apply createBooking_inl in Hins as [_ ->].
    split; [reflexivity|]. split; [reflexivity|]. split; [|discriminate].
    exists (bookings db),
      [insertedRow db (nowMs env) (bookedRow env args payload room)].
    split; [reflexivity|]. split; [reflexivity|]. split; [simpl; lia|].
    intros b [<-|[]]. repeat split.
  - pose proof (handleCancelCommand_outcome env args payload db) as H.
    inversion H; cbn [fst snd];
      try (now unchanged).
    rewritten.
    unfold updateBookingStatus, updateWhereId. simpl.
    now apply map_identity_update.
  - pose proof (handleMoveCommand_outcome env args payload db) as H.
    inversion H; cbn [fst snd];
      try (now unchanged).
    rewritten.
    unfold updateBookingTime, updateWhereId. simpl.
    now apply map_identity_update.
  - pose proof (handleExtendCommand_outcome policy env args payload db) as H.
    inversion H; cbn [fst snd];
      try (now unchanged).
    rewritten.
    unfold updateBookingEndTime, updateWhereId. simpl.
    now apply map_identity_update.
Qed.

(* ================================================================= *)
(** ** Clock texts, ordered queries and room names *)

Section ClockRoundTrip.

Lemma timeRegex_test_clock m : 0 <= m < 1440 -> padded (clock m).
Proof.
  intros Hm. destruct (clock_digits m Hm)
    as (h1 & h2 & m1 & m2 & H1 & H2 & H3 & H4 & Hh & _ & ->).
  split; [|reflexivity].
  unfold timeRegex_test. cbn [list_ascii_of_string].
  unfold charBetween. rewrite !isDigit_digitChar by lia.
  rewrite !charCode_digitChar by lia.
  change (charCode "0") with 48. change (charCode "1") with 49.
  change (charCode "3") with 51. change (charCode "5") with 53.
  change (Ascii.eqb ":" ":") with true.
  assert (Hcase : h1 <= 1 \/ h1 = 2 /\ h2 <= 3) by lia.
  destruct Hcase as [Hlow|[-> Hhi]].
  - replace ((48 <=? 48 + h1) && (48 + h1 <=? 49)) with true by lia.
    cbn [andb orb]. lia.
  - change (Ascii.eqb (digitChar 2) "2") with true.
    replace ((48 <=? 48 + h2) && (48 + h2 <=? 51)) with true by lia.
    rewrite orb_true_r. cbn [andb]. lia.
Qed.

End ClockRoundTrip.

(** Formatting a minute of the day and reading the text back: the text of
    every minute passes the pattern of the parser with two hour digits, and
    [timeToMinutes] reads the same minute from it. *)
Theorem clock_text_round_trip m :
  0 <= m < 1440 ->
  timeRegex_test (formatHHmm (Some m)) = true
  /\ String.length (formatHHmm (Some m)) = 5%nat
  /\ timeToMinutes (formatHHmm (Some m)) = Some m.
Proof.
  intros Hm. destruct (timeRegex_test_clock m Hm) as [Hre Hlen].
  split; [exact Hre|]. split; [exact Hlen|now apply timeToMinutes_clock].
Qed.

Lemma clock_text_round_trip_witness :
  timeRegex_test (formatHHmm (Some 570)) = true
  /\ String.length (formatHHmm (Some 570)) = 5%nat
  /\ timeToMinutes (formatHHmm (Some 570)) = Some 570.
Proof. apply clock_text_round_trip. lia. Defined.

(** On start texts with two hour digits the byte-wise order in which the
    store compares them is the order of the minutes they denote, and
    formatting the minute gives the text back. *)
Theorem padded_text_order_is_time_order a b :
  padded a -> padded b ->
  exists x y,
    timeToMinutes a = Some x /\ timeToMinutes b = Some y
    /\ formatHHmm (Some x) = a /\ formatHHmm (Some y) = b
    /\ textLt a b = (x <? y) /\ textLe a b = (x <=? y)
    /\ (a = b <-> x = y).
Proof.
  intros Ha Hb.
  apply padded_clock in Ha as (x & Hx & ->).
  apply padded_clock in Hb as (y & Hy & ->).
  exists x, y. rewrite !timeToMinutes_clock by assumption.
  repeat split; try reflexivity.
  - now apply ltb_clock.
  - now apply leb_clock.
  - intros E. apply (f_equal timeToMinutes) in E.
    rewrite !timeToMinutes_clock in E by assumption. congruence.
  - congruence.
Qed.

Lemma padded_text_order_is_time_order_witness :
  exists x y,
    timeToMinutes "09:30" = Some x /\ timeToMinutes "10:00" = Some y
    /\ formatHHmm (Some x) = "09:30" /\ formatHHmm (Some y) = "10:00"
    /\ textLt "09:30" "10:00" = (x <? y) /\ textLe "09:30" "10:00" = (x <=? y)
    /\ ("09:30" = "10:00" <-> x = y).
Proof.
  apply padded_text_order_is_time_order; split; reflexivity.
Defined.

Section OrderedQueries.

Lemma leb_total a b : String.leb a b = false -> String.leb b a = true.
Proof.
  unfold String.leb. rewrite (String.compare_antisym b a).
  destruct (String.compare a b); simpl; congruence.
Qed.

Lemma leb_trans a b c :
  String.leb a b = true -> String.leb b c = true -> String.leb a c = true.
Proof.
  intros Hab Hbc. destruct (String.ltb a b) eqn:E.
  - apply TextOrder.ltb_leb. eapply TextOrder.ltb_leb_trans; eauto.
  - assert (a = b) as ->; [|assumption].
    apply String.compare_eq_iff. unfold String.leb in Hab.
    unfold String.ltb in E. destruct (String.compare a b); congruence.
Qed.

Lemma insertByStart_perm b l : Permutation (insertByStart b l) (b :: l).
Proof.
  induction l as [|x l IH]; simpl; [reflexivity|].
  destruct (String.leb (startTime b) (startTime x)); [reflexivity|].
  rewrite IH. apply perm_swap.
Qed.

Lemma insertByStart_sorted b l :
  StronglySorted byStartTime l -> StronglySorted byStartTime (insertByStart b l).
Proof.
  induction l as [|x l IH]; intros Hs; simpl.
  - repeat constructor.
  - inversion Hs as [|? ? Hl Hx]; subst.
    destruct (String.leb (startTime b) (startTime x)) eqn:E.
    + constructor; [assumption|]. constructor; [exact E|].
      eapply Forall_impl; [|exact Hx]. intros y Hy.
      unfold byStartTime in *. eapply leb_trans; eauto.
    + constructor; [auto|].
      apply (Permutation_Forall (Permutation_sym (insertByStart_perm b l))).
      constructor; [|assumption]. now apply leb_total.
Qed.

Lemma insertRoom_perm r l : Permutation (insertRoom r l) (r :: l).
Proof.
  induction l as [|x l IH]; simpl; [reflexivity|].
  destruct (String.leb (room_name r) (room_name x)); [reflexivity|].
  rewrite IH. apply perm_swap.
Qed.

Lemma insertRoom_sorted r l :
  StronglySorted byRoomName l -> StronglySorted byRoomName (insertRoom r l).
Proof.
  induction l as [|x l IH]; intros Hs; simpl.
  - repeat constructor.
  - inversion Hs as [|? ? Hl Hx]; subst.
    destruct (String.leb (room_name r) (room_name x)) eqn:E.
    + constructor; [assumption|]. constructor; [exact E|].
      eapply Forall_impl; [|exact Hx]. intros y Hy.
      unfold byRoomName in *. eapply leb_trans; eauto.
    + constructor; [auto|].
      apply (Permutation_Forall (Permutation_sym (insertRoom_perm r l))).
      constructor; [|assumption]. now apply leb_total.
Qed.

End OrderedQueries.

Section Selections.

Lemma fold_insertByStart_perm l : Permutation (fold_right insertByStart [] l) l.
Proof.
  induction l as [|x l IH]; simpl; [reflexivity|].
  rewrite insertByStart_perm. now constructor.
Qed.

(** The rows [getBookingsByDate] returns. *)
Lemma getBookingsByDate_In db day rid b :
  In b (getBookingsByDate db day rid) <->
  In b (bookings db) /\ date b = day /\ status b = active
  /\ forall r, rid = Some r -> roomId b = r.
Proof.
  unfold getBookingsByDate. split.
  - intros Hin. apply (Permutation_in _ (fold_insertByStart_perm _)) in Hin.
    apply filter_In in Hin as [Hin Hsel].
    apply andb_true_iff in Hsel as [Hsel Hroom].
    apply andb_true_iff in Hsel as [Hday Hact].
    apply String.eqb_eq in Hday. apply isActive_iff in Hact.
    repeat split; try assumption.
    intros r ->. lia.
  - intros (Hin & Hday & Hact & Hroom).
    apply (Permutation_in _ (Permutation_sym (fold_insertByStart_perm _))).
    apply filter_In. split; [assumption|].
    apply String.eqb_eq in Hday. apply isActive_iff in Hact.
    rewrite Hday, Hact. simpl.
    destruct rid as [r|]; [|reflexivity].
    specialize (Hroom r eq_refl). lia.
Qed.

End Selections.

(** [getBookingsByDate] returns the active rows of the day (of the one room
    when a room is given), each as often as the table holds it and no other
    row, in ascending order of their start texts. *)
Theorem getBookingsByDate_sorted_selection db day rid :
  StronglySorted byStartTime (getBookingsByDate db day rid)
  /\ (forall b, In b (getBookingsByDate db day rid) <->
        In b (bookings db) /\ date b = day /\ status b = active
        /\ forall r, rid = Some r -> roomId b = r)
  /\ Permutation (getBookingsByDate db day rid)
       (filter (fun b => String.eqb (date b) day && isActive b
                         && match rid with
                            | Some r => roomId b =? r
                            | None => true
                            end)
               (bookings db)).
Proof.
  split; [|split].
  - unfold getBookingsByDate.
    induction (filter _ (bookings db)) as [|x l IH]; simpl;
      [constructor|now apply insertByStart_sorted].
  - intros b. apply getBookingsByDate_In.
  - apply fold_insertByStart_perm.
Qed.

(** [getAllRooms] returns every room of the table, once per row, in
    ascending order of the names. *)
Theorem getAllRooms_sorted_by_name db :
  StronglySorted byRoomName (getAllRooms db)
  /\ Permutation (getAllRooms db) (rooms db).
Proof.
  unfold getAllRooms. split.
  - induction (rooms db) as [|x l IH]; simpl;
      [constructor|now apply insertRoom_sorted].
  - induction (rooms db) as [|x l IH]; simpl; [reflexivity|].
    rewrite insertRoom_perm. now constructor.
Qed.

Section RoomNames.

Lemma lowerChar_upperChar c : lowerChar (upperChar c) = lowerChar c.
Proof.
  destruct c as [[] [] [] [] [] [] [] []]; reflexivity.
Qed.

Lemma lowerChar_idempotent c : lowerChar (lowerChar c) = lowerChar c.
Proof.
  destruct c as [[] [] [] [] [] [] [] []]; reflexivity.
Qed.

Lemma toLowerCase_toUpperCase s : toLowerCase (toUpperCase s) = toLowerCase s.
Proof.
  induction s as [|c s IH]; simpl; [reflexivity|].
  unfold toLowerCase, toUpperCase in *. simpl.
  now rewrite lowerChar_upperChar, IH.
Qed.

Lemma toLowerCase_idempotent s : toLowerCase (toLowerCase s) = toLowerCase s.
Proof.
  induction s as [|c s IH]; simpl; [reflexivity|].
  unfold toLowerCase in *. simpl.
  now rewrite lowerChar_idempotent, IH.
Qed.

End RoomNames.

(** [getRoomByName] is blind to letter case: a name and its upper-case and
    lower-case spellings find the same room, and the room found has the
    name asked for up to case. *)
Theorem getRoomByName_ignores_case db name :
  getRoomByName db (toUpperCase name) = getRoomByName db name
  /\ getRoomByName db (toLowerCase name) = getRoomByName db name
  /\ forall room, getRoomByName db name = Some room ->
       In room (rooms db)
       /\ toLowerCase (room_name room) = toLowerCase name.
Proof.
  unfold getRoomByName.
  rewrite toLowerCase_toUpperCase, toLowerCase_idempotent.
  split; [reflexivity|]. split; [reflexivity|].
  intros room Hfound. apply find_some in Hfound as [Hin Hname].
  split; [assumption|now apply String.eqb_eq in Hname].
Qed.

(* ================================================================= *)
(** ** What a successful book and cancel leave behind *)

Section BookEffect.

Lemma leb_refl s : String.leb s s = true.
Proof. unfold String.leb. now rewrite TextOrder.compare_refl. Qed.

(** A stored active row holds its own window against every request that
    excludes nothing. *)
Lemma own_window_is_taken db b :
  In b (bookings db) -> status b = active ->
  checkRoomAvailability db (roomId b) (date b) (startTime b) (endTime b) None
  = false.
Proof.
  intros Hin Hact.
  destruct (checkRoomAvailability db (roomId b) (date b) (startTime b)
              (endTime b) None) eqn:E; [|reflexivity].
  rewrite checkRoomAvailability_true_iff in E. specialize (E b Hin).
  unfold conflictRow, overlapClause, textGe, textLe, notExcluded in E.
  apply isActive_iff in Hact.
  rewrite Z.eqb_refl, String.eqb_refl, Hact, !leb_refl in E.
  rewrite !orb_true_r in E. discriminate.
Qed.

End BookEffect.

(** A book that is answered with a success passed every rule and has
    stored one new active row: the room word resolved, the start is not
    before the clock, the window lies within the booking hours and was
    free; the identifier it returns finds the new row, which carries the
    room, the date, the start text as typed, the computed end, the
    duration, the title and the caller; the table is the old one with that
    row appended. *)
Theorem book_success_stores_the_row policy env args payload db :
  success (fst (handleBookCommand policy env args payload db)) = true ->
  exists room stored,
    let db' := snd (handleBookCommand policy env args payload db) in
    getRoomByName db (book_roomName args) = Some room
    /\ isBefore (dayjsParse (book_date args) (book_startTime args)) (nowMs env)
       = false
    /\ outsideHours policy args = false
    /\ checkRoomAvailability db (room_id room) (book_date args)
         (book_startTime args) (endTime stored) None = true
    /\ result_data (fst (handleBookCommand policy env args payload db))
       = Some (generateBookingId env)
    /\ getBookingById db (generateBookingId env) = None
    /\ getBookingById db' (generateBookingId env) = Some stored
    /\ bookings db' = bookings db ++ [stored]
    /\ (bookingId stored, roomId stored, date stored, startTime stored,
        endTime stored, durationMinutes stored, title stored,
        requestedBy stored, status stored)
       = (generateBookingId env, room_id room, book_date args,
          book_startTime args,
          formatHHmm (addMinutes (dayjsParse (book_date args)
                                             (book_startTime args))
                                 (book_duration args)),
          book_duration args, book_title args, writerEmail payload, active)
    /\ createdAt stored = nowMs env.
Proof.
  pose proof (handleBookCommand_outcome policy env args payload db) as H.
  inversion H as [| | | | |room db' Hroom Hnow Hhours Hfree Hins Heq];
    cbn [fst snd success failure]; try discriminate.
  intros _.
  exists room, (insertedRow db (nowMs env) (bookedRow env args payload room)).
  apply createBooking_inl in Hins as [Hfresh ->].
  apply existsb_false_find in Hfresh.
  cbn [ok result_data]. change (bookingId (bookedRow env args payload room))
    with (generateBookingId env) in Hfresh.
  repeat split; try assumption.
  rewrite getBookingById_snoc, Hfresh. simpl. now rewrite String.eqb_refl.
Qed.

Lemma book_success_stores_the_row_witness :
  exists room stored,
    getRoomByName Samples.emptyStore "A" = Some room
    /\ bookings (snd (handleBookCommand defaultPolicy Samples.at0
                        {| book_roomName := "A"; book_date := "2030-01-07";
                           book_startTime := "09:00"; book_duration := 60;
                           book_title := "sync" |}
                        Samples.alice Samples.emptyStore))
       = [] ++ [stored]
    /\ (startTime stored, endTime stored, requestedBy stored, status stored)
       = ("09:00", "10:00", "alice@example.com", active).
Proof.
  destruct (book_success_stores_the_row defaultPolicy Samples.at0
              {| book_roomName := "A"; book_date := "2030-01-07";
                 book_startTime := "09:00"; book_duration := 60;
                 book_title := "sync" |}
              Samples.alice Samples.emptyStore eq_refl)
    as (room & stored & Hroom & _ & _ & _ & _ & _ & _ & Hrows & Hfields & _).
  exists room, stored. split; [exact Hroom|]. split; [exact Hrows|].
  injection Hfields as _ _ _ Hs He _ _ Ho Hst.
  now rewrite Hs, He, Ho, Hst.
Defined.

(** Once a book has succeeded, a book of the identical room, date, start
    and duration is refused, whoever asks and at whatever clock, and leaves
    the store as it is: the stored row holds its window. *)
Theorem identical_book_is_refused policy env args payload env' payload' db :
  success (fst (handleBookCommand policy env args payload db)) = true ->
  let db' := snd (handleBookCommand policy env args payload db) in
  success (fst (handleBookCommand policy env' args payload' db')) = false
  /\ snd (handleBookCommand policy env' args payload' db') = db'.
Proof.
  pose proof (handleBookCommand_outcome policy env args payload db) as H.
  inversion H as [| | | | |room db1 Hroom Hnow Hhours Hfree Hins Heq];
    cbn [fst snd success failure]; try discriminate.
  intros _. apply createBooking_inl in Hins as [_ ->].
  set (db1 := withBookings db _).
  assert (Htaken :
    checkRoomAvailability db1 (room_id room) (book_date args)
      (book_startTime args) (bookedEnd args) None = false).
  { apply (own_window_is_taken db1
             (insertedRow db (nowMs env) (bookedRow env args payload room)));
      [|reflexivity].
    subst db1. simpl. apply in_or_app. right. now left. }
  pose proof (handleBookCommand_outcome policy env' args payload' db1) as H'.
  inversion H' as [| | | | |room' db2 Hroom' Hnow' Hhours' Hfree' Hins' Heq'];
    cbn [fst snd success failure]; try (split; reflexivity).
  exfalso. change (getRoomByName db1 (book_roomName args))
    with (getRoomByName db (book_roomName args)) in Hroom'.
  congruence.
Qed.

Lemma identical_book_is_refused_witness :
  let args := {| book_roomName := "A"; book_date := "2030-01-07";
                 book_startTime := "9:30"; book_duration := 60;
                 book_title := "sync" |} in
  let db' := snd (handleBookCommand defaultPolicy Samples.at0 args
                    Samples.alice Samples.emptyStore) in
  success (fst (handleBookCommand defaultPolicy Samples.at1 args
                  Samples.bob db')) = false
  /\ snd (handleBookCommand defaultPolicy Samples.at1 args Samples.bob db')
     = db'.
Proof.
  apply (identical_book_is_refused defaultPolicy Samples.at0
           {| book_roomName := "A"; book_date := "2030-01-07";
              book_startTime := "9:30"; book_duration := 60;
              book_title := "sync" |}
           Samples.alice Samples.at1 Samples.bob Samples.emptyStore).
  reflexivity.
Defined.

(** A cancel that is answered with a success found an active booking of
    the caller under the identifier; afterwards the identifier finds the
    same row with status cancelled and nothing else changed but the update
    stamp, and every further cancel of it, by anyone, is answered with the
    invalid-status failure and changes nothing. *)
Theorem cancel_success_closes_the_booking env args payload db :
  success (fst (handleCancelCommand env args payload db)) = true ->
  exists b,
    let db' := snd (handleCancelCommand env args payload db) in
    getBookingById db (cancel_bookingId args) = Some b
    /\ status b = active
    /\ requestedBy b = writerEmail payload
    /\ getBookingById db' (cancel_bookingId args)
       = Some (setStatus cancelled (nowMs env) b)
    /\ (forall x, x <> cancel_bookingId args ->
                  getBookingById db' x = getBookingById db x)
    /\ forall env' payload',
         handleCancelCommand env' args payload' db'
         = (failure (MsgAlreadyClosed cancelled) INVALID_STATUS, db').
Proof.
  pose proof (handleCancelCommand_outcome env args payload db) as H.
  inversion H as [| | |b Hb Hact Hown Heq];
    cbn [fst snd success failure]; try discriminate.
  intros _. exists b.
  assert (Hid : bookingId b = cancel_bookingId args)
    by (eapply getBookingById_id; eauto).
  assert (Hfound :
    getBookingById
      (updateBookingStatus db (nowMs env) (cancel_bookingId args) cancelled)
      (cancel_bookingId args)
    = Some (setStatus cancelled (nowMs env) b)).
  { unfold updateBookingStatus.
    rewrite getBookingById_updateWhereId by reflexivity.
    rewrite Hb. simpl. now rewrite Hid, String.eqb_refl. }
  repeat split; try assumption.
  - intros x Hx. unfold updateBookingStatus.
    rewrite getBookingById_updateWhereId by reflexivity.
    destruct (getBookingById db x) as [y|] eqn:Hy; [|reflexivity]. simpl.
    apply getBookingById_id in Hy.
    destruct (String.eqb_spec (bookingId y) (cancel_bookingId args));
      congruence.
  - intros env' payload'. unfold handleCancelCommand. now rewrite Hfound.
Qed.

Lemma cancel_success_closes_the_booking_witness :
  exists b,
    getBookingById (Samples.storeOf [Samples.row "R-1" "09:00" "10:00" 60 active])
      "R-1" = Some b
    /\ forall env' payload',
         handleCancelCommand env' {| cancel_bookingId := "R-1" |} payload'
           (snd (handleCancelCommand Samples.at1 {| cancel_bookingId := "R-1" |}
                   Samples.alice
                   (Samples.storeOf
                      [Samples.row "R-1" "09:00" "10:00" 60 active])))
         = (failure (MsgAlreadyClosed cancelled) INVALID_STATUS,
            snd (handleCancelCommand Samples.at1 {| cancel_bookingId := "R-1" |}
                   Samples.alice
                   (Samples.storeOf
                      [Samples.row "R-1" "09:00" "10:00" 60 active]))).
Proof.
  destruct (cancel_success_closes_the_booking Samples.at1
              {| cancel_bookingId := "R-1" |} Samples.alice
              (Samples.storeOf [Samples.row "R-1" "09:00" "10:00" 60 active])
              eq_refl)
    as (b & Hb & _ & _ & _ & _ & Hagain).
  exists b. split; [exact Hb|exact Hagain].
Defined.

Section EntryFrame.

Lemma readonly_handlers_keep_store policy env payload db :
  (forall a, snd (handleStatusCommand policy env a db) = db)
  /\ (forall a, snd (handleMyCommand env a payload db) = db)
  /\ (forall a, snd (handleListCommand a db) = db).
Proof.
  repeat split; intros a.
  - unfold handleStatusCommand.
    repeat match goal with
    | |- context [match ?x with _ => _ end] => destruct x
    end; reflexivity.
  - unfold handleMyCommand. now destruct (getBookingsByUser _ _ _ _).
  - unfold handleListCommand. destruct a as [|day].
    + now destruct (getAllRooms db).
    + destruct (truthy day); [|reflexivity].
      now destruct (getBookingsByDate db day None).
Qed.

End EntryFrame.

(** What one call of the entry point can do to the store, whether it
    resolves or rejects: the rooms are never touched; no booking row is
    removed and none changes its place, row number, identifier, room,
    calendar references, title, requester or creation stamp; at most one
    row is added, after the rows that were there, and only by a book: the
    row then stored is active and in the caller's name; and when the
    response is a failure (red side bar) the bookings table is exactly as
    before.  The audit row is the only other write. *)
Theorem handleCommand_keeps_rows policy clock payload db :
  let out := handleCommand policy clock payload db in
  rooms (store out) = rooms db
  /\ (exists kept added,
        bookings (store out) = kept ++ added
        /\ map rowIdentity kept = map rowIdentity (bookings db)
        /\ (List.length added <= 1)%nat
        /\ forall b, In b added ->
             status b = active /\ requestedBy b = writerEmail payload)
  /\ (forall answer,
        response out = inl answer -> connectColor answer = "#E74C3C" ->
        bookings (store out) = bookings db).
Proof.
  intros out. subst out. unfold handleCommand, logCommand.
  assert (Hnone : exists kept added : list Booking,
    bookings db = kept ++ added
    /\ map rowIdentity kept = map rowIdentity (bookings db)
    /\ (List.length added <= 1)%nat
    /\ forall b, In b added ->
         status b = active /\ requestedBy b = writerEmail payload).
  { exists (bookings db), []. rewrite List.app_nil_r. split; [reflexivity|].
    split; [reflexivity|]. split; [simpl; lia|intros ? []]. }
  destruct (parseCommand policy (nowMs (handlerEnv clock)) (data payload))
    as [command|parseError];
    [|destruct (auditFault clock); cbn; auto].
  destruct (dispatch policy clock command payload db) as [[result db1]|thrown]
    eqn:Hd; [|destruct (auditFault clock); cbn; auto].
  assert (Hframe :
    rooms db1 = rooms db
    /\ (exists kept added,
          bookings db1 = kept ++ added
          /\ map rowIdentity kept = map rowIdentity (bookings db)
          /\ (List.length added <= 1)%nat
          /\ forall b, In b added ->
               status b = active /\ requestedBy b = writerEmail payload)
    /\ (success result = false -> db1 = db)).
  { assert (Hp : exists p, dispatch policy clock command payload db = inl p
                           /\ fst p = result /\ snd p = db1)
      by (eexists; split; [exact Hd|split; reflexivity]).
    clear Hd. destruct Hp as (p & Hd & Hr & Hs). unfold dispatch in Hd.
    destruct (readonly_handlers_keep_store policy (handlerEnv clock) payload db)
      as (Hstatus & Hmy & Hlist).
    destruct (intent command) as [|a|a|a|a|a|a|a], (storeFault clock);
      try discriminate; injection Hd as <-; cbn [fst snd] in Hr, Hs.
    - subst. auto.
    - subst. auto.
    - rewrite <- Hs, Hstatus. auto.
    - pose proof (execute_frame policy db (Book (handlerEnv clock) a payload))
        as (H1 & _ & (kept & added & H2 & H2' & H3 & H4) & H5).
      cbn [execute] in *. rewrite <- Hs, <- Hr.
      split; [assumption|]. split; [|intros E; now rewrite H5].
      exists kept, added. repeat split; try assumption; now apply H4.
    - pose proof (execute_frame policy db (Cancel (handlerEnv clock) a payload))
        as (H1 & _ & (kept & added & H2 & H2' & H3 & H4) & H5).
      cbn [execute] in *. rewrite <- Hs, <- Hr.
      split; [assumption|]. split; [|intros E; now rewrite H5].
      exists kept, added. repeat split; try assumption; now destruct (H4 b).
    - pose proof (execute_frame policy db (Move (handlerEnv clock) a payload))
        as (H1 & _ & (kept & added & H2 & H2' & H3 & H4) & H5).
      cbn [execute] in *. rewrite <- Hs, <- Hr.
      split; [assumption|]. split; [|intros E; now rewrite H5].
      exists kept, added. repeat split; try assumption; now destruct (H4 b).
    - pose proof (execute_frame policy db (Extend (handlerEnv clock) a payload))
        as (H1 & _ & (kept & added & H2 & H2' & H3 & H4) & H5).
      cbn [execute] in *. rewrite <- Hs, <- Hr.
      split; [assumption|]. split; [|intros E; now rewrite H5].
      exists kept, added. repeat split; try assumption; now destruct (H4 b).
    - rewrite <- Hs, Hmy. auto.
    - rewrite <- Hs, Hlist. auto. }
  destruct Hframe as (H1 & H2 & H3).
  destruct (auditFault clock) as [failed|];
    cbn [store response createAuditLog rooms bookings].
  - split; [assumption|]. split; [assumption|]. discriminate.
  - split; [assumption|]. split; [assumption|].
    intros answer Hanswer. injection Hanswer as <-.
    cbn [formatResponse connectColor].
    destruct (success result); [discriminate|]. intros _. now rewrite H3.
Qed.

(* ================================================================= *)
(** ** The my command and the effect of a move *)

Section OwnBookings.

Lemma byDateThenStart_trans a b c :
  byDateThenStart a b -> byDateThenStart b c -> byDateThenStart a c.
Proof.
  intros [Hab|[Eab Hab]] [Hbc|[Ebc Hbc]].
  - left. eapply TextOrder.ltb_trans; eauto.
  - left. now rewrite <- Ebc.
  - left. now rewrite Eab.
  - right. split; [congruence|]. eapply leb_trans; eauto.
Qed.

Lemma byDateThenStart_total a b :
  String.ltb (date a) (date b)
  || (String.eqb (date a) (date b)
      && String.leb (startTime a) (startTime b)) = false ->
  byDateThenStart b a.
Proof.
  intros H. apply orb_false_iff in H as [Hlt Hrest].
  unfold byDateThenStart, String.ltb in *.
  rewrite (String.compare_antisym (date b) (date a)).
  destruct (String.compare (date a) (date b)) eqn:E; simpl.
  - apply String.compare_eq_iff in E. right. split; [congruence|].
    rewrite E, String.eqb_refl in Hrest. simpl in Hrest.
    now apply leb_total.
  - discriminate.
  - now left.
Qed.

Lemma insertByDateStart_perm b l : Permutation (insertByDateStart b l) (b :: l).
Proof.
  induction l as [|x l IH]; simpl; [reflexivity|].
  destruct (_ || _); [reflexivity|].
  rewrite IH. apply perm_swap.
Qed.

Lemma insertByDateStart_sorted b l :
  StronglySorted byDateThenStart l ->
  StronglySorted byDateThenStart (insertByDateStart b l).
Proof.
  induction l as [|x l IH]; intros Hs; simpl.
  - repeat constructor.
  - inversion Hs as [|? ? Hl Hx]; subst.
    destruct (String.ltb (date b) (date x)
              || String.eqb (date b) (date x)
                 && String.leb (startTime b) (startTime x)) eqn:E.
    + assert (Hbx : byDateThenStart b x).
      { apply orb_true_iff in E as [E|E]; [now left|].
        apply andb_true_iff in E as [Ed Es]. apply String.eqb_eq in Ed.
        now right. }
      constructor; [assumption|]. constructor; [exact Hbx|].
      eapply Forall_impl; [|exact Hx]. intros y Hy.
      eapply byDateThenStart_trans; eauto.
    + constructor; [auto|].
      apply (Permutation_Forall (Permutation_sym (insertByDateStart_perm b l))).
      constructor; [|assumption]. now apply byDateThenStart_total.
Qed.

Lemma fold_insertByDateStart_perm l :
  Permutation (fold_right insertByDateStart [] l) l.
Proof.
  induction l as [|x l IH]; simpl; [reflexivity|].
  rewrite insertByDateStart_perm. now constructor.
Qed.

End OwnBookings.

(** The my command shows a caller their own bookings and nothing else:
    every row it lists is an active row of the table whose requester is the
    caller (of today's date under the today filter); under the filter all
    it lists every such row; the rows come in ascending order of date and,
    within a date, of start text; the answer is always a success and the
    store is left as it was. *)
Theorem handleMyCommand_lists_own_bookings env args payload db :
  let answer := handleMyCommand env args payload db in
  let found := getBookingsByUser db (nowMs env) (writerEmail payload)
                 (my_filter args) in
  snd answer = db
  /\ success (fst answer) = true
  /\ message (fst answer)
     = match found with
       | [] => MsgMyEmpty (my_filter args)
       | _ => MsgMyList (writerName payload) (my_filter args) found
       end
  /\ (forall b, In b found ->
        In b (bookings db) /\ requestedBy b = writerEmail payload
        /\ status b = active
        /\ (my_filter args = FilterToday -> date b = todayText (nowMs env)))
  /\ (my_filter args = FilterAll ->
      forall b, In b (bookings db) -> requestedBy b = writerEmail payload ->
                status b = active -> In b found)
  /\ StronglySorted byDateThenStart found.
Proof.
  intros answer found. subst answer. unfold handleMyCommand. fold found.
  split; [now destruct found|]. split; [now destruct found|].
  split; [now destruct found|].
  subst found. unfold getBookingsByUser.
  split; [|split].
  - intros b Hin. apply (Permutation_in _ (fold_insertByDateStart_perm _)) in Hin.
    apply filter_In in Hin as [Hin Hsel].
    apply andb_true_iff in Hsel as [Hsel Hdate].
    apply andb_true_iff in Hsel as [Hown Hact].
    apply String.eqb_eq in Hown. apply isActive_iff in Hact.
    repeat split; try assumption.
    intros Hf. rewrite Hf in Hdate. now apply String.eqb_eq in Hdate.
  - intros Hf b Hin Hown Hact.
    apply (Permutation_in _ (Permutation_sym (fold_insertByDateStart_perm _))).
    apply filter_In. split; [assumption|].
    apply String.eqb_eq in Hown. apply isActive_iff in Hact.
    now rewrite Hown, Hact, Hf.
  - induction (filter _ (bookings db)) as [|x l IH]; simpl;
      [constructor|now apply insertByDateStart_sorted].
Qed.

(** A move that is answered with a success found a booking of the caller
    under the identifier, and the conflict check accepted the new window
    with that booking set aside; afterwards the identifier finds that row
    with the date and start asked for and the end computed from the stored
    duration, while its duration, status, requester and title are as
    before, and every other identifier finds what it found before. *)
Theorem move_success_rewrites_the_window env args payload db :
  success (fst (handleMoveCommand env args payload db)) = true ->
  exists b moved,
    let db' := snd (handleMoveCommand env args payload db) in
    getBookingById db (move_bookingId args) = Some b
    /\ requestedBy b = writerEmail payload
    /\ getBookingById db' (move_bookingId args) = Some moved
    /\ (date moved, startTime moved) = (move_date args, move_startTime args)
    /\ endTime moved
       = formatHHmm (addMinutes (dayjsParse (move_date args)
                                            (move_startTime args))
                                (durationMinutes b))
    /\ checkRoomAvailability db (roomId b) (move_date args)
         (move_startTime args) (endTime moved) (Some (move_bookingId args))
       = true
    /\ (bookingId moved, roomId moved, durationMinutes moved, status moved,
        requestedBy moved, title moved, createdAt moved)
       = (bookingId b, roomId b, durationMinutes b, status b,
          requestedBy b, title b, createdAt b)
    /\ updatedAt moved = nowMs env
    /\ (forall x, x <> move_bookingId args ->
                  getBookingById db' x = getBookingById db x).
Proof.
  pose proof (handleMoveCommand_outcome env args payload db) as H.
  inversion H as [| | | |b room Hb Hown Hroom Hfree Heq];
    cbn [fst snd success failure]; try discriminate.
  intros _.
  exists b, (setTime (move_date args) (move_startTime args)
               (movedEnd b (move_date args) (move_startTime args))
               (nowMs env) b).
  assert (Hid : bookingId b = move_bookingId args)
    by (eapply getBookingById_id; eauto).
  cbv zeta. unfold updateBookingTime.
  repeat split; try assumption.
  - rewrite getBookingById_updateWhereId by reflexivity.
    rewrite Hb. simpl. now rewrite Hid, String.eqb_refl.
  - cbn [endTime setTime]. now rewrite <- (getRoomById_id _ _ _ Hroom).
  - intros x Hx. rewrite getBookingById_updateWhereId by reflexivity.
    destruct (getBookingById db x) as [y|] eqn:Hy; [|reflexivity]. simpl.
    apply getBookingById_id in Hy.
    destruct (String.eqb_spec (bookingId y) (move_bookingId args));
      congruence.
Qed.

Lemma move_success_rewrites_the_window_witness :
  exists moved,
    getBookingById
      (snd (handleMoveCommand Samples.at1
              {| move_bookingId := "R-1"; move_date := "2030-01-08";
                 move_startTime := "9:30" |} Samples.alice
              (Samples.storeOf [Samples.row "R-1" "09:00" "10:00" 60 active])))
      "R-1" = Some moved
    /\ (date moved, startTime moved) = ("2030-01-08", "9:30").
Proof.
  destruct (move_success_rewrites_the_window Samples.at1
              {| move_bookingId := "R-1"; move_date := "2030-01-08";
                 move_startTime := "9:30" |} Samples.alice
              (Samples.storeOf [Samples.row "R-1" "09:00" "10:00" 60 active])
              eq_refl)
    as (b & moved & _ & _ & Hmoved & Hwindow & _).
  exists moved. split; [exact Hmoved|exact Hwindow].
Defined.

(* ================================================================= *)
(** ** The time table against the conflict check *)

Section TimeTable.

Lemma existsb_Permutation {A} (p : A -> bool) l l' :
  Permutation l l' -> existsb p l = existsb p l'.
Proof.
  induction 1; simpl; try congruence.
  destruct (p x), (p y); reflexivity.
Qed.

Lemma existsb_eq_iff {A B} (p : A -> bool) (q : B -> bool) l l' :
  ((exists x, In x l /\ p x = true) <-> (exists y, In y l' /\ q y = true)) ->
  existsb p l = existsb q l'.
Proof.
  intros H. destruct (existsb p l) eqn:E, (existsb q l') eqn:E'; try reflexivity.
  - apply existsb_exists in E. apply H in E. apply existsb_exists in E.
    congruence.
  - apply existsb_exists in E'. apply H in E'. apply existsb_exists in E'.
    congruence.
Qed.

Lemma checkRoomAvailability_existsb db rid day s e ex :
  checkRoomAvailability db rid day s e ex
  = negb (existsb (conflictRow rid day s e ex) (bookings db)).
Proof.
  unfold checkRoomAvailability.
  induction (bookings db) as [|x l IH]; simpl; [reflexivity|].
  destruct (conflictRow rid day s e ex x); simpl; [reflexivity|exact IH].
Qed.

End TimeTable.

(** The time table and the conflict check agree.  When the active rows of
    the room on the day lie within the day, a half-hour slot that ends
    before midnight is drawn as booked exactly when [checkRoomAvailability]
    refuses the window of that slot: a slot drawn free can be booked, a
    slot drawn booked cannot. *)
Theorem time_table_agrees_with_conflict_check db rid day h (half : bool) :
  (forall b, In b (bookings db) -> status b = active -> roomId b = rid ->
             date b = day -> WithinDay b) ->
  0 <= h -> h * 60 + (if half then 30 else 0) + 30 < 1440 ->
  let slot := h * 60 + (if half then 30 else 0) in
  isSlotBooked (getBookingsByDate db day (Some rid)) h half
  = negb (checkRoomAvailability db rid day
            (formatHHmm (Some slot)) (formatHHmm (Some (slot + 30))) None).
Proof.
  intros Hrows Hh Hend slot.
  assert (Hslot : 0 <= slot) by (subst slot; destruct half; lia).
  fold slot in Hend.
  change (formatHHmm (Some slot)) with (clock slot).
  change (formatHHmm (Some (slot + 30))) with (clock (slot + 30)).
  rewrite checkRoomAvailability_existsb, negb_involutive.
  unfold isSlotBooked. fold slot.
  pose proof (getBookingsByDate_In db day (Some rid)) as Hsel.
  apply existsb_eq_iff.
  assert (Hrow : forall b, In b (bookings db) -> status b = active ->
            roomId b = rid -> date b = day ->
            match timeToMinutes (startTime b), timeToMinutes (endTime b) with
            | Some bookingStart, Some bookingEnd =>
                (slot <? bookingEnd) && (slot + 30 >? bookingStart)
            | _, _ => false
            end
            = overlapClause b (clock slot) (clock (slot + 30))).
  { intros b Hin Hact Hroom Hday.
    destruct (Hrows b Hin Hact Hroom Hday)
      as (_ & s' & e' & Hs' & Hse' & He' & Es & Ee).
    rewrite overlapClause_strictOverlap.
    - unfold strictOverlap, textLt, textGt.
      rewrite Es, Ee, !timeToMinutes_clock, !ltb_clock by lia. lia.
    - rewrite leb_clock by lia. lia.
    - rewrite Es, Ee, ltb_clock by lia. lia. }
  split.
  - intros (b & Hb & Hmeet). apply Hsel in Hb as (Hin & Hday & Hact & Hroom).
    specialize (Hroom rid eq_refl). exists b. split; [assumption|].
    apply conflictRow_true_iff; [discriminate|].
    split; [repeat split; assumption|].
    now rewrite <- (Hrow b Hin Hact Hroom Hday).
  - intros (b & Hin & Hconf).
    apply conflictRow_true_iff in Hconf as [(Hroom & Hday & Hact & _) Hover];
      [|discriminate].
    exists b. split.
    + apply Hsel. repeat split; try assumption. intros r E.
      injection E as <-. assumption.
    + now rewrite (Hrow b Hin Hact Hroom Hday).
Qed.

Lemma time_table_agrees_with_conflict_check_witness :
  isSlotBooked
    (getBookingsByDate
       (Samples.storeOf [Samples.row "R-1" "09:00" "10:00" 60 active])
       "2030-01-07" (Some 1)) 9 true
  = negb (checkRoomAvailability
            (Samples.storeOf [Samples.row "R-1" "09:00" "10:00" 60 active])
            1 "2030-01-07" (formatHHmm (Some (9 * 60 + 30)))
            (formatHHmm (Some (9 * 60 + 30 + 30))) None).
Proof.
  apply (time_table_agrees_with_conflict_check
           (Samples.storeOf [Samples.row "R-1" "09:00" "10:00" 60 active])
           1 "2030-01-07" 9 true); [|lia|simpl; lia].
  intros b [<-|[]] _ _ _. split; [discriminate|].
  exists 540, 600. repeat split; lia.
Defined.

(* ================================================================= *)
(** ** Stored durations *)

Section Durations.

Lemma updateWhereId_measured db bid g :
  Measured db ->
  (forall b, In b (bookings db) -> bookingId b = bid ->
             status (g b) = active -> durationMatches (g b)) ->
  Measured (updateWhereId bid g db).
Proof.
  intros Hm Hg b' Hb' Hact. unfold updateWhereId in Hb'. simpl in Hb'.
  apply in_map_iff in Hb' as (b & <- & Hb).
  destruct (String.eqb_spec (bookingId b) bid); [now apply Hg|now apply Hm].
Qed.

Lemma book_measured policy db env args payload :
  Sound db -> Measured db -> staysWithinDay db (Book env args payload) ->
  Measured (snd (handleBookCommand policy env args payload db)).
Proof.
  intros Hs Hmeas (Hday & Hpad & Hpos & Hlen).
  pose proof (handleBookCommand_outcome policy env args payload db) as Hout.
  inversion Hout as [| | | | |room db' Hroom Hnow Hhours Hfree Hins Heq];
    cbn [snd]; try assumption.
  apply createBooking_inl in Hins as [_ ->].
  destruct (padded_clock _ Hpad) as (m & Hm & Estart).
  assert (Hfit : m + book_duration args < 1440).
  { apply Hlen. rewrite Estart. now apply timeToMinutes_clock. }
  assert (Eend : bookedEnd args = clock (m + book_duration args)).
  { unfold bookedEnd. apply window_end; auto; lia. }
  intros b Hb Hact. simpl in Hb. apply in_app_iff in Hb as [Hb|[<-|[]]];
    [now apply Hmeas|].
  exists m, (m + book_duration args).
  cbn [startTime endTime durationMinutes insertedRow bookedRow].
  rewrite Eend, Estart.
  rewrite !timeToMinutes_clock by lia. repeat split; lia.
Qed.

Lemma cancel_measured db env args payload :
  Measured db -> Measured (snd (handleCancelCommand env args payload db)).
Proof.
  intros Hmeas.
  pose proof (handleCancelCommand_outcome env args payload db) as Hout.
  inversion Hout; simpl; try assumption.
  apply updateWhereId_measured; [assumption|].
  intros b _ _ Hact. discriminate.
Qed.

Lemma move_measured db env args payload :
  Sound db -> Measured db -> staysWithinDay db (Move env args payload) ->
  Measured (snd (handleMoveCommand env args payload db)).
Proof.
  intros Hs Hmeas (Hday & Hpad & Hlen).
  pose proof (handleMoveCommand_outcome env args payload db) as Hout.
  inversion Hout as [| | | |booking room Hfound Hown Hroom Hfree Heq];
    cbn [snd]; try assumption.
  destruct (padded_clock _ Hpad) as (m & Hm & Estart).
  destruct (Hlen booking m Hfound) as [Hpos Hfit].
  { rewrite Estart. now apply timeToMinutes_clock. }
  assert (Eend : movedEnd booking (move_date args) (move_startTime args)
                 = clock (m + durationMinutes booking)).
  { unfold movedEnd. apply window_end; auto; lia. }
  apply updateWhereId_measured; [assumption|].
  intros b Hin Hid Hact.
  destruct (In_nth_error _ _ Hin) as [i Hi].
  assert (b = booking) by (eapply getBookingById_unique; eauto using sound_ids).
  subst b. exists m, (m + durationMinutes booking).
  cbn [startTime endTime durationMinutes setTime].
  rewrite Eend, Estart, !timeToMinutes_clock by lia. repeat split; lia.
Qed.

Lemma extend_measured policy db env args payload :
  Sound db -> Measured db -> staysWithinDay db (Extend env args payload) ->
  Measured (snd (handleExtendCommand policy env args payload db)).
Proof.
  intros Hs Hmeas (Hpos & Hlen).
  pose proof (handleExtendCommand_outcome policy env args payload db) as Hout.
  inversion Hout as [| | | | |booking room Hfound Hown Hroom Hmax Hfree Heq];
    cbn [snd]; try assumption.
  apply updateWhereId_measured; [assumption|].
  intros b Hin Hid Hact. simpl in Hact.
  destruct (In_nth_error _ _ Hin) as [i Hi].
  assert (b = booking) by (eapply getBookingById_unique; eauto using sound_ids).
  subst b.
  destruct (sound_rows db Hs booking Hin Hact)
    as [Hday (s & e & Hs0 & Hse & He & Es & Ee)].
  destruct (Hmeas booking Hin Hact) as (s' & e' & Hs' & He' & Hd & Hdiff).
  rewrite Es, timeToMinutes_clock in Hs' by lia.
  rewrite Ee, timeToMinutes_clock in He' by lia.
  injection Hs' as <-. injection He' as <-.
  assert (Hfit : e + extend_additionalMinutes args < 1440).
  { apply (Hlen booking e Hfound). rewrite Ee. apply timeToMinutes_clock. lia. }
  assert (Eend : extendedEnd booking (extend_additionalMinutes args)
                 = clock (e + extend_additionalMinutes args)).
  { unfold extendedEnd. apply window_end; auto; lia. }
  exists s, (e + extend_additionalMinutes args).
  cbn [startTime endTime durationMinutes setEndTime].
  rewrite Eend, Es, !timeToMinutes_clock by lia. repeat split; lia.
Qed.

Lemma run_measured policy qs : forall db,
  Sound db -> Measured db -> allStayWithinDay policy db qs ->
  Measured (run policy db qs).
Proof.
  induction qs as [|q qs IH]; intros db Hs Hm Hqs; simpl; [assumption|].
  destruct Hqs as [Hq Hrest]. apply IH; [now apply execute_sound| |assumption].
  destruct q; simpl.
  - now apply book_measured.
  - now apply cancel_measured.
  - now apply move_measured.
  - now apply extend_measured.
Qed.

End Durations.

(** Stored durations stay true.  From a store without bookings, after
    every sequential execution of requests that stay within the day, each
    active row has a positive [durationMinutes] that is exactly the number
    of minutes from its start text to its end text: a move carries the
    duration to the new start, an extension adds the same minutes to the
    end and to the duration. *)
Theorem duration_is_end_minus_start policy db qs :
  bookings db = [] ->
  allStayWithinDay policy db qs ->
  forall b, In b (bookings (run policy db qs)) -> status b = active ->
    exists s e,
      timeToMinutes (startTime b) = Some s /\ timeToMinutes (endTime b) = Some e
      /\ 0 < durationMinutes b /\ e - s = durationMinutes b.
Proof.
  intros Hempty Hqs.
  apply (run_measured policy qs db); [now apply no_bookings_sound| |assumption].
  intros b Hb. rewrite Hempty in Hb. destruct Hb.
Qed.

(** Alice books 09:00-10:00, extends by 30 minutes and moves to 11:00 of
    the next day: the row reads 11:00-12:30 with a duration of 90. *)
Lemma duration_is_end_minus_start_witness :
  let qs :=
    [ Book Samples.at0
        {| book_roomName := "A"; book_date := "2030-01-07";
           book_startTime := "09:00"; book_duration := 60;
           book_title := "sync" |} Samples.alice;
      Extend Samples.at1
        {| extend_bookingId := "R-LOYW3V28"; extend_additionalMinutes := 30 |}
        Samples.alice;
      Move Samples.at2
        {| move_bookingId := "R-LOYW3V28"; move_date := "2030-01-08";
           move_startTime := "11:00" |} Samples.alice ] in
  let b := hd (Samples.row "" "" "" 0 cancelled)
              (bookings (run defaultPolicy Samples.emptyStore qs)) in
  (date b, startTime b, endTime b, durationMinutes b)
  = ("2030-01-08", "11:00", "12:30", 90)
  /\ exists s e,
       timeToMinutes (startTime b) = Some s /\ timeToMinutes (endTime b) = Some e
       /\ 0 < durationMinutes b /\ e - s = durationMinutes b.
Proof.
  intros qs b. split; [vm_compute; reflexivity|].
  refine (duration_is_end_minus_start defaultPolicy Samples.emptyStore qs
            eq_refl _ b _ _);
    [|vm_compute; left; reflexivity|vm_compute; reflexivity].
  subst qs.
  cbn [allStayWithinDay staysWithinDay
       book_date book_startTime book_duration move_date move_startTime
       move_bookingId extend_bookingId extend_additionalMinutes].
  within_day.
  all: simpl; try lia.
Defined.

(* ================================================================= *)
(** ** Booking identifiers *)

Section BookingIds.

Lemma mapString_length f s : String.length (mapString f s) = String.length s.
Proof. induction s as [|c s IH]; simpl; [reflexivity|now rewrite IH]. Qed.

Lemma toBase36_length k : forall fuel n acc,
  (k < fuel)%nat -> 36 ^ Z.of_nat k <= n < 36 ^ Z.of_nat (S k) ->
  String.length (toBase36 fuel n acc) = (S k + String.length acc)%nat.
Proof.
  induction k as [|k IH]; intros fuel n acc Hfuel Hn;
    (destruct fuel as [|fuel]; [lia|]); cbn [toBase36].
  - change (36 ^ Z.of_nat 0) with 1 in Hn. change (36 ^ Z.of_nat 1) with 36 in Hn.
    rewrite Z.div_small by lia. reflexivity.
  - assert (Hpos : 0 < 36 ^ Z.of_nat k) by (apply Z.pow_pos_nonneg; lia).
    assert (E1 : 36 ^ Z.of_nat (S k) = 36 * 36 ^ Z.of_nat k)
      by (rewrite Nat2Z.inj_succ, Z.pow_succ_r by lia; reflexivity).
    assert (E2 : 36 ^ Z.of_nat (S (S k)) = 36 * 36 ^ Z.of_nat (S k))
      by (rewrite (Nat2Z.inj_succ (S k)), Z.pow_succ_r by lia; reflexivity).
    assert (Hq : 36 ^ Z.of_nat k <= n / 36 < 36 ^ Z.of_nat (S k)).
    { split.
      - apply Z.div_le_lower_bound; lia.
      - apply Z.div_lt_upper_bound; lia. }
    destruct (Z.eqb_spec (n / 36) 0); [lia|].
    rewrite (IH fuel (n / 36)) by (try lia; assumption).
    simpl. lia.
Qed.

Lemma substring_prefix a b :
  substring 0 (String.length a) (a ++ b) = a.
Proof. induction a as [|c a IH]; simpl; [now destruct b|now rewrite IH]. Qed.

Lemma append_assoc_s (a b c : string) : ((a ++ b) ++ c = a ++ b ++ c)%string.
Proof. induction a as [|x a IH]; simpl; [reflexivity|now rewrite IH]. Qed.

Lemma append_length (a b : string) :
  String.length (a ++ b) = (String.length a + String.length b)%nat.
Proof. induction a as [|x a IH]; simpl; [reflexivity|now rewrite IH]. Qed.

End BookingIds.

(** While the clock is between 36^7 and 36^8 milliseconds (from 1972 to
    2059) the identifier is [R-] followed by the eight base-36 digits of
    the millisecond, ten characters in all: the cut at ten characters
    removes the random digits, so the identifier depends on the clock
    alone and two requests in one millisecond get the same one. *)
Theorem generateBookingId_is_the_millisecond env :
  36 ^ 7 <= nowMs env < 36 ^ 8 ->
  generateBookingId env = ("R-" ++ toUpperCase (toString36 (nowMs env)))%string
  /\ String.length (generateBookingId env) = 10%nat
  /\ forall env', nowMs env' = nowMs env ->
                  generateBookingId env' = generateBookingId env.
Proof.
  intros Hnow.
  assert (Hlen : String.length (toUpperCase (toString36 (nowMs env))) = 8%nat).
  { unfold toUpperCase, toString36. rewrite mapString_length.
    rewrite (toBase36_length 7); [reflexivity|lia|exact Hnow]. }
  assert (Hid : forall e, nowMs e = nowMs env ->
            generateBookingId e = ("R-" ++ toUpperCase (toString36 (nowMs env)))%string).
  { intros e He. unfold generateBookingId. rewrite He.
    rewrite <- append_assoc_s.
    replace 10%nat
      with (String.length ("R-" ++ toUpperCase (toString36 (nowMs env))))
      by (rewrite append_length, Hlen; reflexivity).
    apply substring_prefix. }
  split; [now apply Hid|]. split.
  - rewrite (Hid env eq_refl), append_length, Hlen. reflexivity.
  - intros env' He. now rewrite (Hid env' He), (Hid env eq_refl).
Qed.

Lemma generateBookingId_is_the_millisecond_witness :
  generateBookingId {| nowMs := 1700000000000; randomDigits := "k3f" |}
  = generateBookingId {| nowMs := 1700000000000; randomDigits := "9qz" |}.
Proof.
  apply (generateBookingId_is_the_millisecond
           {| nowMs := 1700000000000; randomDigits := "9qz" |}).
  - simpl. lia.
  - reflexivity.
Defined.

(* ================================================================= *)
(** ** Dates *)

Section Calendar.

Lemma doy_bounds doe :
  0 <= doe <= 146096 ->
  let yoe := (doe - doe / 1460 + doe / 36524 - doe / 146096) / 365 in
  0 <= yoe <= 399 /\ 0 <= doe - (365 * yoe + yoe / 4 - yoe / 100) <= 365.
Proof.
  intros H yoe. subst yoe.
  Z.to_euclidean_division_equations; lia.
Qed.

Lemma month_bounds doy :
  0 <= doy <= 365 ->
  let mp := (5 * doy + 2) / 153 in
  0 <= mp <= 11 /\ 1 <= doy - (153 * mp + 2) / 5 + 1 <= 31.
Proof.
  intros H mp. subst mp.
  Z.to_euclidean_division_equations; lia.
Qed.

Lemma daysFromCivil_shifted era yoe mp d :
  0 <= yoe <= 399 -> 0 <= mp <= 11 ->
  let m := if mp <? 10 then mp + 3 else mp - 9 in
  let y := if m <=? 2 then yoe + era * 400 + 1 else yoe + era * 400 in
  daysFromCivil y m d
  = era * 146097 + (yoe * 365 + yoe / 4 - yoe / 100 + ((153 * mp + 2) / 5 + d - 1))
    - 719468.
Proof.
  intros Hyoe Hmp m y. subst m y. unfold daysFromCivil.
  destruct (Z.ltb_spec mp 10) as [Hlt|Hge].
  - destruct (Z.leb_spec (mp + 3) 2); [lia|].
    replace ((yoe + era * 400) / 400) with era
      by (Z.to_euclidean_division_equations; lia).
    replace ((mp + 3 + 9) mod 12) with mp
      by (Z.to_euclidean_division_equations; lia).
    replace (yoe + era * 400 - era * 400) with yoe by lia. reflexivity.
  - destruct (Z.leb_spec (mp - 9) 2); [|lia].
    replace (yoe + era * 400 + 1 - 1) with (yoe + era * 400) by lia.
    replace ((yoe + era * 400) / 400) with era
      by (Z.to_euclidean_division_equations; lia).
    replace ((mp - 9 + 9) mod 12) with mp
      by (Z.to_euclidean_division_equations; lia).
    replace (yoe + era * 400 - era * 400) with yoe by lia. reflexivity.
Qed.

(** The calendar date of a day number, and the day number of that date. *)
Lemma civilFromDays_spec n :
  0 <= n < 2932897 ->
  exists y m d,
    civilFromDays n = (y, m, d)
    /\ 1970 <= y <= 9999 /\ 1 <= m <= 12 /\ 1 <= d <= 31
    /\ daysFromCivil y m d = n.
Proof.
  intros Hn. unfold civilFromDays.
  set (z := n + 719468).
  set (era := z / 146097).
  set (doe := z - era * 146097).
  assert (Hdoe : 0 <= doe <= 146096)
    by (subst doe era; Z.to_euclidean_division_equations; lia).
  pose proof (doy_bounds doe Hdoe) as Hy. cbv zeta in Hy.
  set (yoe := (doe - doe / 1460 + doe / 36524 - doe / 146096) / 365) in *.
  destruct Hy as [Hyoe Hdoy].
  set (doy := doe - (365 * yoe + yoe / 4 - yoe / 100)) in *.
  pose proof (month_bounds doy Hdoy) as Hm. cbv zeta in Hm.
  set (mp := (5 * doy + 2) / 153) in *.
  destruct Hm as [Hmp Hd].
  set (d := doy - (153 * mp + 2) / 5 + 1) in *.
  eexists _, _, _. split; [reflexivity|].
  split; [|split; [|split; [exact Hd|]]].
  - assert (Hera : 4 <= era <= 24)
      by (subst era z; Z.to_euclidean_division_equations; lia).
    assert (Hlow : era = 4 -> 369 <= yoe /\ (yoe = 369 -> 306 <= doy)).
    { intros E. assert (Hz : doe = n + 135080) by (subst doe z; lia).
      subst doy yoe. clearbody doe. Z.to_euclidean_division_equations; lia. }
    assert (Hhigh : era = 24 -> yoe <= 399 /\ (yoe = 399 -> doy <= 305)).
    { intros E. assert (Hz : doe = n - 2786860) by (subst doe z; lia).
      subst doy yoe. clearbody doe. Z.to_euclidean_division_equations; lia. }
    assert (Hmp' : (mp <= 9 <-> doy <= 305))
      by (subst mp; clearbody doy; Z.to_euclidean_division_equations; lia).
    clearbody mp doy yoe era.
    destruct (Z.ltb_spec mp 10) as [Hlt|Hge].
    + destruct (Z.leb_spec (mp + 3) 2); lia.
    + destruct (Z.leb_spec (mp - 9) 2); lia.
  - clearbody mp. destruct (Z.ltb_spec mp 10); lia.
  - rewrite (daysFromCivil_shifted era yoe mp d Hyoe Hmp).
    subst d doy doe z. lia.
Qed.

Lemma digit_pair k :
  0 <= k <= 99 -> 0 <= k / 10 <= 9 /\ 0 <= k mod 10 <= 9.
Proof. intros H. Z.to_euclidean_division_equations; lia. Qed.

Lemma dateToDays_formatDate n :
  0 <= n < 2932897 -> dateToDays (formatDate n) = Some n.
Proof.
  intros Hn.
  destruct (civilFromDays_spec n Hn) as (y & m & d & E & Hy & Hm & Hd & Hback).
  unfold formatDate. rewrite E. unfold twoDigits.
  cbn [String.append]. unfold dateToDays. cbn [list_ascii_of_string].
  assert (Hc : 0 <= y / 100 <= 99 /\ 0 <= y mod 100 <= 99)
    by (Z.to_euclidean_division_equations; lia).
  destruct Hc as [Hc1 Hc2].
  destruct (digit_pair (y / 100) Hc1), (digit_pair (y mod 100) Hc2),
    (digit_pair m ltac:(lia)), (digit_pair d ltac:(lia)).
  cbn [forallb]. rewrite !isDigit_digitChar by assumption. cbn [andb].
  cbn [digitsValue]. rewrite !digitVal_digitChar by assumption.
  replace ((((0 * 10 + y / 100 / 10) * 10 + (y / 100) mod 10) * 10
            + (y mod 100) / 10) * 10 + (y mod 100) mod 10) with y
    by (Z.to_euclidean_division_equations; lia).
  replace ((0 * 10 + m / 10) * 10 + m mod 10) with m
    by (Z.to_euclidean_division_equations; lia).
  replace ((0 * 10 + d / 10) * 10 + d mod 10) with d
    by (Z.to_euclidean_division_equations; lia).
  replace ((1 <=? m) && (m <=? 12) && (1 <=? d) && (d <=? 31)) with true by lia.
  now rewrite Hback.
Qed.

Lemma formatDate_length n : String.length (formatDate n) = 10%nat.
Proof.
  unfold formatDate. now destruct (civilFromDays n) as [[y m] d].
Qed.

Lemma dateToDays_length s n : dateToDays s = Some n -> String.length s = 10%nat.
Proof.
  unfold dateToDays.
  destruct s as [|c1 [|c2 [|c3 [|c4 [|c5 [|c6 [|c7 [|c8 [|c9 [|c10 [|c11 s]]]]]]]]]]];
    try discriminate. reflexivity.
Qed.

Lemma toLowerCase_length s : String.length (toLowerCase s) = String.length s.
Proof.
  unfold toLowerCase. induction s as [|c s IH]; simpl; [reflexivity|now rewrite IH].
Qed.

Lemma eqb_length_neq a b :
  String.length a <> String.length b -> String.eqb a b = false.
Proof. intros H. apply String.eqb_neq. congruence. Qed.

(** A ten-character text is none of the date keywords. *)
Lemma parseKoreanDate_explicit nowMs s :
  String.length s = 10%nat ->
  parseKoreanDate nowMs s
  = match dateToDays s with
    | Some n => if String.eqb (formatDate n) s then Some (formatDate n) else None
    | None => None
    end.
Proof.
  intros Hlen. unfold parseKoreanDate.
  rewrite !(eqb_length_neq (toLowerCase s))
    by (rewrite toLowerCase_length, Hlen; simpl; lia).
  reflexivity.
Qed.

(** Every date [parseKoreanDate] returns is canonical. *)
Lemma parseKoreanDate_Some nowMs arg day :
  0 <= nowMs < 2932896 * 86400000 ->
  parseKoreanDate nowMs arg = Some day -> canonicalDate day.
Proof.
  intros Hnow Hparse.
  assert (Htoday : 0 <= nowMs / 86400000 < 2932896)
    by (Z.to_euclidean_division_equations; lia).
  unfold parseKoreanDate in Hparse.
  destruct (_ || _) in Hparse.
  - injection Hparse as <-. exists (nowMs / 86400000).
    split; [apply dateToDays_formatDate; lia|reflexivity].
  - destruct (_ || _) in Hparse.
    + injection Hparse as <-. exists (nowMs / 86400000 + 1).
      split; [apply dateToDays_formatDate; lia|reflexivity].
    + destruct (dateToDays arg) as [n|] eqn:E; [|discriminate].
      destruct (String.eqb_spec (formatDate n) arg) as [Hs|]; [|discriminate].
      injection Hparse as <-. exists n. now rewrite Hs.
Qed.

Lemma todayText_canonical nowMs :
  0 <= nowMs < 2932896 * 86400000 -> canonicalDate (todayText nowMs).
Proof.
  intros Hnow. apply (parseKoreanDate_Some nowMs "today"); [assumption|reflexivity].
Qed.

End Calendar.

(** Dates the bot prints are dates it reads: for every day from 1970-01-01
    to 9999-12-31 the [YYYY-MM-DD] text of the day has ten characters,
    denotes that day, and is accepted unchanged by [parseKoreanDate] at any
    clock. *)
Theorem formatDate_round_trip n nowMs :
  0 <= n < 2932897 ->
  String.length (formatDate n) = 10%nat
  /\ dateToDays (formatDate n) = Some n
  /\ parseKoreanDate nowMs (formatDate n) = Some (formatDate n).
Proof.
  intros Hn. split; [apply formatDate_length|].
  split; [now apply dateToDays_formatDate|].
  rewrite parseKoreanDate_explicit by apply formatDate_length.
  rewrite dateToDays_formatDate by assumption.
  now rewrite String.eqb_refl.
Qed.

Lemma formatDate_round_trip_witness :
  formatDate 21921 = "2030-01-07"
  /\ dateToDays (formatDate 21921) = Some 21921
  /\ parseKoreanDate 0 (formatDate 21921) = Some (formatDate 21921).
Proof.
  split; [reflexivity|].
  apply (formatDate_round_trip 21921 0). lia.
Defined.

(** What [parseKoreanDate] accepts, at a clock between 1970 and the last
    day but one of 9999: the result is always a canonical date text, one
    that denotes a day and is the text of that day, and parsing it again,
    at any clock, gives it back; [today] and [tomorrow], in either
    language and in any letter case, denote the day of the clock and the
    day after it. *)
Theorem parseKoreanDate_canonical nowMs arg day :
  0 <= nowMs < 2932896 * 86400000 ->
  parseKoreanDate nowMs arg = Some day ->
  (exists n, dateToDays day = Some n /\ formatDate n = day)
  /\ (forall nowMs', parseKoreanDate nowMs' day = Some day)
  /\ (forall word, In word ["today"; "TODAY"; "Today"; "오늘"] ->
        option_map dateToDays (parseKoreanDate nowMs word)
        = Some (Some (nowMs / 86400000)))
  /\ (forall word, In word ["tomorrow"; "TOMORROW"; "Tomorrow"; "내일"] ->
        option_map dateToDays (parseKoreanDate nowMs word)
        = Some (Some (nowMs / 86400000 + 1))).
Proof.
  intros Hnow Hparse.
  assert (Htoday : 0 <= nowMs / 86400000 < 2932896)
    by (Z.to_euclidean_division_equations; lia).
  assert (Hcanon : exists n, dateToDays day = Some n /\ formatDate n = day)
    by (eapply parseKoreanDate_Some; eauto).
  split; [exact Hcanon|]. split; [|split].
  - intros nowMs'. destruct Hcanon as (n & Hn & Hs).
    rewrite parseKoreanDate_explicit by (eapply dateToDays_length; eauto).
    now rewrite Hn, Hs, String.eqb_refl.
  - intros word Hw. simpl in Hw.
    assert (E : parseKoreanDate nowMs word = Some (formatDate (nowMs / 86400000)))
      by (destruct Hw as [<-|[<-|[<-|[<-|[]]]]]; reflexivity).
    rewrite E. simpl. now rewrite dateToDays_formatDate by lia.
  - intros word Hw. simpl in Hw.
    assert (E : parseKoreanDate nowMs word
                = Some (formatDate (nowMs / 86400000 + 1)))
      by (destruct Hw as [<-|[<-|[<-|[<-|[]]]]]; reflexivity).
    rewrite E. simpl. now rewrite dateToDays_formatDate by lia.
Qed.

Lemma parseKoreanDate_canonical_witness :
  parseKoreanDate 1700000000000 "2024-02-29" = Some "2024-02-29"
  /\ option_map dateToDays (parseKoreanDate 1700000000000 "내일")
     = Some (Some (1700000000000 / 86400000 + 1)).
Proof.
  split; [reflexivity|].
  apply (parseKoreanDate_canonical 1700000000000 "2024-02-29" "2024-02-29");
    [lia|reflexivity|simpl; auto].
Defined.

(* ================================================================= *)
(** ** The tokenizer and the parser *)

Section Tokens.

Lemma list_ascii_app (a b : string) :
  list_ascii_of_string (a ++ b) = list_ascii_of_string a ++ list_ascii_of_string b.
Proof. induction a as [|c a IH]; simpl; [reflexivity|now rewrite IH]. Qed.

Lemma string_of_list_ascii_nonempty (l : list ascii) :
  l <> [] -> string_of_list_ascii l <> "".
Proof. destruct l; [congruence|discriminate]. Qed.

Lemma pushPart_nonempty current parts :
  Forall (fun p => p <> "") parts ->
  Forall (fun p => p <> "") (pushPart current parts).
Proof.
  intros H. destruct current as [|c l]; simpl; [assumption|].
  apply Forall_app. split; [assumption|]. constructor; [discriminate|constructor].
Qed.

Lemma splitLoop_nonempty input : forall current inQuotes quoteChar parts,
  Forall (fun p => p <> "") parts ->
  Forall (fun p => p <> "") (splitLoop input current inQuotes quoteChar parts).
Proof.
  induction input as [|c input IH]; intros current inQuotes quoteChar parts H;
    simpl.
  - now apply pushPart_nonempty.
  - repeat match goal with
    | |- context [if ?b then _ else _] => destruct b
    end; apply IH; auto using pushPart_nonempty.
Qed.

(** Outside a quotation a run of plain characters goes to the current
    token. *)
Lemma splitLoop_plain w : forall rest current parts,
  forallb plainChar w = true ->
  splitLoop (w ++ rest) current false None parts
  = splitLoop rest (current ++ w) false None parts.
Proof.
  induction w as [|c w IH]; intros rest current parts Hw; simpl.
  - now rewrite List.app_nil_r.
  - simpl in Hw. apply andb_true_iff in Hw as [Hc Hw].
    unfold plainChar in Hc.
    apply andb_true_iff in Hc as [Hc Hs]. apply andb_true_iff in Hc as [Hsp Hd].
    apply negb_true_iff in Hsp, Hd, Hs. rewrite Hsp, Hd, Hs. simpl.
    rewrite IH by assumption. f_equal.
    symmetry. apply (List.app_assoc current [c]).
Qed.

(** Inside a double quotation everything up to the closing quote goes to
    the current token. *)
Lemma splitLoop_inside t : forall rest current parts,
  forallb (fun c => negb (Ascii.eqb c doubleQuote)) t = true ->
  splitLoop (t ++ doubleQuote :: rest) current true (Some doubleQuote) parts
  = splitLoop rest (current ++ t) false None parts.
Proof.
  induction t as [|c t IH]; intros rest current parts Ht.
  - cbn [app splitLoop]. rewrite Ascii.eqb_refl. cbn [orb andb negb].
    now rewrite List.app_nil_r.
  - cbn [forallb] in Ht. apply andb_true_iff in Ht as [Hc Ht].
    apply negb_true_iff in Hc.
    cbn [app splitLoop negb]. rewrite Hc, !Bool.andb_false_r. cbn [andb].
    rewrite IH by assumption. f_equal.
    symmetry. apply (List.app_assoc current [c]).
Qed.

Lemma splitLoop_space rest current parts :
  splitLoop (" "%char :: rest) current false None parts
  = splitLoop rest [] false None (pushPart current parts).
Proof. reflexivity. Qed.

Lemma splitLoop_open rest current parts :
  splitLoop (doubleQuote :: rest) current false None parts
  = splitLoop rest current true (Some doubleQuote) parts.
Proof. reflexivity. Qed.

Lemma pushPart_word w parts :
  w <> "" -> pushPart (list_ascii_of_string w) parts = parts ++ [w].
Proof.
  intros Hw. unfold pushPart. destruct (list_ascii_of_string w) eqn:E.
  - destruct w; [congruence|discriminate].
  - now rewrite <- E, string_of_list_ascii_of_string.
Qed.

Lemma concat_cons w w' ws :
  String.concat " " (w :: w' :: ws) = (w ++ " " ++ String.concat " " (w' :: ws))%string.
Proof. reflexivity. Qed.

(** Plain words joined by single spaces, followed by anything. *)
Lemma splitLoop_words ws : forall rest parts,
  Forall plainWord ws ->
  splitLoop (list_ascii_of_string (String.concat " " ws)
             ++ " "%char :: rest) [] false None parts
  = splitLoop rest [] false None
      (match ws with [] => parts | _ => parts ++ ws end).
Proof.
  induction ws as [|w ws IH]; intros rest parts Hws.
  - reflexivity.
  - inversion Hws as [|? ? [Hne Hplain] Hrest]; subst.
    destruct ws as [|w' ws].
    + cbn [String.concat]. rewrite splitLoop_plain by assumption.
      rewrite splitLoop_space. cbn [app]. now rewrite pushPart_word.
    + rewrite concat_cons, !list_ascii_app, <- !List.app_assoc.
      rewrite splitLoop_plain by assumption.
      cbn [list_ascii_of_string app]. rewrite splitLoop_space.
      rewrite pushPart_word by assumption.
      rewrite (IH rest (parts ++ [w]) Hrest).
      now rewrite <- List.app_assoc.
Qed.

Lemma splitLoop_last_word ws : forall parts,
  Forall plainWord ws ->
  splitLoop (list_ascii_of_string (String.concat " " ws)) [] false None parts
  = parts ++ ws.
Proof.
  induction ws as [|w ws IH]; intros parts Hws.
  - cbn. now rewrite List.app_nil_r.
  - inversion Hws as [|? ? [Hne Hplain] Hrest]; subst.
    destruct ws as [|w' ws].
    + cbn [String.concat].
      rewrite <- (List.app_nil_r (list_ascii_of_string w)).
      rewrite splitLoop_plain by assumption. cbn [splitLoop app].
      now rewrite pushPart_word.
    + rewrite concat_cons, !list_ascii_app.
      rewrite splitLoop_plain by assumption.
      cbn [list_ascii_of_string app]. rewrite splitLoop_space.
      rewrite pushPart_word by assumption.
      rewrite (IH (parts ++ [w]) Hrest).
      now rewrite <- List.app_assoc.
Qed.

(** Plain words and a closing text in double quotes. *)
Lemma splitCommandParts_quoted_tail ws t :
  Forall plainWord ws ->
  t <> "" ->
  forallb (fun c => negb (Ascii.eqb c doubleQuote)) (list_ascii_of_string t) = true ->
  splitCommandParts (String.concat " " ws ++ " " ++ quoted t) = ws ++ [t].
Proof.
  intros Hws Ht Hq. unfold splitCommandParts.
  rewrite list_ascii_app. cbn [String.append list_ascii_of_string].
  rewrite (splitLoop_words ws _ [] Hws).
  unfold quoted. cbn [list_ascii_of_string]. rewrite splitLoop_open.
  rewrite list_ascii_app. cbn [list_ascii_of_string].
  rewrite splitLoop_inside by assumption. cbn [splitLoop app].
  rewrite pushPart_word by assumption.
  destruct ws; reflexivity.
Qed.

End Tokens.

(** The tokenizer undoes joining: words of plain characters joined by
    single spaces come back as they were, and a trailing text in double
    quotes comes back as one token without its quotes, spaces included. *)
Theorem splitCommandParts_join ws t :
  Forall plainWord ws ->
  t <> "" ->
  forallb (fun c => negb (Ascii.eqb c doubleQuote)) (list_ascii_of_string t) = true ->
  splitCommandParts (String.concat " " ws) = ws
  /\ splitCommandParts (String.concat " " ws ++ " " ++ quoted t) = ws ++ [t].
Proof.
  intros Hws Ht Hq. split.
  - unfold splitCommandParts. now rewrite splitLoop_last_word.
  - now apply splitCommandParts_quoted_tail.
Qed.

Lemma splitCommandParts_join_witness :
  splitCommandParts (String.concat " " ["move"; "R-1"; "tomorrow"; "9:30"])
  = ["move"; "R-1"; "tomorrow"; "9:30"]
  /\ splitCommandParts
       (String.concat " " ["move"; "R-1"; "tomorrow"; "9:30"] ++ " "
        ++ quoted "a b 'c'")
     = ["move"; "R-1"; "tomorrow"; "9:30"] ++ ["a b 'c'"].
Proof.
  apply splitCommandParts_join.
  - repeat constructor; discriminate.
  - discriminate.
  - reflexivity.
Defined.

Section ParserFacts.

Lemma splitCommandParts_nonempty s :
  Forall (fun p => p <> "") (splitCommandParts s).
Proof. unfold splitCommandParts. apply splitLoop_nonempty. constructor. Qed.

Lemma upperChar_idempotent c : upperChar (upperChar c) = upperChar c.
Proof. destruct c as [[] [] [] [] [] [] [] []]; reflexivity. Qed.

Lemma toUpperCase_idempotent s : toUpperCase (toUpperCase s) = toUpperCase s.
Proof.
  unfold toUpperCase. induction s as [|c s IH]; simpl; [reflexivity|].
  now rewrite upperChar_idempotent, IH.
Qed.

Lemma toUpperCase_nonempty s : s <> "" -> toUpperCase s <> "".
Proof. destruct s; [congruence|discriminate]. Qed.

Ltac parsed H :=
  injection H as <-;
  cbn [intent wellFormedIntent book_roomName book_date book_startTime
       book_duration book_title cancel_bookingId move_bookingId move_date
       move_startTime extend_bookingId extend_additionalMinutes status_date].

Lemma parseStatusCommand_wf policy nowMs args raw_ c :
  0 <= nowMs < 2932896 * 86400000 ->
  parseStatusCommand nowMs args raw_ = ParseOk c ->
  wellFormedIntent policy (intent c).
Proof.
  intros Hclock. unfold parseStatusCommand. destruct args as [|firstArg more].
  - intros H. parsed H.
    eexists; split; [reflexivity|now apply todayText_canonical].
  - destruct (_ || _).
    + intros H. parsed H.
      eexists; split; [reflexivity|now apply todayText_canonical].
    + destruct (_ && _).
      * intros H. parsed H.
        eexists; split; [reflexivity|now apply todayText_canonical].
      * destruct (parseKoreanDate nowMs firstArg) as [day|] eqn:E; [|discriminate].
        intros H. parsed H.
        eexists; split; [reflexivity|eapply parseKoreanDate_Some; eauto].
Qed.

Lemma parseBookCommand_wf policy nowMs args raw_ c :
  0 <= nowMs < 2932896 * 86400000 ->
  Forall (fun p => p <> "") args ->
  parseBookCommand policy nowMs args raw_ = ParseOk c ->
  wellFormedIntent policy (intent c).
Proof.
  intros Hclock Hargs. unfold parseBookCommand.
  destruct args as [|roomName_ [|dateArg [|startTime_ [|durationStr [|t0 ts]]]]];
    try discriminate.
  destruct (parseKoreanDate nowMs dateArg) as [day|] eqn:Ed; [|discriminate].
  destruct (timeRegex_test startTime_) eqn:Et; [|discriminate]. cbn [negb].
  destruct (parseInt durationStr) as [duration|]; [|discriminate].
  destruct (Z.leb_spec duration 0) as [?|Hpos]; [discriminate|].
  destruct (Z.ltb_spec duration (minDurationMinutes policy)) as [?|Hmin];
    [discriminate|].
  destruct (Z.gtb_spec duration (maxDurationMinutes policy)) as [?|Hmax];
    [discriminate|].
  intros Hok. parsed Hok.
  inversion Hargs; subst.
  assert (Htitle : (if String.eqb (trim (String.concat " " (t0 :: ts))) ""
                    then "회의" else trim (String.concat " " (t0 :: ts))) <> "").
  { destruct (String.eqb_spec (trim (String.concat " " (t0 :: ts))) "");
      [discriminate|assumption]. }
  split; [assumption|].
  split; [eapply parseKoreanDate_Some; eauto|]. split; [assumption|].
  split; [lia|]. split; [lia|exact Htitle].
Qed.

Lemma parseCancelCommand_wf policy args raw_ c :
  Forall (fun p => p <> "") args ->
  parseCancelCommand args raw_ = ParseOk c ->
  wellFormedIntent policy (intent c).
Proof.
  intros Hargs. unfold parseCancelCommand. destruct args as [|bid more];
    [discriminate|].
  intros H. parsed H. inversion Hargs; subst.
  split; [now apply toUpperCase_nonempty|apply toUpperCase_idempotent].
Qed.

Lemma parseMoveCommand_wf policy nowMs args raw_ c :
  0 <= nowMs < 2932896 * 86400000 ->
  Forall (fun p => p <> "") args ->
  parseMoveCommand nowMs args raw_ = ParseOk c ->
  wellFormedIntent policy (intent c).
Proof.
  intros Hclock Hargs. unfold parseMoveCommand.
  destruct args as [|bid [|dateArg [|startTime_ more]]]; try discriminate.
  destruct (parseKoreanDate nowMs dateArg) as [day|] eqn:Ed; [|discriminate].
  destruct (timeRegex_test startTime_) eqn:Et; [|discriminate]. cbn [negb].
  intros H. parsed H. inversion Hargs; subst.
  split; [split; [now apply toUpperCase_nonempty|apply toUpperCase_idempotent]|].
  split; [eapply parseKoreanDate_Some; eauto|assumption].
Qed.

Lemma parseExtendCommand_wf policy args raw_ c :
  Forall (fun p => p <> "") args ->
  parseExtendCommand args raw_ = ParseOk c ->
  wellFormedIntent policy (intent c).
Proof.
  intros Hargs. unfold parseExtendCommand.
  destruct args as [|bid [|minutesStr more]]; try discriminate.
  destruct (parseInt minutesStr) as [minutes|]; [|discriminate].
  destruct (Z.leb_spec minutes 0) as [?|Hpos]; [discriminate|].
  intros Hok. parsed Hok. inversion Hargs; subst.
  repeat split; eauto using toUpperCase_nonempty, toUpperCase_idempotent.
Qed.

Lemma parseListCommand_wf policy nowMs args raw_ c :
  0 <= nowMs < 2932896 * 86400000 ->
  parseListCommand nowMs args raw_ = ParseOk c ->
  wellFormedIntent policy (intent c).
Proof.
  intros Hclock. unfold parseListCommand. destruct args as [|dateArg more].
  - intros H. parsed H. exact I.
  - destruct (_ || _).
    + intros H. parsed H. exact I.
    + destruct (parseKoreanDate nowMs dateArg) as [day|] eqn:E; [|discriminate].
      intros H. parsed H. eapply parseKoreanDate_Some; eauto.
Qed.

End ParserFacts.

(** Every command the parser accepts, at a clock between 1970 and 9999, is
    well formed: a book carries a non-empty room name, a canonical date, a
    start text of the clock pattern, a positive duration within the policy
    bounds and a non-empty title; cancel, move and extend carry a non-empty
    identifier already in upper case; a move carries a canonical date and a
    start text of the clock pattern; an extend a positive number of
    minutes; a status always carries a canonical date, and so does a list
    of a day. *)
Theorem parseCommand_well_formed policy nowMs data_ c :
  0 <= nowMs < 2932896 * 86400000 ->
  parseCommand policy nowMs data_ = ParseOk c ->
  wellFormedIntent policy (intent c).
Proof.
  intros Hclock. unfold parseCommand.
  destruct (String.eqb (trim data_) ""); [intros H; injection H as <-; exact I|].
  pose proof (splitCommandParts_nonempty (trim data_)) as Hparts.
  destruct (splitCommandParts (trim data_)) as [|word args]; [discriminate|].
  inversion Hparts as [|? ? _ Hargs]; subst. cbn [tl].
  destruct (lookupCommand (toLowerCase word) commandMap) as [[]|];
    try discriminate.
  - now apply parseStatusCommand_wf.
  - now apply parseBookCommand_wf.
  - now apply parseCancelCommand_wf.
  - now apply parseMoveCommand_wf.
  - now apply parseExtendCommand_wf.
  - unfold parseMyCommand. intros H. injection H as <-. exact I.
  - intros H. injection H as <-. exact I.
  - now apply parseListCommand_wf.
Qed.

Lemma parseCommand_well_formed_witness :
  wellFormedIntent defaultPolicy
    (IMove {| move_bookingId := "R-1"; move_date := "2023-11-15";
              move_startTime := "9:30" |}).
Proof.
  apply (parseCommand_well_formed defaultPolicy 1700000000000
           "move r-1 tomorrow 9:30"
           {| intent := IMove {| move_bookingId := "R-1";
                                 move_date := "2023-11-15";
                                 move_startTime := "9:30" |};
              raw := "move r-1 tomorrow 9:30" |}); [lia|reflexivity].
Defined.

(* ================================================================= *)
(** ** The book command, from text to intent *)

Section BookText.

Lemma dropSpaces_head c l : isSpace c = false -> dropSpaces (c :: l) = c :: l.
Proof. intros H. simpl. now rewrite H. Qed.

(** A text that begins and ends with something other than white space is
    its own trimming. *)
Lemma trim_tight s c r l q :
  s = String c r -> list_ascii_of_string s = l ++ [q] ->
  isSpace c = false -> isSpace q = false ->
  trim s = s.
Proof.
  intros Hs Hl Hc Hq. unfold trim.
  assert (Hdrop : dropSpaces (list_ascii_of_string s) = l ++ [q]).
  { rewrite <- Hl, Hs. cbn [list_ascii_of_string]. now apply dropSpaces_head. }
  rewrite Hdrop, rev_app_distr. cbn [rev app].
  rewrite dropSpaces_head by assumption.
  cbn [rev]. rewrite rev_involutive, <- Hl.
  apply string_of_list_ascii_of_string.
Qed.

End BookText.

(** The book command of the README, in general: the keyword, a room word,
    a date word that [parseKoreanDate] accepts, a start that the time
    pattern accepts, a duration in decimal within the policy bounds, and a
    title in double quotes, joined by single spaces, parse to the book
    intent with exactly these values; the title is the quoted text,
    trimmed, spaces inside it kept. *)
Theorem parseCommand_book policy nowMs keyword room dateArg day start
    durText duration title :
  In keyword ["book"; "BOOK"; "Book"; "예약"] ->
  plainWord room -> plainWord dateArg -> plainWord start -> plainWord durText ->
  parseKoreanDate nowMs dateArg = Some day ->
  timeRegex_test start = true ->
  parseInt durText = Some duration ->
  0 < duration ->
  minDurationMinutes policy <= duration <= maxDurationMinutes policy ->
  trim title <> "" ->
  forallb (fun c => negb (Ascii.eqb c doubleQuote)) (list_ascii_of_string title)
    = true ->
  let text := (String.concat " " [keyword; room; dateArg; start; durText]
               ++ " " ++ quoted title)%string in
  parseCommand policy nowMs text
  = ParseOk {| intent := IBook {| book_roomName := room; book_date := day;
                                  book_startTime := start;
                                  book_duration := duration;
                                  book_title := trim title |};
               raw := text |}.
Proof.
  intros Hkey Hroom Hdate Hstart Hdur Hday Htime Hint Hpos Hbounds Htitle Hquote
    text.
  assert (Hne : title <> "") by (intros ->; now apply Htitle).
  assert (Hword : plainWord keyword).
  { simpl in Hkey. destruct Hkey as [<-|[<-|[<-|[<-|[]]]]];
      split; try discriminate; reflexivity. }
  assert (Hlook : lookupCommand (toLowerCase keyword) commandMap = Some CmdBook).
  { simpl in Hkey. destruct Hkey as [<-|[<-|[<-|[<-|[]]]]]; reflexivity. }
  assert (Htrim : trim text = text).
  { assert (Hlast : list_ascii_of_string text
                    = (list_ascii_of_string
                         (String.concat " " [keyword; room; dateArg; start; durText])
                       ++ " "%char :: doubleQuote :: list_ascii_of_string title)
                      ++ [doubleQuote]).
    { subst text. unfold quoted. rewrite !list_ascii_app.
      cbn [list_ascii_of_string String.append].
      rewrite list_ascii_app. cbn [list_ascii_of_string].
      rewrite <- List.app_assoc. reflexivity. }
    simpl in Hkey. destruct Hkey as [<-|[<-|[<-|[<-|[]]]]];
      (eapply trim_tight; [reflexivity|exact Hlast|reflexivity|reflexivity]). }
  unfold parseCommand. rewrite Htrim.
  assert (Hnonempty : String.eqb text "" = false).
  { apply String.eqb_neq. subst text. simpl in Hkey.
    destruct Hkey as [<-|[<-|[<-|[<-|[]]]]]; discriminate. }
  rewrite Hnonempty.
  subst text.
  rewrite splitCommandParts_quoted_tail; try assumption;
    [|repeat (constructor; [assumption|]); constructor].
  cbn [app tl]. rewrite Hlook.
  unfold parseBookCommand. rewrite Hday, Htime. cbn [negb]. rewrite Hint.
  replace (duration <=? 0) with false by lia.
  replace (duration <? minDurationMinutes policy) with false by lia.
  replace (duration >? maxDurationMinutes policy) with false by lia.
  cbn [String.concat].
  apply String.eqb_neq in Htitle. now rewrite Htitle.
Qed.

Lemma parseCommand_book_witness :
  parseCommand defaultPolicy 1700000000000
    (String.concat " " ["Book"; "A"; "tomorrow"; "9:30"; "45"] ++ " "
     ++ quoted " weekly  sync ")
  = ParseOk {| intent := IBook {| book_roomName := "A";
                                  book_date := "2023-11-15";
                                  book_startTime := "9:30";
                                  book_duration := 45;
                                  book_title := trim " weekly  sync " |};
               raw := (String.concat " " ["Book"; "A"; "tomorrow"; "9:30"; "45"]
                       ++ " " ++ quoted " weekly  sync ")%string |}.
Proof.
  apply (parseCommand_book defaultPolicy 1700000000000 "Book" "A" "tomorrow"
           "2023-11-15" "9:30" "45" 45 " weekly  sync ");
    try reflexivity; try discriminate; try (split; [discriminate|reflexivity]).
  - simpl. auto.
  - simpl. lia.
Defined.

(* ================================================================= *)
(** ** The routes *)

Section Routes.

Lemma handleCommand_audit_origin policy clock payload db answer :
  response (handleCommand policy clock payload db) = inl answer ->
  exists entry,
    audit_logs (store (handleCommand policy clock payload db))
    = audit_logs db ++ [entry]
    /\ log_ipAddress entry = ip payload
    /\ log_userEmail entry = writerEmail payload
    /\ log_roomName entry = roomName payload.
Proof.
  unfold handleCommand, logCommand.
  destruct (parseCommand policy (nowMs (handlerEnv clock)) (data payload))
    as [command|parseError].
  - destruct (dispatch policy clock command payload db) as [[result db1]|thrown]
      eqn:Hd; destruct (auditFault clock); try discriminate; intros _.
    + apply dispatch_keeps_audit in Hd.
      eexists. cbn. rewrite Hd. repeat split.
    + eexists. cbn. repeat split.
  - destruct (auditFault clock); [discriminate|]. intros _.
    eexists. cbn. repeat split.
Qed.

Lemma room_id_below_next db r :
  In r (rooms db) -> room_id r < nextRoomId db.
Proof.
  unfold nextRoomId. induction (rooms db) as [|x l IH]; simpl; [tauto|].
  intros [<-|Hin]; [lia|]. specialize (IH Hin). lia.
Qed.

Lemma find_snoc_fresh {A} (p : A -> bool) l x :
  (forall y, In y l -> p y = false) ->
  find p (l ++ [x]) = if p x then Some x else None.
Proof.
  induction l as [|y l IH]; intros H; simpl; [reflexivity|].
  rewrite (H y (or_introl eq_refl)). apply IH. intros z Hz. apply H. now right.
Qed.

Lemma find_snoc_found {A} (p : A -> bool) l x y :
  find p l = Some y -> find p (l ++ [x]) = Some y.
Proof.
  induction l as [|z l IH]; simpl; [discriminate|].
  destruct (p z); auto.
Qed.

Lemma find_none_all {A} (p : A -> bool) l :
  find p l = None <-> forall y, In y l -> p y = false.
Proof.
  induction l as [|z l IH]; simpl.
  - split; [intros _ y []|reflexivity].
  - destruct (p z) eqn:E.
    + split; [discriminate|]. intros H. specialize (H z (or_introl eq_refl)).
      congruence.
    + rewrite IH. split.
      * intros H y [<-|Hy]; auto.
      * intros H y Hy. apply H. now right.
Qed.

Lemma createRoom_Some db room found db' :
  createRoom db room = Some (found, db') ->
  found = Some (storedRoom db room)
  /\ db' = withRooms db (rooms db ++ [storedRoom db room])
  /\ forall r, In r (rooms db) ->
        room_name r <> room_name room /\ room_email r <> room_email room.
Proof.
  unfold createRoom. fold (storedRoom db room).
  destruct (existsb _ (rooms db)) eqn:Hdup; [discriminate|].
  intros H. injection H as <- <-. split; [|split; [reflexivity|]].
  - unfold getRoomById. cbn [rooms withRooms].
    rewrite find_snoc_fresh.
    + cbn [room_id storedRoom]. now rewrite Z.eqb_refl.
    + intros y Hy. apply room_id_below_next in Hy. lia.
  - intros r Hr.
    assert (Hr' : String.eqb (room_name r) (room_name room)
                  || String.eqb (room_email r) (room_email room) = false).
    { destruct (_ || _) eqn:E; [|reflexivity].
      assert (existsb (fun r0 => String.eqb (room_name r0) (room_name room)
                                 || String.eqb (room_email r0) (room_email room))
                      (rooms db) = true)
        by (apply existsb_exists; eauto).
      congruence. }
    apply orb_false_iff in Hr' as [Hn He].
    apply String.eqb_neq in Hn. apply String.eqb_neq in He. auto.
Qed.

Lemma createRoom_None db room :
  createRoom db room = None ->
  exists r, In r (rooms db)
            /\ (room_name r = room_name room \/ room_email r = room_email room).
Proof.
  unfold createRoom.
  destruct (existsb _ (rooms db)) eqn:Hdup; [|discriminate]. intros _.
  apply existsb_exists in Hdup as (r & Hr & Hsame).
  exists r. split; [assumption|].
  apply orb_true_iff in Hsame as [H|H]; apply String.eqb_eq in H; auto.
Qed.

Lemma requireAdminAuth_true adminKey apiKey :
  requireAdminAuth adminKey apiKey = true <-> keyAccepted adminKey apiKey.
Proof.
  unfold requireAdminAuth, keyAccepted, truthy. split.
  - destruct adminKey as [key|]; [|discriminate]. intros H.
    apply andb_true_iff in H as [Hne Heq].
    destruct apiKey as [sent|]; [|discriminate].
    apply String.eqb_eq in Heq. subst sent. exists key.
    destruct (String.eqb_spec key ""); [discriminate|]. auto.
  - intros (key & -> & Hne & ->). apply String.eqb_neq in Hne.
    now rewrite Hne, String.eqb_refl.
Qed.

Lemma present_true field : present field = true <-> given field.
Proof.
  unfold present, given, truthy. split.
  - destruct field as [s|]; [|discriminate]. intros H. exists s.
    destruct (String.eqb_spec s ""); [discriminate|]. auto.
  - intros (s & -> & Hne). apply String.eqb_neq in Hne. now rewrite Hne.
Qed.

Lemma bodyComplete_true body :
  present (body_name body) && present (body_displayName body)
  && present (body_email body) && present (body_calendarId body) = true
  <-> bodyComplete body.
Proof.
  unfold bodyComplete. rewrite !andb_true_iff, !present_true. tauto.
Qed.

Lemma given_orEmpty field : given field -> field = Some (orEmpty field).
Proof. intros (s & -> & _). reflexivity. Qed.

End Routes.

(** The token check of the webhook.  A request whose token is missing or
    empty is answered 401 and one whose token differs from the configured
    one 403, and neither touches the store: no booking, no room and no
    audit row is written.  In particular, when no token is configured
    nothing is ever handled.  A request that carries the configured token
    is handed to [handleCommand]; when it is answered 200, with the
    response of [handleCommand], the one audit row written for it records
    the resolved client address, which is the peer address rather than the
    one the payload claims whenever there is no forwarding header. *)
Theorem postCommand_requires_the_token outgoingToken policy clock req db :
  let reply := fst (postCommand outgoingToken policy clock req db) in
  let db' := snd (postCommand outgoingToken policy clock req db) in
  (token (req_body req) = "" -> reply = ReplyUnauthenticated /\ db' = db)
  /\ (token (req_body req) <> "" -> token (req_body req) <> outgoingToken ->
      reply = ReplyInvalidToken /\ db' = db)
  /\ (replyStatus reply = 200 ->
      outgoingToken <> "" /\ token (req_body req) = outgoingToken
      /\ exists entry,
           audit_logs db' = audit_logs db ++ [entry]
           /\ log_ipAddress entry = clientIp req
           /\ log_userEmail entry = writerEmail (req_body req)
           /\ log_roomName entry = roomName (req_body req)
           /\ (req_forwardedFor req = None ->
               forall peer, req_ip req = Some peer -> peer <> "" ->
                            log_ipAddress entry = peer)).
Proof.
  intros reply db'. subst reply db'. unfold postCommand, validateToken, truthy.
  destruct (String.eqb_spec (token (req_body req)) "") as [Hempty|Hgiven];
    cbn [negb fst snd].
  - split; [auto|]. split; [congruence|]. discriminate.
  - destruct (String.eqb_spec (token (req_body req)) outgoingToken) as [Hok|Hbad];
      cbn [negb fst snd].
    + split; [congruence|]. split; [congruence|].
      destruct (response (handleCommand policy clock
                            (withIp (req_body req) (clientIp req)) db))
        as [answer|thrown] eqn:Hanswer; cbn [fst snd replyStatus];
        [intros _|discriminate].
      split; [congruence|]. split; [assumption|].
      destruct (handleCommand_audit_origin policy clock
                  (withIp (req_body req) (clientIp req)) db answer Hanswer)
        as (entry & H1 & H2 & H3 & H4).
      exists entry. repeat split; try assumption.
      intros Hnone peer Hpeer Hne. rewrite H2. cbn [ip withIp].
      unfold clientIp, orElse, truthy. rewrite Hnone, Hpeer.
      apply String.eqb_neq in Hne. now rewrite Hne.
    + split; [congruence|]. split; [auto|]. discriminate.
Qed.

(** [createRoom]: when it returns, the room read back is the new row, with
    the values given and an id no other room has; it is appended to the
    table and nothing else changes; no other room has its name or its
    email; every name that found a room before still finds that room; and
    the new room is found under its own name exactly when no older room
    has that name up to letter case. *)
Theorem createRoom_registers_the_room db room found db' :
  createRoom db room = Some (found, db') ->
  exists stored,
    found = Some stored
    /\ rooms db' = rooms db ++ [stored]
    /\ bookings db' = bookings db /\ audit_logs db' = audit_logs db
    /\ (room_name stored, room_displayName stored, room_email stored,
        room_calendarId stored, room_capacity stored, room_location stored,
        room_autoAccept stored)
       = (room_name room, room_displayName room, room_email room,
          room_calendarId room, room_capacity room, room_location room,
          room_autoAccept room)
    /\ (forall r, In r (rooms db) ->
          room_id r <> room_id stored /\ room_name r <> room_name stored
          /\ room_email r <> room_email stored)
    /\ getRoomById db' (room_id stored) = Some stored
    /\ (forall name r, getRoomByName db name = Some r ->
                       getRoomByName db' name = Some r)
    /\ (getRoomByName db' (room_name room) = Some stored <->
        getRoomByName db (room_name room) = None).
Proof.
  intros H. apply createRoom_Some in H as (-> & -> & Hfresh).
  set (stored := storedRoom db room).
  assert (Hget : getRoomById (withRooms db (rooms db ++ [stored])) (room_id stored)
                 = Some stored).
  { unfold getRoomById. cbn [rooms withRooms].
    rewrite find_snoc_fresh.
    - now rewrite Z.eqb_refl.
    - intros y Hy. apply room_id_below_next in Hy.
      cbn [room_id stored storedRoom]. lia. }
  exists stored.
  split; [reflexivity|]. split; [reflexivity|]. split; [reflexivity|].
  split; [reflexivity|]. split; [reflexivity|].
  split; [|split; [exact Hget|split]].
  - intros r Hr. pose proof (room_id_below_next db r Hr) as Hlt.
    destruct (Hfresh r Hr) as [Hn He].
    cbn [room_id room_name room_email stored storedRoom].
    repeat split; [lia|assumption..].
  - intros name r Hr. unfold getRoomByName in *. cbn [rooms withRooms].
    now apply find_snoc_found.
  - unfold getRoomByName. cbn [rooms withRooms]. split.
    + intros Hnew.
      destruct (find _ (rooms db)) as [old|] eqn:Hold; [|reflexivity].
      rewrite (find_snoc_found _ _ stored old Hold) in Hnew.
      injection Hnew as ->. apply find_some in Hold as [Hin _].
      apply room_id_below_next in Hin. cbn [room_id stored storedRoom] in Hin.
      lia.
    + intros Hnone. rewrite find_snoc_fresh by (now apply find_none_all).
      cbn [room_name stored storedRoom]. now rewrite String.eqb_refl.
Qed.

Lemma createRoom_registers_the_room_witness :
  exists stored,
    rooms (withRooms Samples.emptyStore
             (rooms Samples.emptyStore ++
              [{| room_id := 2; room_name := "a"; room_displayName := "Annex";
                  room_email := "annex@example.com";
                  room_calendarId := "annex@example.com"; room_capacity := 4;
                  room_location := ""; room_autoAccept := true |}]))
    = rooms Samples.emptyStore ++ [stored]
    /\ room_id stored = 2
    /\ getRoomByName Samples.emptyStore "a" = Some Samples.roomA.
Proof.
  destruct (createRoom_registers_the_room Samples.emptyStore
              {| room_id := 0; room_name := "a"; room_displayName := "Annex";
                 room_email := "annex@example.com";
                 room_calendarId := "annex@example.com"; room_capacity := 4;
                 room_location := ""; room_autoAccept := true |}
              _ _ eq_refl)
    as (stored & Hfound & Hrooms & _).
  exists stored. split; [exact Hrooms|]. split; [|reflexivity].
  injection Hfound as <-. reflexivity.
Defined.

(** POST /admin/rooms.  The reply is 401 exactly when the request does not
    carry the configured key (in particular when [ADMIN_API_KEY] is unset
    or empty, or the [x-api-key] header is absent or different); with the
    key, it is 400 exactly when the name, the display name, the email or
    the calendar id is missing or empty, 500 exactly when the body is
    complete and a room already has its name or its email, and 201
    otherwise.  The replies 401, 400 and 500 carry no room and leave the
    store as it was.  With 201 exactly one room was appended, with the
    name, display name, email and calendar id of the body, none of them
    empty, capacity 0 and an empty location when the body gives none, and
    auto-accept on unless the body says false. *)
Theorem postRoom_guarded adminKey apiKey body db :
  let status := fst (fst (postRoom adminKey apiKey body db)) in
  let created := snd (fst (postRoom adminKey apiKey body db)) in
  let db' := snd (postRoom adminKey apiKey body db) in
  In status [201; 400; 401; 500]
  /\ (status <> 201 -> created = None /\ db' = db)
  /\ ((adminKey = None \/ adminKey = Some "" \/ apiKey <> adminKey) ->
      status = 401)
  /\ (status = 401 <-> ~ keyAccepted adminKey apiKey)
  /\ (status = 400 <-> keyAccepted adminKey apiKey /\ ~ bodyComplete body)
  /\ (status = 500 <->
      keyAccepted adminKey apiKey /\ bodyComplete body
      /\ nameOrEmailTaken db body)
  /\ (status = 201 <->
      keyAccepted adminKey apiKey /\ bodyComplete body
      /\ ~ nameOrEmailTaken db body)
  /\ (status = 201 ->
      apiKey = adminKey
      /\ exists stored,
           created = Some stored
           /\ rooms db' = rooms db ++ [stored]
           /\ bookings db' = bookings db /\ audit_logs db' = audit_logs db
           /\ body_name body = Some (room_name stored)
           /\ body_displayName body = Some (room_displayName stored)
           /\ body_email body = Some (room_email stored)
           /\ body_calendarId body = Some (room_calendarId stored)
           /\ room_name stored <> ""
           /\ room_displayName stored <> ""
           /\ room_email stored <> ""
           /\ room_calendarId stored <> ""
           /\ room_capacity stored = match body_capacity body with
                                     | Some c => c
                                     | None => 0
                                     end
           /\ room_location stored = orEmpty (body_location body)
           /\ (room_autoAccept stored = false <->
               body_autoAccept body = Some false)).
Proof.
  intros status created db'. subst status created db'. unfold postRoom.
  pose proof (requireAdminAuth_true adminKey apiKey) as Hauth.
  pose proof (bodyComplete_true body) as Hcomplete.
  destruct (requireAdminAuth adminKey apiKey); cbn [negb].
  - assert (Hkey : keyAccepted adminKey apiKey) by now apply Hauth.
    assert (Hsame : apiKey = adminKey /\ adminKey <> None /\ adminKey <> Some "").
    { destruct Hkey as (key & -> & Hne & ->). repeat split; congruence. }
    destruct Hsame as (Hsame & Hsome & Hfull).
    destruct (present (body_name body) && present (body_displayName body)
              && present (body_email body) && present (body_calendarId body));
      cbn [negb].
    + assert (Hbody : bodyComplete body) by now apply Hcomplete.
      destruct (createRoom db _) as [[found db1]|] eqn:Hcreate; cbn [fst snd].
      * apply createRoom_Some in Hcreate as (-> & -> & Hfresh).
        cbn [room_name room_email] in Hfresh.
        assert (Hfree : ~ nameOrEmailTaken db body).
        { intros (r & Hr & Htaken). destruct (Hfresh r Hr) as [Hn He].
          destruct Hbody as (Hname & _ & Hemail & _).
          apply given_orEmpty in Hname. apply given_orEmpty in Hemail.
          destruct Htaken; congruence. }
        split; [simpl; auto|]. split; [congruence|].
        split; [intros [?|[?|?]]; congruence|].
        split; [split; [discriminate|tauto]|].
        split; [split; [discriminate|tauto]|].
        split; [split; [discriminate|tauto]|].
        split; [tauto|]. intros _.
        split; [assumption|].
        destruct Hbody as ((n & Hn & Hn') & (d & Hd & Hd') & (e & He & He')
                           & (c & Hc & Hc')).
        eexists. split; [reflexivity|].
        rewrite Hn, Hd, He, Hc.
        cbn [orEmpty storedRoom room_name room_displayName room_email
             room_calendarId room_capacity room_location room_autoAccept
             rooms bookings audit_logs withRooms].
        do 11 (split; [first [reflexivity|assumption]|]).
        split; [reflexivity|]. split; [reflexivity|].
        destruct (body_autoAccept body) as [[]|]; split; congruence.
      * apply createRoom_None in Hcreate as (r & Hr & Htaken).
        cbn [room_name room_email] in Htaken.
        assert (Hdup : nameOrEmailTaken db body).
        { exists r. split; [assumption|].
          destruct Hbody as (Hname & _ & Hemail & _).
          apply given_orEmpty in Hname. apply given_orEmpty in Hemail.
          destruct Htaken as [H|H]; [left|right]; congruence. }
        split; [simpl; auto|]. split; [auto|].
        split; [intros [?|[?|?]]; congruence|].
        split; [split; [discriminate|tauto]|].
        split; [split; [discriminate|tauto]|].
        split; [tauto|].
        split; [split; [discriminate|tauto]|]. discriminate.
    + assert (Hbody : ~ bodyComplete body)
        by (intros H; apply Hcomplete in H; discriminate).
      cbn [fst snd]. split; [simpl; auto|]. split; [auto|].
      split; [intros [?|[?|?]]; congruence|].
      split; [split; [discriminate|tauto]|].
      split; [tauto|].
      split; [split; [discriminate|tauto]|].
      split; [split; [discriminate|tauto]|]. discriminate.
  - assert (Hkey : ~ keyAccepted adminKey apiKey)
      by (intros H; apply Hauth in H; discriminate).
    cbn [fst snd]. split; [simpl; auto|]. split; [auto|].
    split; [reflexivity|].
    split; [tauto|].
    split; [split; [discriminate|tauto]|].
    split; [split; [discriminate|tauto]|].
    split; [split; [discriminate|tauto]|]. discriminate.
Qed.

(** A request with the configured token that came through a proxy: it is
    handled, and the audit row holds the first forwarded address. *)
Example postCommand_through_a_proxy :
  let req := {| req_body := Samples.saying "status";
                req_forwardedFor := Some " 203.0.113.9 , 10.0.0.1";
                req_ip := Some "10.0.0.1" |} in
  let out := postCommand "tok" defaultPolicy (Samples.clockFrom 1700000000000)
               req Samples.emptyStore in
  replyStatus (fst out) = 200
  /\ map log_ipAddress (audit_logs (snd out)) = ["203.0.113.9"]
  /\ fst (postCommand "other" defaultPolicy (Samples.clockFrom 1700000000000)
            req Samples.emptyStore) = ReplyInvalidToken.
Proof. repeat split. Qed.

(** A room posted with the key, without capacity or location. *)
Example postRoom_with_the_key :
  let body := {| body_name := Some "B"; body_displayName := Some "Room B";
                 body_email := Some "room-b@example.com";
                 body_calendarId := Some "room-b@example.com";
                 body_capacity := None; body_location := None;
                 body_autoAccept := None |} in
  let out := postRoom (Some "secret") (Some "secret") body Samples.emptyStore in
  fst (fst out) = 201
  /\ map (fun r => (room_id r, room_name r, room_capacity r, room_autoAccept r))
         (rooms (snd out))
     = [(1, "A", 8, true); (2, "B", 0, true)]
  /\ fst (fst (postRoom None (Some "secret") body Samples.emptyStore)) = 401
  /\ fst (fst (postRoom (Some "secret") (Some "secret") body (snd out))) = 500.
Proof. repeat split. Qed.

(* ================================================================= *)
(** ** The initialisation script *)

Section Seed.

Lemma getAllRooms_nil db : getAllRooms db = [] <-> rooms db = [].
Proof.
  split; intros H.
  - apply Permutation_nil. rewrite <- H. symmetry.
    unfold getAllRooms. induction (rooms db) as [|x l IH]; simpl; [reflexivity|].
    rewrite insertRoom_perm. now constructor.
  - unfold getAllRooms. now rewrite H.
Qed.

End Seed.

(** The initialisation script can be run again: on a rooms table that
    holds anything it changes nothing, and on an empty one it inserts the
    two sample rooms with ids 1 and 2, after which the room words of the
    documented book commands resolve; so running it twice is running it
    once, and it never touches bookings or audit rows. *)
Theorem initSampleRooms_idempotent db :
  initSampleRooms (initSampleRooms db) = initSampleRooms db
  /\ bookings (initSampleRooms db) = bookings db
  /\ audit_logs (initSampleRooms db) = audit_logs db
  /\ (rooms db <> [] -> initSampleRooms db = db)
  /\ (rooms db = [] ->
      map (fun r => (room_id r, room_name r, room_capacity r))
          (getAllRooms (initSampleRooms db))
      = [(1, "대", 12); (2, "소", 4)]
      /\ option_map room_id (getRoomByName (initSampleRooms db) "대") = Some 1
      /\ option_map room_id (getRoomByName (initSampleRooms db) "소") = Some 2).
Proof.
  assert (Hkeep : rooms db <> [] -> initSampleRooms db = db).
  { intros Hne. unfold initSampleRooms.
    destruct (getAllRooms db) eqn:E; [|reflexivity].
    apply getAllRooms_nil in E. contradiction. }
  assert (Hfill : rooms db = [] ->
            initSampleRooms db
            = withRooms db
                [ {| room_id := 1; room_name := "대";
                     room_displayName := "대 회의실";
                     room_email := "room-large@your-domain.com";
                     room_calendarId := "room-large@your-domain.com";
                     room_capacity := 12; room_location := "2층";
                     room_autoAccept := true |};
                  {| room_id := 2; room_name := "소";
                     room_displayName := "소 회의실";
                     room_email := "room-small@your-domain.com";
                     room_calendarId := "room-small@your-domain.com";
                     room_capacity := 4; room_location := "2층";
                     room_autoAccept := true |} ]).
  { intros Hempty. destruct db as [rs bs logs]. cbn [rooms] in Hempty.
    subst rs. reflexivity. }
  destruct (rooms db) as [|r rs] eqn:Hrooms.
  - rewrite (Hfill eq_refl).
    split; [reflexivity|]. split; [reflexivity|]. split; [reflexivity|].
    split; [congruence|]. intros _. repeat split.
  - rewrite !Hkeep by discriminate.
    split; [reflexivity|]. split; [reflexivity|]. split; [reflexivity|].
    split; [reflexivity|]. discriminate.
Qed.
